(** * The supervised P2P services of ankermake-m5-protocol

    A shallow embedding of the Python sources

      - [test_transfer.py]             (rate limiter, chunked upload),
      - [web/service/pppp.py]          (the P2P service: cleanup, backoff, run loop),
      - [web/service/video.py]         (the video consumer),
      - [web/service/filetransfer.py]  (the upload service),

    together with the properties the specification states about them.

    Conventions of the embedding.

    - A Python method is a computation in the monad [M]: it reads and
      updates the object ([self]) and appends to a chronological [trace]
      of what it did to the outside world (foreign calls, sleeps, clock
      reads).  It ends by returning, by raising, or (for the polling
      [while] loops only) by exhausting its fuel.
    - Everything the program does not decide itself is asked from an
      environment [Env]: the wall clock, whether a foreign call raises,
      what [api.state] reads, what [recv] delivers.  Each answer may
      depend on the whole history, so theorems quantified over [Env]
      cover every behaviour of the device, the network and the clock.
    - Times and rates are Python floats in the source; they are rationals
      ([Q]) here, so the arithmetic is exact.
    - Logging is not modelled, except where a log line is the only effect
      of a branch (the branch is then kept, and empty). *)

From Stdlib Require Import ZArith QArith Lqa Lia Bool List String Arith.
From Stdlib.Strings Require Import Byte.
Import ListNotations.

Set Implicit Arguments.

Open Scope Q_scope.

(** Python's [len] on sequences. *)
Abbreviation len := List.length.

(** ** Python exceptions *)

(** The exception classes the sources raise or catch.  [OtherException]
    stands for any further subclass of [Exception]; classes outside
    [Exception] ([KeyboardInterrupt], [SystemExit]) are not modelled.
    [ServiceRestartSignal] and [ServiceStoppedError] are declared in
    [web/lib/service.py] as subclasses of [Exception]. *)
Inductive Exn : Type :=
| ConnectionError (msg : string)
| ConnectionResetError
| ConnectionRefusedError (msg : string)
| TimeoutError (msg : string)
| OSError
| AttributeError
| StopIteration
| ZeroDivisionError
| ServiceRestartSignal (msg : string)
| ServiceStoppedError (msg : string)
| OtherException (tag : nat).

(** [except TimeoutError] *)
Definition is_TimeoutError (e : Exn) : bool :=
  match e with TimeoutError _ => true | _ => false end.

(** [except StopIteration] *)
Definition is_StopIteration (e : Exn) : bool :=
  match e with StopIteration => true | _ => false end.

(** [except AttributeError] *)
Definition is_AttributeError (e : Exn) : bool :=
  match e with AttributeError => true | _ => false end.

(** [except ConnectionResetError] *)
Definition is_ConnectionResetError (e : Exn) : bool :=
  match e with ConnectionResetError => true | _ => false end.

(** [except socket.error], that is [OSError] and its subclasses. *)
Definition is_OSError (e : Exn) : bool :=
  match e with
  | OSError | ConnectionError _ | ConnectionResetError
  | ConnectionRefusedError _ | TimeoutError _ => true
  | _ => false
  end.

(** [except Exception] and the bare [except:]. *)
Definition is_Exception (e : Exn) : bool := true.

(** ** Data shared by the services *)

Definition bytes := list byte.

(** [libflagship.ppppapi.PPPPState] *)
Inductive PPPPState : Type :=
| Idle | LanSearching | Connecting | Connected | Closing | Stopped.

Definition is_Connected (s : PPPPState) : bool :=
  match s with Connected => true | _ => false end.

(** [libflagship.pppp.FileTransfer] *)
Inductive FileTransfer : Type := BEGIN | DATA | END.

(** [libflagship.pppp.P2PCmdType], the two commands used here. *)
Inductive P2PCmdType : Type := P2P_SEND_FILE | P2P_JSON_CMD.

(** The JSON commands the services send through [api_command]. *)
Inductive Command : Type :=
| Heartbeat | START_LIVE | CLOSE_LIVE
| LIGHT_STATE_SWITCH (light : bool) | LIVE_MODE_SET (mode : nat).

(** An inbound packet: its channel (when it has one), whether it is an
    [Xzyh] and an identifier standing for its content. *)
Record Packet : Type := mkPacket {
  chan : option nat;
  is_Xzyh : bool;
  pkt_id : nat
}.

(** The four byte pipes of a channel: [ch.rx.rx], [ch.rx.tx], [ch.tx.rx],
    [ch.tx.tx]. *)
Inductive Pipe : Type := RxRx | RxTx | TxRx | TxTx.

(** What the services look at in an [AnkerPPPPApi] object: its identity
    ([id(api)]), whether it has a socket, whether the attribute
    [_close_received] is there, and its channels ([None] when the object
    has no attribute [chans]). *)
Record Api : Type := mkApi {
  api_id : nat;
  sock : bool;
  close_received : bool;
  chans : option nat
}.

(** A printer of the configuration. *)
Record Printer : Type := mkPrinter {
  printer_name : string;
  ip_addr : option string;
  p2p_duid : string
}.

(** [web.lib.service.RunState] *)
Inductive RunState : Type :=
| RunState_Starting | RunState_Running | RunState_Stopping | RunState_Stopped.

(** ** The outside world *)

(** Foreign calls: methods of objects the sources do not define. *)
Inductive Op : Type :=
| api_send_xzyh (payload : bytes) (cmd : P2PCmdType) (block : option bool)
| api_aabb_request (payload : bytes) (frametype : FileTransfer) (pos : option nat)
| api_json_command (c : Command)
| api_send_PktClose
| api_stop
| api_recv (timeout : Q)
| api_process (msg : Packet)
| api_create
| api_connect_lan_search
| api_start
| api_set_dumper
| chan_close (ch : nat) (p : Pipe)
| sock_create
| sock_setsockopt_reuseaddr
| sock_setsockopt_reuseport
| sock_setsockopt_linger
| sock_bind
| sock_getsockname
| sock_getpeername
| sock_shutdown
| sock_close
| dumper_open
| dumper_close
| handler_call (h : nat) (ch : option nat) (msg : Packet)
| svc_get (name : string)
| svc_put (name : string)
| service_start
| service_stop
| service_notify (msg : Packet)
| fd_read.

Inductive Event : Type :=
| Called (op : Op)
| Slept (seconds : Q)
| Clock (t : Q).

Definition History := list Event.

(** What the program asks from its environment.  Every answer is a
    function of the history so far. *)
Record Env : Type := mkEnv {
  clock : History -> Q;                        (* [time.time()], [datetime.now()] *)
  raises : History -> Op -> option Exn;        (* does this foreign call raise? *)
  api_state : History -> PPPPState;            (* [api.state] *)
  api_stopped : History -> bool;               (* [api.stopped.is_set()] *)
  recv_result : History -> option Packet;      (* what [api.recv] returns *)
  uuid4 : History -> bytes;                    (* [str(uuid.uuid4()).encode()] *)
  file_bytes : History -> bytes;               (* what [fd.read()] returns *)
  windows : bool;                              (* [platform.system() == 'Windows'] *)
  printer_config : History -> option Printer;  (* the configured printer, if a config is there *)
  pppp_dump : option string;                   (* [app.config["pppp_dump"]] *)
  new_api : History -> Api;                    (* the object [AnkerPPPPApi(...)] builds *)
  pppp_service : History -> option (option Api); (* [app.svc.get("pppp")] and its [_api] *)
  run_state : History -> RunState              (* [self.state] of a service *)
}.

(** ** The monad of Python methods *)

Inductive outcome (A : Type) : Type :=
| Return (a : A)
| Raise (e : Exn)
| OutOfFuel.

Arguments Return {A} a.
Arguments Raise {A} e.
Arguments OutOfFuel {A}.

(** The object a method runs on and the history of its effects. *)
Record St (Self : Type) : Type := mkSt {
  self : Self;
  trace : History
}.

Definition M (Self A : Type) : Type := St Self -> outcome A * St Self.

Section Monad.
Context {Self : Type}.

Definition ret {A} (a : A) : M Self A := fun s => (Return a, s).

Definition bind {A B} (c : M Self A) (k : A -> M Self B) : M Self B :=
  fun s =>
    match c s with
    | (Return a, s') => k a s'
    | (Raise e, s') => (Raise e, s')
    | (OutOfFuel, s') => (OutOfFuel, s')
    end.

Definition raise {A} (e : Exn) : M Self A := fun s => (Raise e, s).

Definition out_of_fuel {A} : M Self A := fun s => (OutOfFuel, s).

(** [try: c  except <catches>: h] *)
Definition try_except {A} (c : M Self A) (catches : Exn -> bool)
           (h : Exn -> M Self A) : M Self A :=
  fun s =>
    match c s with
    | (Raise e, s') => if catches e then h e s' else (Raise e, s')
    | r => r
    end.

(** [try: c  finally: f] *)
Definition try_finally {A} (c : M Self A) (f : M Self unit) : M Self A :=
  fun s =>
    match c s with
    | (Return a, s') =>
        match f s' with
        | (Return _, s'') => (Return a, s'')
        | (Raise e, s'') => (Raise e, s'')
        | (OutOfFuel, s'') => (OutOfFuel, s'')
        end
    | (Raise e, s') =>
        match f s' with
        | (Return _, s'') => (Raise e, s'')
        | (Raise e', s'') => (Raise e', s'')
        | (OutOfFuel, s'') => (OutOfFuel, s'')
        end
    | (OutOfFuel, s') => (OutOfFuel, s')
    end.

Definition get_self : M Self Self := fun s => (Return (self s), s).

Definition modify (f : Self -> Self) : M Self unit :=
  fun s => (Return tt, mkSt (f (self s)) (trace s)).

Definition log (ev : Event) : M Self unit :=
  fun s => (Return tt, mkSt (self s) (trace s ++ [ev])).

Definition history : M Self History := fun s => (Return (trace s), s).
End Monad.

Declare Scope py_scope.
Delimit Scope py_scope with py.
Notation "x <- c ;; k" := (bind c (fun x => k))
  (at level 100, c at next level, right associativity) : py_scope.
Notation "c ;; k" := (bind c (fun _ => k))
  (at level 100, right associativity) : py_scope.
Open Scope py_scope.

(** [for x in xs: body x] *)
Fixpoint for_each {Self A} (xs : list A) (body : A -> M Self unit) : M Self unit :=
  match xs with
  | [] => ret tt
  | x :: rest => body x ;; for_each rest body
  end.

(** ** Asking the environment *)

Section Runtime.
Variable env : Env.
Context {Self : Type}.

(** A foreign call: recorded, then it returns or raises as the
    environment decides. *)
Definition call (op : Op) : M Self unit :=
  fun s =>
    let s' := mkSt (self s) (trace s ++ [Called op]) in
    match raises env (trace s) op with
    | Some e => (Raise e, s')
    | None => (Return tt, s')
    end.

(** [time.time()] *)
Definition time_time : M Self Q :=
  fun s =>
    let t := clock env (trace s) in
    (Return t, mkSt (self s) (trace s ++ [Clock t])).

(** [time.sleep(d)] *)
Definition time_sleep (d : Q) : M Self unit := log (Slept d).

(** [api.recv(timeout)]: a foreign call with a result. *)
Definition recv (timeout : Q) : M Self (option Packet) :=
  fun s =>
    let s' := mkSt (self s) (trace s ++ [Called (api_recv timeout)]) in
    match raises env (trace s) (api_recv timeout) with
    | Some e => (Raise e, s')
    | None => (Return (recv_result env (trace s)), s')
    end.

(** [api.state] *)
Definition read_api_state : M Self PPPPState :=
  fun s => (Return (api_state env (trace s)), s).

(** [api.stopped.is_set()] *)
Definition read_api_stopped : M Self bool :=
  fun s => (Return (api_stopped env (trace s)), s).
End Runtime.

(** Comparisons of floats. *)
Definition Qltb (a b : Q) : bool := negb (Qle_bool b a).
Definition Qleb (a b : Q) : bool := Qle_bool a b.

(** An [int] used as a float. *)
Definition Q_of_nat (n : nat) : Q := inject_Z (Z.of_nat n).

(** Python's [min(a, b)]: [b] if [b < a], else [a]. *)
Definition py_min (a b : Q) : Q := if Qltb b a then b else a.

(** * Part I: the sources *)

(** ** [test_transfer.py] *)

Module Transfer.

(** [class RateLimiter]: its three attributes. *)
Record RateLimiter : Type := mkRateLimiter {
  rate_bytes : Q;
  last_check : Q;
  bytes_sent : Z
}.

(** [libflagship.ppppapi.FileUploadInfo]; its serialisation [bytes(fui)]
    lives in libflagship and is a parameter below. *)
Record FileUploadInfo : Type := mkFileUploadInfo {
  name : string;
  size : nat;
  md5 : string;
  user_name : string;
  user_id : string;
  machine_id : string
}.

(** [blocksize = 1024 * 32] *)
Definition blocksize : nat := 1024 * 32.

(** [range(start, stop, step)] for a positive step, by iteration: the
    loop variable advances by [step] while it is below [stop].  [stop]
    iterations are always enough. *)
Fixpoint range_from (fuel pos stop step : nat) : list nat :=
  match fuel with
  | O => []
  | S fuel' =>
      if (pos <? stop)%nat then pos :: range_from fuel' (pos + step) stop step
      else []
  end.

Definition py_range (start stop step : nat) : list nat :=
  range_from stop start stop step.

(** [data[lo:hi]] *)
Definition slice (data : bytes) (lo hi : nat) : bytes :=
  firstn (hi - lo) (skipn lo data).

Section TestTransfer.
Variable env : Env.
Variable fui_bytes : FileUploadInfo -> bytes.
Context {Self : Type}.

(** [RateLimiter.__init__] *)
Definition RateLimiter_init (rate_mbps : Q) : M Self RateLimiter :=
  now <- time_time env ;;
  ret (mkRateLimiter (rate_mbps * 1024 * 1024 / 8) now 0).

(** [RateLimiter.wait] *)
Definition wait (chunk_size : Z) (rl : RateLimiter) : M Self RateLimiter :=
  current_time <- time_time env ;;
  let time_passed := current_time - last_check rl in
  rl1 <- (if Qleb 1 time_passed then
            ret (mkRateLimiter (rate_bytes rl) current_time 0)
          else if Qltb (rate_bytes rl) (inject_Z (bytes_sent rl + chunk_size)) then
            let sleep_time := 1 - time_passed in
            time_sleep sleep_time ;;
            t <- time_time env ;;
            ret (mkRateLimiter (rate_bytes rl) t 0)
          else
            ret rl) ;;
  ret (mkRateLimiter (rate_bytes rl1) (last_check rl1)
                     (bytes_sent rl1 + chunk_size)).

(** [while api.state != PPPPState.Connected: ...], one unit of fuel per
    iteration. *)
Fixpoint wait_connected (fuel : nat) : M Self unit :=
  st <- read_api_state env ;;
  if is_Connected st then ret tt
  else
    match fuel with
    | O => out_of_fuel
    | S fuel' =>
        time_sleep (1 # 10) ;;
        stopped <- read_api_stopped env ;;
        if stopped then raise (ConnectionError "API thread stopped")
        else wait_connected fuel'
    end.

(** The body of [for pos in range(0, len(data), blocksize)], over the
    positions still to visit.  The progress computation only feeds the
    log and is left out. *)
Fixpoint send_chunks (positions : list nat) (data : bytes) (rl : RateLimiter)
  : M Self RateLimiter :=
  match positions with
  | [] => ret rl
  | pos :: rest =>
      let chunk := slice data pos (pos + blocksize) in
      rl' <- wait (Z.of_nat (len chunk)) rl ;;
      call env (api_aabb_request chunk DATA (Some pos)) ;;
      send_chunks rest data rl'
  end.

(** [send_file(api, fui, data, rate_limit_mbps)] *)
Definition send_file (fuel : nat) (fui : FileUploadInfo) (data : bytes)
           (rate_limit_mbps : Q) : M Self unit :=
  wait_connected fuel ;;
  rate_limiter <- RateLimiter_init rate_limit_mbps ;;
  h <- history ;;
  let transfer_id := firstn 16 (uuid4 env h) in
  call env (api_send_xzyh transfer_id P2P_SEND_FILE None) ;;
  let metadata := fui_bytes fui ++ [x00] in
  call env (api_aabb_request metadata BEGIN None) ;;
  send_chunks (py_range 0 (len data) blocksize) data rate_limiter ;;
  call env (api_aabb_request [] END None) ;;
  ret tt.

End TestTransfer.

End Transfer.

(** ** [web/service/pppp.py] *)

Module PPPP.

Definition HEARTBEAT_INTERVAL : Q := 15.
Definition MAX_RETRY_INTERVAL : Q := 30.
Definition MAX_RETRY_COUNT : nat := 5.
Definition INITIAL_RETRY_DELAY : nat := 2.
Definition HEARTBEAT_FAIL_THRESHOLD : nat := 3.
Definition CLEANUP_WAIT : Q := 1.
Definition RECONNECT_DELAY : Q := 5.

(** The attributes [PPPPService.__init__] creates.  A handler is known by
    an identifier; the packet dumper by the path it writes to. *)
Record PPPPService : Type := mkPPPPService {
  retry_count : nat;
  last_connection_attempt : Q;
  last_successful_connection : Q;
  _api : option Api;
  _last_heartbeat : Q;
  heartbeat_fail_count : nat;
  total_restarts : nat;
  last_restart_time : option Q;
  handlers : list nat;
  stopping : bool;
  dumper : option string;
  restart_pending : bool;
  last_cleanup_time : Q
}.

(** Assignments to the attributes. *)
Definition set_retry_count (v : nat) (s : PPPPService) : PPPPService :=
  mkPPPPService v (last_connection_attempt s) (last_successful_connection s)
    (_api s) (_last_heartbeat s) (heartbeat_fail_count s) (total_restarts s)
    (last_restart_time s) (handlers s) (stopping s) (dumper s)
    (restart_pending s) (last_cleanup_time s).

Definition set_last_connection_attempt (v : Q) (s : PPPPService) : PPPPService :=
  mkPPPPService (retry_count s) v (last_successful_connection s) (_api s)
    (_last_heartbeat s) (heartbeat_fail_count s) (total_restarts s)
    (last_restart_time s) (handlers s) (stopping s) (dumper s)
    (restart_pending s) (last_cleanup_time s).

Definition set_last_successful_connection (v : Q) (s : PPPPService) : PPPPService :=
  mkPPPPService (retry_count s) (last_connection_attempt s) v (_api s)
    (_last_heartbeat s) (heartbeat_fail_count s) (total_restarts s)
    (last_restart_time s) (handlers s) (stopping s) (dumper s)
    (restart_pending s) (last_cleanup_time s).

Definition set__api (v : option Api) (s : PPPPService) : PPPPService :=
  mkPPPPService (retry_count s) (last_connection_attempt s)
    (last_successful_connection s) v (_last_heartbeat s)
    (heartbeat_fail_count s) (total_restarts s) (last_restart_time s)
    (handlers s) (stopping s) (dumper s) (restart_pending s)
    (last_cleanup_time s).

Definition set__last_heartbeat (v : Q) (s : PPPPService) : PPPPService :=
  mkPPPPService (retry_count s) (last_connection_attempt s)
    (last_successful_connection s) (_api s) v (heartbeat_fail_count s)
    (total_restarts s) (last_restart_time s) (handlers s) (stopping s)
    (dumper s) (restart_pending s) (last_cleanup_time s).

Definition set_heartbeat_fail_count (v : nat) (s : PPPPService) : PPPPService :=
  mkPPPPService (retry_count s) (last_connection_attempt s)
    (last_successful_connection s) (_api s) (_last_heartbeat s) v
    (total_restarts s) (last_restart_time s) (handlers s) (stopping s)
    (dumper s) (restart_pending s) (last_cleanup_time s).

Definition set_total_restarts (v : nat) (s : PPPPService) : PPPPService :=
  mkPPPPService (retry_count s) (last_connection_attempt s)
    (last_successful_connection s) (_api s) (_last_heartbeat s)
    (heartbeat_fail_count s) v (last_restart_time s) (handlers s) (stopping s)
    (dumper s) (restart_pending s) (last_cleanup_time s).

Definition set_last_restart_time (v : option Q) (s : PPPPService) : PPPPService :=
  mkPPPPService (retry_count s) (last_connection_attempt s)
    (last_successful_connection s) (_api s) (_last_heartbeat s)
    (heartbeat_fail_count s) (total_restarts s) v (handlers s) (stopping s)
    (dumper s) (restart_pending s) (last_cleanup_time s).

Definition set_handlers (v : list nat) (s : PPPPService) : PPPPService :=
  mkPPPPService (retry_count s) (last_connection_attempt s)
    (last_successful_connection s) (_api s) (_last_heartbeat s)
    (heartbeat_fail_count s) (total_restarts s) (last_restart_time s) v
    (stopping s) (dumper s) (restart_pending s) (last_cleanup_time s).

Definition set_stopping (v : bool) (s : PPPPService) : PPPPService :=
  mkPPPPService (retry_count s) (last_connection_attempt s)
    (last_successful_connection s) (_api s) (_last_heartbeat s)
    (heartbeat_fail_count s) (total_restarts s) (last_restart_time s)
    (handlers s) v (dumper s) (restart_pending s) (last_cleanup_time s).

Definition set_dumper (v : option string) (s : PPPPService) : PPPPService :=
  mkPPPPService (retry_count s) (last_connection_attempt s)
    (last_successful_connection s) (_api s) (_last_heartbeat s)
    (heartbeat_fail_count s) (total_restarts s) (last_restart_time s)
    (handlers s) (stopping s) v (restart_pending s) (last_cleanup_time s).

Definition set_restart_pending (v : bool) (s : PPPPService) : PPPPService :=
  mkPPPPService (retry_count s) (last_connection_attempt s)
    (last_successful_connection s) (_api s) (_last_heartbeat s)
    (heartbeat_fail_count s) (total_restarts s) (last_restart_time s)
    (handlers s) (stopping s) (dumper s) v (last_cleanup_time s).

Definition set_last_cleanup_time (v : Q) (s : PPPPService) : PPPPService :=
  mkPPPPService (retry_count s) (last_connection_attempt s)
    (last_successful_connection s) (_api s) (_last_heartbeat s)
    (heartbeat_fail_count s) (total_restarts s) (last_restart_time s)
    (handlers s) (stopping s) (dumper s) (restart_pending s) v.

(** [PPPPService.__init__] *)
Definition init : PPPPService :=
  mkPPPPService 0 0 0 None 0 0 0 None [] false None false 0.

(** A method of [PPPPService]. *)
Abbreviation Method := (M PPPPService).

Section Service.
Variable env : Env.

(** [try: c  except Exception: (log)] *)
Definition guarded (c : Method unit) : Method unit :=
  try_except c is_Exception (fun _ => ret tt).

(** The body of [for ch in self._api.chans]: the four pipes are closed
    under one [try]. *)
Definition close_channel (ch : nat) : Method unit :=
  guarded (call env (chan_close ch RxRx) ;;
           call env (chan_close ch RxTx) ;;
           call env (chan_close ch TxRx) ;;
           call env (chan_close ch TxTx)).

(** The [try] block of [cleanup_connection], for the session [api]. *)
Definition cleanup_body (api : Api) : Method unit :=
  (if sock api then
     guarded (call env sock_getsockname ;; call env sock_getpeername)
   else ret tt) ;;
  (if negb (close_received api) then
     guarded (call env api_send_PktClose) ;;
     time_sleep (1 # 10)
   else ret tt) ;;
  stopped <- read_api_stopped env ;;
  (if negb stopped then guarded (call env api_stop) else ret tt) ;;
  time_sleep (1 # 10) ;;
  (match chans api with
   | Some n => for_each (seq 0 n) close_channel
   | None => ret tt
   end) ;;
  guarded
    (if sock api then
       (if negb (windows env) then call env sock_setsockopt_linger else ret tt) ;;
       guarded (call env sock_shutdown) ;;
       guarded (call env sock_close)
     else ret tt) ;;
  modify (set_handlers []) ;;
  s <- get_self ;;
  (match dumper s with
   | Some _ => guarded (call env dumper_close)
   | None => ret tt
   end) ;;
  modify (set_dumper None) ;;
  modify (set__api None) ;;
  modify (set__last_heartbeat 0) ;;
  modify (set_heartbeat_fail_count 0) ;;
  time_sleep CLEANUP_WAIT ;;
  now <- time_time env ;;
  modify (set_last_cleanup_time now).

(** The [except Exception] handler of [cleanup_connection].  It runs when
    a step of the [try] block outside the inner [try] statements raises;
    those steps are attribute reads, [Event.is_set], [time.sleep] and log
    lines, which do not raise in this embedding. *)
Definition cleanup_fallback : Method unit :=
  modify (set_handlers []) ;;
  modify (set_dumper None) ;;
  s <- get_self ;;
  (match _api s with
   | Some api =>
       guarded
         ((match chans api with
           | Some n => for_each (seq 0 n) close_channel
           | None => ret tt
           end) ;;
          (if sock api then call env sock_close else ret tt))
   | None => ret tt
   end) ;;
  modify (set__api None) ;;
  modify (set__last_heartbeat 0) ;;
  modify (set_heartbeat_fail_count 0) ;;
  now <- time_time env ;;
  modify (set_last_cleanup_time now).

(** [cleanup_connection] *)
Definition cleanup_connection : Method unit :=
  s <- get_self ;;
  match _api s with
  | Some api => try_except (cleanup_body api) is_Exception (fun _ => cleanup_fallback)
  | None => ret tt
  end.

(** [get_retry_interval] *)
Definition get_retry_interval : Method Q :=
  now <- time_time env ;;
  s <- get_self ;;
  (if Qltb MAX_RETRY_INTERVAL (now - last_connection_attempt s)
   then modify (set_retry_count 0) else ret tt) ;;
  s <- get_self ;;
  (if (MAX_RETRY_COUNT <=? retry_count s)%nat
   then modify (set_retry_count 0) else ret tt) ;;
  s <- get_self ;;
  let interval :=
    py_min (Q_of_nat (INITIAL_RETRY_DELAY * 2 ^ retry_count s)) MAX_RETRY_INTERVAL in
  ret interval.

(** [reset_retry_count] *)
Definition reset_retry_count : Method unit :=
  modify (set_retry_count 0) ;;
  now <- time_time env ;;
  modify (set_last_successful_connection now) ;;
  modify (set_heartbeat_fail_count 0).

(** The property [connected] *)
Definition connected : Method bool :=
  s <- get_self ;;
  match _api s with
  | None => ret false
  | Some _ =>
      stopped <- read_api_stopped env ;;
      st <- read_api_state env ;;
      ret (negb stopped && is_Connected st)
  end.

(** [api_command]; the call stands for
    [self._api.send_xzyh(json.dumps(cmd).encode(), cmd=P2P_JSON_CMD, block=False)]. *)
Definition api_command (c : Command) : Method unit :=
  s <- get_self ;;
  conn <- connected ;;
  match _api s with
  | Some _ =>
      if conn then call env (api_json_command c)
      else raise (ConnectionError "No pppp connection")
  | None => raise (ConnectionError "No pppp connection")
  end.

Definition incr_heartbeat_fail_count (s : PPPPService) : PPPPService :=
  set_heartbeat_fail_count (S (heartbeat_fail_count s)) s.

(** [send_heartbeat] *)
Definition send_heartbeat : Method bool :=
  s <- get_self ;;
  conn <- connected ;;
  if match _api s with Some _ => conn | None => false end then
    try_except
      (api_command Heartbeat ;;
       modify (set_heartbeat_fail_count 0) ;;
       ret true)
      is_Exception
      (fun _ => modify incr_heartbeat_fail_count ;; ret false)
  else
    st <- read_api_state env ;;
    (match _api s with
     | Some _ =>
         if is_Connected st then modify incr_heartbeat_fail_count else ret tt
     | None => ret tt
     end) ;;
    ret false.

(** Lines 243-246 of [worker_start]: an attempt is under way. *)
Definition begin_attempt (now : Q) (s : PPPPService) : PPPPService :=
  set_last_restart_time (Some now)
    (set_total_restarts (S (total_restarts s))
       (set_retry_count (S (retry_count s))
          (set_last_connection_attempt now s))).

(** [for attempt in range(3)]: bind, or wait and try again; the third
    failure is raised. *)
Fixpoint bind_socket (attempts : list nat) : Method unit :=
  match attempts with
  | [] => ret tt
  | attempt :: rest =>
      bound <- try_except
                 (call env sock_bind ;; call env sock_getsockname ;; ret true)
                 is_OSError
                 (fun e =>
                    if (attempt =? 2)%nat then raise e
                    else time_sleep CLEANUP_WAIT ;; ret false) ;;
      if bound then ret tt else bind_socket rest
  end.

(** [while api.state != PPPPState.Connected], one unit of fuel per
    iteration. *)
Fixpoint await_connection (fuel : nat) (deadline : Q) : Method unit :=
  st <- read_api_state env ;;
  if is_Connected st then ret tt
  else
    match fuel with
    | O => out_of_fuel
    | S fuel' =>
        try_except
          (now <- time_time env ;;
           let timeout := deadline - now in
           if Qleb timeout 0 then raise (TimeoutError "Connection timed out")
           else
             msg <- recv env (py_min timeout 1) ;;
             match msg with
             | Some m => call env (api_process m)
             | None => ret tt
             end)
          (fun e => is_TimeoutError e || is_StopIteration e)
          (fun e =>
             if is_TimeoutError e then raise e
             else raise (ConnectionRefusedError "Connection rejected by device")) ;;
        await_connection fuel' deadline
    end.

(** The [try] block of [worker_start], up to the moment the session is
    connected; it yields the new session. *)
Definition establish (fuel : nat) (deadline : Q) : Method Api :=
  call env sock_create ;;
  call env sock_setsockopt_reuseaddr ;;
  try_except (call env sock_setsockopt_reuseport) is_AttributeError
             (fun _ => ret tt) ;;
  (if negb (windows env) then call env sock_setsockopt_linger else ret tt) ;;
  bind_socket [0; 1; 2]%nat ;;
  h <- history ;;
  call env api_create ;;
  let api := new_api env h in
  (match pppp_dump env with
   | Some dumpfile =>
       call env dumper_open ;;
       modify (set_dumper (Some dumpfile)) ;;
       call env api_set_dumper
   | None => ret tt
   end) ;;
  call env api_connect_lan_search ;;
  call env api_start ;;
  await_connection fuel deadline ;;
  ret api.

(** The end of the [try] block: the session is kept. *)
Definition adopt (api : Api) : Method unit :=
  modify (set__api (Some api)) ;;
  now <- time_time env ;;
  modify (set__last_heartbeat now) ;;
  reset_retry_count.

(** Lines 248-322 of [worker_start]: look the printer up and connect. *)
Definition connect (fuel : nat) : Method unit :=
  today <- time_time env ;;
  let deadline := today + 15 in
  h <- history ;;
  match printer_config env h with
  | None => raise (ServiceStoppedError "No config available")
  | Some printer =>
      match ip_addr printer with
      | None => raise (ServiceStoppedError "Printer IP address not available")
      | Some _ =>
          try_except
            (api <- establish fuel deadline ;; adopt api)
            is_Exception
            (fun e => cleanup_connection ;; raise e)
      end
  end.

(** [worker_start] *)
Definition worker_start (fuel : nat) : Method unit :=
  s <- get_self ;;
  if stopping s then ret tt
  else
    cleanup_connection ;;
    time_sleep (CLEANUP_WAIT * 2) ;;
    now <- time_time env ;;
    retry_interval <- get_retry_interval ;;
    s <- get_self ;;
    if Qltb (now - last_connection_attempt s) retry_interval then
      time_sleep 1 ;;
      ret tt
    else
      modify (begin_attempt now) ;;
      connect fuel.

(** [log_instance_count]: a clock read and a debug line. *)
Definition log_instance_count : Method unit :=
  now <- time_time env ;;
  ret tt.

(** The handler loop of [worker_run], over a copy of the handler list. *)
Definition deliver (msg : Packet) : Method unit :=
  s <- get_self ;;
  for_each (handlers s)
           (fun handler => guarded (call env (handler_call handler (chan msg) msg))).

(** The outer [try] statement of [worker_run].  It yields [true] when the
    method returns from inside an [except] clause. *)
Definition receive (timeout : Q) : Method bool :=
  try_except
    (try_except
       (msg <- recv env (py_min timeout HEARTBEAT_INTERVAL) ;;
        match msg with
        | Some m => call env (api_process m) ;; deliver m
        | None => ret tt
        end)
       is_TimeoutError
       (fun _ => ret tt) ;;
     ret false)
    is_Exception
    (fun e =>
       if is_ConnectionResetError e then
         cleanup_connection ;;
         modify (set_restart_pending true) ;;
         ret true
       else
         modify incr_heartbeat_fail_count ;;
         s <- get_self ;;
         if (HEARTBEAT_FAIL_THRESHOLD <=? heartbeat_fail_count s)%nat then
           cleanup_connection ;;
           modify (set_restart_pending true) ;;
           ret true
         else ret false).

(** The heartbeat step of [worker_run].  It yields [true] when the
    method returns from it. *)
Definition heartbeat_due (now : Q) : Method bool :=
  s <- get_self ;;
  if Qleb HEARTBEAT_INTERVAL (now - _last_heartbeat s) then
    sent <- send_heartbeat ;;
    s <- get_self ;;
    if negb sent && (HEARTBEAT_FAIL_THRESHOLD <=? heartbeat_fail_count s)%nat then
      cleanup_connection ;;
      modify (set_restart_pending true) ;;
      ret true
    else
      modify (set__last_heartbeat now) ;;
      ret false
  else ret false.

(** [worker_run] *)
Definition worker_run (timeout : Q) : Method unit :=
  s <- get_self ;;
  if stopping s then ret tt
  else
    log_instance_count ;;
    s <- get_self ;;
    match _api s with
    | None =>
        now <- time_time env ;;
        if Qltb (now - last_cleanup_time s) RECONNECT_DELAY then
          time_sleep (1 # 10) ;;
          ret tt
        else
          modify (set_restart_pending true) ;;
          ret tt
    | Some _ =>
        stopped <- read_api_stopped env ;;
        if stopped then
          cleanup_connection ;;
          modify (set_restart_pending true) ;;
          ret tt
        else
          now <- time_time env ;;
          returned <- heartbeat_due now ;;
          if returned then ret tt
          else
            returned <- receive timeout ;;
            if returned then ret tt
            else
              s <- get_self ;;
              if restart_pending s && negb (stopping s) then
                modify (set_restart_pending false) ;;
                raise (ServiceRestartSignal "Service needs restart")
              else ret tt
    end.

(** [worker_stop] *)
Definition worker_stop : Method unit :=
  modify (set_stopping true) ;;
  cleanup_connection ;;
  modify (set_stopping false).

End Service.

End PPPP.

(** ** [web/service/video.py] *)

Module Video.

Definition FRAME_RATE_CHECK_INTERVAL : Q := 5.
Definition MIN_ACCEPTABLE_FPS : Q := 3.
Definition WARNING_FPS : Q := 5.
Definition QUALITY_CHANGE_TIMEOUT : Q := 5.

(** Python's truth value of a float. *)
Definition truthy (x : Q) : bool := negb (Qeq_bool x 0).

(** Python's truth value of an attribute that is [None] or a float. *)
Definition is_set (x : option Q) : bool :=
  match x with Some t => truthy t | None => false end.

(** The attributes of [VideoQueue.__init__] that the frame handler and
    [set_video_enabled] use.  The references to other objects ([pppp],
    [stream_start_timestamp]) are left out. *)
Record VideoQueue : Type := mkVideoQueue {
  stream_start_time : option Q;
  first_frame_received : bool;
  total_frames : nat;
  stream_uptime : Q;
  stall_warning_count : nat;
  last_warning_time : Q;
  video_enabled : bool;
  current_quality : nat;
  frame_count : nat;
  last_frame_check : Q;
  last_frame_time : Q;
  quality_change_time : option Q;
  last_start_request : Q
}.

(** Assignments to the attributes. *)
Definition with_first_frame_received (v : bool) (s : VideoQueue) : VideoQueue :=
  mkVideoQueue (stream_start_time s) v (total_frames s) (stream_uptime s)
    (stall_warning_count s) (last_warning_time s) (video_enabled s)
    (current_quality s) (frame_count s) (last_frame_check s)
    (last_frame_time s) (quality_change_time s) (last_start_request s).

Definition with_total_frames (v : nat) (s : VideoQueue) : VideoQueue :=
  mkVideoQueue (stream_start_time s) (first_frame_received s) v
    (stream_uptime s) (stall_warning_count s) (last_warning_time s)
    (video_enabled s) (current_quality s) (frame_count s) (last_frame_check s)
    (last_frame_time s) (quality_change_time s) (last_start_request s).

Definition with_stream_uptime (v : Q) (s : VideoQueue) : VideoQueue :=
  mkVideoQueue (stream_start_time s) (first_frame_received s) (total_frames s)
    v (stall_warning_count s) (last_warning_time s) (video_enabled s)
    (current_quality s) (frame_count s) (last_frame_check s)
    (last_frame_time s) (quality_change_time s) (last_start_request s).

Definition with_stall_warning_count (v : nat) (s : VideoQueue) : VideoQueue :=
  mkVideoQueue (stream_start_time s) (first_frame_received s) (total_frames s)
    (stream_uptime s) v (last_warning_time s) (video_enabled s)
    (current_quality s) (frame_count s) (last_frame_check s)
    (last_frame_time s) (quality_change_time s) (last_start_request s).

Definition with_video_enabled (v : bool) (s : VideoQueue) : VideoQueue :=
  mkVideoQueue (stream_start_time s) (first_frame_received s) (total_frames s)
    (stream_uptime s) (stall_warning_count s) (last_warning_time s) v
    (current_quality s) (frame_count s) (last_frame_check s)
    (last_frame_time s) (quality_change_time s) (last_start_request s).

Definition with_frame_count (v : nat) (s : VideoQueue) : VideoQueue :=
  mkVideoQueue (stream_start_time s) (first_frame_received s) (total_frames s)
    (stream_uptime s) (stall_warning_count s) (last_warning_time s)
    (video_enabled s) (current_quality s) v (last_frame_check s)
    (last_frame_time s) (quality_change_time s) (last_start_request s).

Definition with_last_frame_check (v : Q) (s : VideoQueue) : VideoQueue :=
  mkVideoQueue (stream_start_time s) (first_frame_received s) (total_frames s)
    (stream_uptime s) (stall_warning_count s) (last_warning_time s)
    (video_enabled s) (current_quality s) (frame_count s) v
    (last_frame_time s) (quality_change_time s) (last_start_request s).

Definition with_last_frame_time (v : Q) (s : VideoQueue) : VideoQueue :=
  mkVideoQueue (stream_start_time s) (first_frame_received s) (total_frames s)
    (stream_uptime s) (stall_warning_count s) (last_warning_time s)
    (video_enabled s) (current_quality s) (frame_count s) (last_frame_check s)
    v (quality_change_time s) (last_start_request s).

(** [VideoQueue.__init__], at time [t]. *)
Definition init (t : Q) : VideoQueue :=
  mkVideoQueue None false 0 0 0 0 false 0 0 t t None 0.

(** A method of [VideoQueue]. *)
Abbreviation Method := (M VideoQueue).

Section Service.
Variable env : Env.

(** [self.state], the run state kept by the base class. *)
Definition read_run_state : Method RunState :=
  fun s => (Return (run_state env (trace s)), s).

(** [set_video_enabled]; [self.start()] and [self.stop()] are methods of
    the base class [Service]. *)
Definition set_video_enabled (enabled : bool) : Method bool :=
  s <- get_self ;;
  if Bool.eqb enabled (video_enabled s) then ret true
  else
    modify (with_video_enabled enabled) ;;
    (if enabled then
       st <- read_run_state ;;
       match st with
       | RunState_Stopped => call env service_start
       | _ => ret tt
       end
     else
       st <- read_run_state ;;
       match st with
       | RunState_Running => call env service_stop
       | _ => ret tt
       end) ;;
    ret true.

(** Line 166: a quality change is under way at time [now]. *)
Definition during_quality_change (now : Q) (s : VideoQueue) : bool :=
  match quality_change_time s with
  | Some q => truthy q && Qltb (now - q) QUALITY_CHANGE_TIMEOUT
  | None => false
  end.

(** Lines 170-180: the health policy for a window with [frame_rate]. *)
Definition check_frame_rate (frame_rate : Q) : Method unit :=
  if Qltb frame_rate WARNING_FPS then
    if Qltb frame_rate MIN_ACCEPTABLE_FPS then
      modify (fun s => with_stall_warning_count (S (stall_warning_count s)) s) ;;
      s <- get_self ;;
      if (3 <=? stall_warning_count s)%nat then
        raise (ServiceRestartSignal "Persistent low frame rate")
      else ret tt
    else
      modify (with_stall_warning_count 0)
  else
    modify (with_stall_warning_count 0).

(** Lines 158-163: the statistics line; the average divides by the
    uptime. *)
Definition log_stream_stats (now : Q) : Method unit :=
  s <- get_self ;;
  if is_set (stream_start_time s) then
    let uptime := now - match stream_start_time s with Some t => t | None => 0 end in
    modify (with_stream_uptime uptime) ;;
    if Qeq_bool uptime 0 then raise ZeroDivisionError else ret tt
  else ret tt.

(** [_handler] *)
Definition _handler (data : option nat * Packet) : Method unit :=
  let (chan, msg) := data in
  match chan with
  | Some 1%nat =>
      if negb (is_Xzyh msg) then ret tt
      else
        now <- time_time env ;;
        modify (fun s => with_frame_count (S (frame_count s)) s) ;;
        modify (fun s => with_total_frames (S (total_frames s)) s) ;;
        s <- get_self ;;
        (if negb (first_frame_received s)
         then modify (with_first_frame_received true) else ret tt) ;;
        s <- get_self ;;
        (if Qleb FRAME_RATE_CHECK_INTERVAL (now - last_frame_check s) then
           let elapsed := now - last_frame_check s in
           let frame_rate := Q_of_nat (frame_count s) / elapsed in
           log_stream_stats now ;;
           (if during_quality_change now s then ret tt
            else check_frame_rate frame_rate) ;;
           modify (with_frame_count 0) ;;
           modify (with_last_frame_check now)
         else ret tt) ;;
        modify (with_last_frame_time now) ;;
        call env (service_notify msg)
  | _ => ret tt
  end.

End Service.

End Video.

(** ** [web/service/video.py]: the worker methods *)

Module VideoWorker.
Import Video.

Definition STREAM_START_TIMEOUT : Q := 10.
Definition STALL_THRESHOLD : Q := 10.
Definition PPPP_STABILITY_WAIT : Q := 2.

(** [self.start_request_debounce]: set to [1.0] by [__init__] and never
    assigned again. *)
Definition start_request_debounce : Q := 1.

(** [TypeError] and [ValueError], two of the further subclasses of
    [Exception]. *)
Definition TypeError : Exn := OtherException 1.
Definition ValueError : Exn := OtherException 2.

(** [id(x)] for a session or [None]. *)
Definition py_id (x : option Api) : option nat := option_map api_id x.

(** [a != b] on identities. *)
Definition id_differs (a b : option nat) : bool :=
  match a, b with
  | Some x, Some y => negb (x =? y)%nat
  | None, None => false
  | _, _ => true
  end.

(** [x in l] *)
Definition py_in (x : nat) (l : list nat) : bool := existsb (Nat.eqb x) l.

(** [l.remove(x)]: the first occurrence goes; [None] stands for the
    [ValueError] of a missing element. *)
Fixpoint py_remove (x : nat) (l : list nat) : option (list nat) :=
  match l with
  | [] => None
  | y :: rest =>
      if (y =? x)%nat then Some rest
      else option_map (cons y) (py_remove x rest)
  end.

(** Assignments to the attributes of [VideoQueue] the worker sets. *)
Definition with_stream_start_time (v : option Q) (s : VideoQueue) : VideoQueue :=
  mkVideoQueue v (first_frame_received s) (total_frames s) (stream_uptime s)
    (stall_warning_count s) (last_warning_time s) (video_enabled s)
    (current_quality s) (frame_count s) (last_frame_check s)
    (last_frame_time s) (quality_change_time s) (last_start_request s).

Definition with_last_warning_time (v : Q) (s : VideoQueue) : VideoQueue :=
  mkVideoQueue (stream_start_time s) (first_frame_received s) (total_frames s)
    (stream_uptime s) (stall_warning_count s) v (video_enabled s)
    (current_quality s) (frame_count s) (last_frame_check s)
    (last_frame_time s) (quality_change_time s) (last_start_request s).

Definition with_quality_change_time (v : option Q) (s : VideoQueue) : VideoQueue :=
  mkVideoQueue (stream_start_time s) (first_frame_received s) (total_frames s)
    (stream_uptime s) (stall_warning_count s) (last_warning_time s)
    (video_enabled s) (current_quality s) (frame_count s) (last_frame_check s)
    (last_frame_time s) v (last_start_request s).

Definition with_last_start_request (v : Q) (s : VideoQueue) : VideoQueue :=
  mkVideoQueue (stream_start_time s) (first_frame_received s) (total_frames s)
    (stream_uptime s) (stall_warning_count s) (last_warning_time s)
    (video_enabled s) (current_quality s) (frame_count s) (last_frame_check s)
    (last_frame_time s) (quality_change_time s) v.

(** The whole [VideoQueue] object: the attributes of [Video.VideoQueue]
    and the rest.  [pppp] tells whether [self.pppp] refers to the P2P
    service (it is [None] otherwise).  [saved_light_state],
    [saved_video_mode] and [api_id] are not created by [__init__]: the
    outer [None] stands for an attribute that does not exist yet. *)
Record VideoService : Type := mkVideoService {
  queue : VideoQueue;
  stream_start_timestamp : option Q;
  pppp : bool;
  saved_light_state : option (option bool);
  saved_video_mode : option (option nat);
  api_id : option (option nat)
}.

Definition with_queue (f : VideoQueue -> VideoQueue) (s : VideoService) : VideoService :=
  mkVideoService (f (queue s)) (stream_start_timestamp s) (pppp s)
    (saved_light_state s) (saved_video_mode s) (api_id s).

Definition with_stream_start_timestamp (v : option Q) (s : VideoService) : VideoService :=
  mkVideoService (queue s) v (pppp s) (saved_light_state s) (saved_video_mode s)
    (api_id s).

Definition with_pppp (v : bool) (s : VideoService) : VideoService :=
  mkVideoService (queue s) (stream_start_timestamp s) v (saved_light_state s)
    (saved_video_mode s) (api_id s).

Definition with_saved_light_state (v : option (option bool)) (s : VideoService)
  : VideoService :=
  mkVideoService (queue s) (stream_start_timestamp s) (pppp s) v (saved_video_mode s)
    (api_id s).

Definition with_saved_video_mode (v : option (option nat)) (s : VideoService)
  : VideoService :=
  mkVideoService (queue s) (stream_start_timestamp s) (pppp s) (saved_light_state s) v
    (api_id s).

Definition with_api_id (v : option (option nat)) (s : VideoService) : VideoService :=
  mkVideoService (queue s) (stream_start_timestamp s) (pppp s) (saved_light_state s)
    (saved_video_mode s) v.

(** [VideoQueue.__init__], at time [t]. *)
Definition init (t : Q) : VideoService :=
  mkVideoService (Video.init t) None false None None None.

(** The two objects a worker method works on: the video service itself
    and the P2P service, which [self.pppp] refers to and which the P2P
    worker uses as well. *)
Record World : Type := mkWorld {
  video : VideoService;
  service : PPPP.PPPPService
}.

Definition on_video (f : VideoService -> VideoService) (w : World) : World :=
  mkWorld (f (video w)) (service w).

Definition on_handlers (f : list nat -> list nat) (w : World) : World :=
  mkWorld (video w) (PPPP.set_handlers (f (PPPP.handlers (service w))) (service w)).

(** A method of [VideoQueue]. *)
Abbreviation Method := (M World).

(** A method of the P2P service, called through [self.pppp]. *)
Definition on_service {A} (c : PPPP.Method A) : Method A :=
  fun s =>
    match c (mkSt (service (self s)) (trace s)) with
    | (r, s1) => (r, mkSt (mkWorld (video (self s)) (self s1)) (trace s1))
    end.

Section Service.
Variable env : Env.

(** The identifier of the bound method [self._handler] in the handler
    list of the P2P service. *)
Variable me : nat.

(** [self.idle(timeout)], a method of the base class [Service]. *)
Variable idle : Q -> Method unit.

(** What the other threads do to the two objects while the stall check
    of [worker_run] sleeps for [d] seconds: the P2P worker runs then,
    and with it [_handler], which stamps [last_frame_time]. *)
Variable meanwhile : Q -> Method unit.

(** [self.pppp and self.pppp.connected] *)
Definition pppp_connected : Method bool :=
  w <- get_self ;;
  if pppp (video w) then on_service (PPPP.connected env) else ret false.

(** [api_start_live] *)
Definition api_start_live : Method unit :=
  conn <- pppp_connected ;;
  if negb conn then ret tt
  else
    now <- time_time env ;;
    w <- get_self ;;
    if Qltb (now - last_start_request (queue (video w))) start_request_debounce
    then ret tt
    else
      modify (on_video (with_queue (with_last_start_request now))) ;;
      try_except
        (on_service (PPPP.api_command env START_LIVE) ;;
         t <- time_time env ;;
         modify (on_video (with_queue (with_stream_start_time (Some t)))) ;;
         today <- time_time env ;;
         modify (on_video (with_stream_start_timestamp (Some today))) ;;
         modify (on_video (with_queue (with_first_frame_received false))) ;;
         modify (on_video (with_queue (with_total_frames 0))) ;;
         modify (on_video (with_queue (with_frame_count 0))) ;;
         t <- time_time env ;;
         modify (on_video (with_queue (with_last_frame_check t))))
        is_Exception
        (fun _ => ret tt).

(** [api_stop_live]; the uptime is computed for the log line only, but
    the subtraction raises when no start time was recorded. *)
Definition api_stop_live : Method unit :=
  w <- get_self ;;
  if negb (pppp (video w)) then ret tt
  else
    (match stream_start_timestamp (video w) with
     | Some _ =>
         now <- time_time env ;;
         match stream_start_time (queue (video w)) with
         | Some _ => ret tt
         | None => raise TypeError
         end
     | None => ret tt
     end) ;;
    try_except
      (on_service (PPPP.api_command env CLOSE_LIVE) ;;
       modify (on_video (with_stream_start_timestamp None)) ;;
       modify (on_video (with_queue (with_first_frame_received false))))
      is_Exception
      (fun _ => ret tt).

(** [api_light_state] *)
Definition api_light_state (light : bool) : Method unit :=
  conn <- pppp_connected ;;
  if negb conn then ret tt
  else
    try_except
      (modify (on_video (with_saved_light_state (Some (Some light)))) ;;
       on_service (PPPP.api_command env (LIGHT_STATE_SWITCH light)))
      is_Exception
      (fun _ => ret tt).

(** [api_video_mode] *)
Definition api_video_mode (mode : nat) : Method unit :=
  conn <- pppp_connected ;;
  if negb conn then ret tt
  else
    try_except
      (modify (on_video (with_saved_video_mode (Some (Some mode)))) ;;
       on_service (PPPP.api_command env (LIVE_MODE_SET mode)))
      is_Exception
      (fun _ => ret tt).

(** [worker_init] *)
Definition worker_init : Method unit :=
  modify (on_video (with_saved_light_state (Some None))) ;;
  modify (on_video (with_saved_video_mode (Some None))) ;;
  modify (on_video (with_queue (with_frame_count 0))) ;;
  t <- time_time env ;;
  modify (on_video (with_queue (with_last_frame_check t))) ;;
  t <- time_time env ;;
  modify (on_video (with_queue (with_last_frame_time t))) ;;
  modify (on_video (with_pppp false)) ;;
  modify (on_video (with_queue (with_quality_change_time None))).

(** [if self._handler in self.pppp.handlers:
        self.pppp.handlers.remove(self._handler)] *)
Definition unregister : Method unit :=
  w <- get_self ;;
  if py_in me (PPPP.handlers (service w)) then
    match py_remove me (PPPP.handlers (service w)) with
    | Some l => modify (on_handlers (fun _ => l))
    | None => raise ValueError
    end
  else ret tt.

(** [app.svc.get("pppp")]: the object it returns, when it returns one,
    is the P2P service. *)
Definition svc_get_pppp : Method bool :=
  h <- history ;;
  call env (svc_get "pppp") ;;
  ret (match pppp_service env h with Some _ => true | None => false end).

(** The [try] block of [worker_start]. *)
Definition start_body : Method unit :=
  found <- svc_get_pppp ;;
  modify (on_video (with_pppp found)) ;;
  if negb found then ret tt
  else
    w <- get_self ;;
    modify (on_video (with_api_id (Some (py_id (PPPP._api (service w)))))) ;;
    modify (on_handlers (fun l => l ++ [me])) ;;
    api_start_live ;;
    w <- get_self ;;
    (match saved_light_state (video w) with
     | None => raise AttributeError
     | Some None => ret tt
     | Some (Some light) => api_light_state light
     end) ;;
    w <- get_self ;;
    (match saved_video_mode (video w) with
     | None => raise AttributeError
     | Some None => ret tt
     | Some (Some mode) => api_video_mode mode
     end).

(** [worker_start] *)
Definition worker_start : Method unit :=
  w <- get_self ;;
  if negb (video_enabled (queue (video w))) then ret tt
  else
    try_except
      start_body
      is_Exception
      (fun e =>
         w <- get_self ;;
         (if pppp (video w) then unregister else ret tt) ;;
         modify (on_video (with_pppp false)) ;;
         raise e).

(** [if self.video_enabled: raise ServiceRestartSignal(msg)], then
    [return]. *)
Definition restart_if_enabled (msg : string) : Method unit :=
  w <- get_self ;;
  if video_enabled (queue (video w)) then raise (ServiceRestartSignal msg)
  else ret tt.

(** [self.pppp._api.state], read for a log line. *)
Definition read_session_state : Method unit :=
  w <- get_self ;;
  match PPPP._api (service w) with
  | Some _ => ret tt
  | None => raise AttributeError
  end.

(** Lines 289-314 of [worker_run]: the stall check. *)
Definition check_stall (now : Q) : Method unit :=
  w <- get_self ;;
  let q := queue (video w) in
  if first_frame_received q && Qltb STALL_THRESHOLD (now - last_frame_time q) then
    if Qleb 5 (now - last_warning_time q) then
      read_session_state ;;
      modify (on_video (with_queue (with_last_warning_time now))) ;;
      w <- get_self ;;
      if Qltb (STALL_THRESHOLD * 2) (now - last_frame_time (queue (video w))) then
        w <- get_self ;;
        if video_enabled (queue (video w)) then
          try_except
            (api_stop_live ;;
             time_sleep (1 # 2) ;;
             meanwhile (1 # 2) ;;
             api_start_live ;;
             time_sleep 2 ;;
             meanwhile 2)
            is_Exception
            (fun _ => ret tt) ;;
          w <- get_self ;;
          if Qltb (STALL_THRESHOLD * 3) (now - last_frame_time (queue (video w)))
          then raise (ServiceRestartSignal "Stream stall detected")
          else ret tt
        else ret tt
      else ret tt
    else ret tt
  else ret tt.

(** [worker_run] *)
Definition worker_run (timeout : Q) : Method unit :=
  w <- get_self ;;
  if negb (video_enabled (queue (video w))) then ret tt
  else
    conn <- pppp_connected ;;
    if negb conn then ret tt
    else
      idle timeout ;;
      now <- time_time env ;;
      w <- get_self ;;
      timed_out <-
        (if negb (first_frame_received (queue (video w))) then
           match stream_start_time (queue (video w)) with
           | Some t0 => ret (Qltb STREAM_START_TIMEOUT (now - t0))
           | None => raise TypeError
           end
         else ret false) ;;
      if timed_out then restart_if_enabled "Stream start timeout"
      else
        w <- get_self ;;
        conn <- (if pppp (video w) then on_service (PPPP.connected env)
                 else raise AttributeError) ;;
        if negb conn then restart_if_enabled "PPPP connection lost"
        else
          w <- get_self ;;
          changed <-
            match api_id (video w) with
            | Some recorded => ret (id_differs (py_id (PPPP._api (service w))) recorded)
            | None => raise AttributeError
            end ;;
          if changed then
            read_session_state ;;
            time_sleep PPPP_STABILITY_WAIT ;;
            restart_if_enabled "New pppp connection detected"
          else check_stall now.

(** [worker_stop] *)
Definition worker_stop : Method unit :=
  try_except
    (w <- get_self ;;
     if pppp (video w) then
       api_stop_live ;;
       unregister ;;
       call env (svc_put "pppp") ;;
       modify (on_video (with_pppp false))
     else ret tt)
    is_Exception
    (fun _ => ret tt).

End Service.

End VideoWorker.

(** ** [web/service/filetransfer.py] *)

Module FileTransfer.

(** The attributes of [FileTransferService]: the cached upload, and the
    P2P service borrowed for the transfer, seen through its [_api]
    ([None]: no service object). *)
Record FileTransferService : Type := mkFileTransferService {
  cached_file : option bytes;
  cached_filename : option string;
  pppp : option (option Api)
}.

Definition with_cached_file (v : option bytes) (s : FileTransferService)
  : FileTransferService :=
  mkFileTransferService v (cached_filename s) (pppp s).

Definition with_cached_filename (v : option string) (s : FileTransferService)
  : FileTransferService :=
  mkFileTransferService (cached_file s) v (pppp s).

Definition with_pppp (v : option (option Api)) (s : FileTransferService)
  : FileTransferService :=
  mkFileTransferService (cached_file s) (cached_filename s) v.

(** [FileTransferService.__init__] *)
Definition init : FileTransferService := mkFileTransferService None None None.

(** The uploaded file object: its [read()] is answered by the
    environment. *)
Record Upload : Type := mkUpload { filename : string }.

(** A method of [FileTransferService]. *)
Abbreviation Method := (M FileTransferService).

Section Service.
Variable env : Env.
Variable fui_bytes : Transfer.FileUploadInfo -> bytes.
Variable md5_hex : bytes -> string.

(** Modelled from the spec: [FileUploadInfo.from_data] lives in
    libflagship.  The size is the length of the data and [md5] the hex
    digest of the data. *)
Definition from_data (data : bytes) (name user_name user_id machine_id : string)
  : Transfer.FileUploadInfo :=
  Transfer.mkFileUploadInfo name (len data) (md5_hex data) user_name user_id machine_id.

(** [app.svc.get("pppp")] *)
Definition svc_get_pppp : Method (option (option Api)) :=
  h <- history ;;
  call env (svc_get "pppp") ;;
  ret (pppp_service env h).

(** The first [try] block of [send_file]: borrow the service and wait for
    its session to be connected. *)
Definition acquire (fuel : nat) : Method Api :=
  try_except
    (service <- svc_get_pppp ;;
     modify (with_pppp service) ;;
     match service with
     | None => raise AttributeError
     | Some None => raise (ConnectionError "No pppp connection to printer")
     | Some (Some api) =>
         Transfer.wait_connected env fuel ;;
         ret api
     end)
    is_AttributeError
    (fun _ => raise (ConnectionError "No pppp connection to printer")).

(** The [finally] clause of [send_file]. *)
Definition release : Method unit :=
  modify (with_cached_file None) ;;
  modify (with_cached_filename None) ;;
  call env (svc_put "pppp").

(** The second [try] statement of [send_file]. *)
Definition transfer (fuel : nat) (fd : Upload) (user_name : string)
           (rate_limit_mbps : Q) : Method unit :=
  try_finally
    (try_except
       (h <- history ;;
        call env fd_read ;;
        modify (with_cached_file (Some (file_bytes env h))) ;;
        modify (with_cached_filename (Some (filename fd))) ;;
        let fui := from_data (file_bytes env h) (filename fd) user_name "-" "-" in
        Transfer.send_file env fui_bytes fuel fui (file_bytes env h) rate_limit_mbps)
       is_Exception
       (fun e => raise e))
    release.

(** [send_file] *)
Definition send_file (fuel : nat) (fd : Upload) (user_name : string)
           (rate_limit_mbps : Q) : Method unit :=
  acquire fuel ;;
  transfer fuel fd user_name rate_limit_mbps.

End Service.

End FileTransfer.

(** ** [cli/logfmt.py] *)

Module Logfmt.

(** The levels of [logging], and the level [VERBOSE] (15) of this
    program. *)
Definition CRITICAL : Z := 50.
Definition ERROR : Z := 40.
Definition WARNING : Z := 30.
Definition INFO : Z := 20.
Definition DEBUG : Z := 10.
Definition VERBOSE : Z := 15.

(** The colours handed to [click.style]. *)
Inductive Colour : Type := red | yellow | green | magenta | blue | cyan.

(** [rec.msg]: a [str], or an object of another type. *)
Inductive Message : Type :=
| Str (text : string)
| Obj (tag : nat).

(** A [logging.LogRecord]: the two attributes [ColorFormatter.format]
    reads, and the three the base class writes when it formats the
    record ([None]: not set). *)
Record LogRecord : Type := mkLogRecord {
  levelno : Z;
  msg : Message;
  message : option string;
  asctime : option string;
  exc_text : option string
}.

Definition with_msg (v : Message) (r : LogRecord) : LogRecord :=
  mkLogRecord (levelno r) v (message r) (asctime r) (exc_text r).

(** [KeyError], one of the further subclasses of [Exception]. *)
Definition KeyError : Exn := OtherException 3.

(** [d[k]] on a dictionary written as its list of items; [None] stands
    for the [KeyError] of a missing key. *)
Fixpoint lookup {A : Type} (k : Z) (d : list (Z * A)) : option A :=
  match d with
  | [] => None
  | (k', v) :: rest => if (k' =? k)%Z then Some v else lookup k rest
  end.

(** [self._colors] and [self._marks], as [__init__] builds them. *)
Definition _colors : list (Z * Colour) :=
  [(CRITICAL, red); (ERROR, red); (WARNING, yellow); (INFO, green);
   (DEBUG, magenta); (15%Z, blue)].

Definition _marks : list (Z * string) :=
  [(CRITICAL, "!"%string); (ERROR, "E"%string); (WARNING, "W"%string);
   (INFO, "*"%string); (DEBUG, "D"%string); (15%Z, "V"%string)].

Section Formatter.
Variable env : Env.

(** [SCRIPT_START_TIME], read from the clock when the module is loaded. *)
Variable SCRIPT_START_TIME : Q.

(** [self.packet_re.match(s)]: the three groups of a match. *)
Variable packet_re_match : string -> option (string * string * string).

(** [click.style(text, fg=..., bold=...)]; [bold] is [None] when the
    caller leaves it out. *)
Variable style : string -> Colour -> option bool -> string.

(** [f"{elapsed:.1f}"] *)
Variable format_1f : Q -> string.

(** [logging.Formatter.format(rec)], the method of the base class, run
    on the same record: it writes to the record ([rec.message], and
    [asctime] and [exc_text] when they apply) and it can raise, as
    [msg % args] does. *)
Variable base_format : M LogRecord string.

(** [ColorFormatter.format], a method run on the record it is given:
    the record is the caller's object, and an assignment to [rec.msg]
    changes it. *)
Definition format : M LogRecord string :=
  rec <- get_self ;;
  (if (levelno rec <=? DEBUG)%Z then
     match msg rec with
     | Str text =>
         match packet_re_match text with
         | Some (direction, pkt_type, details) =>
             if (levelno rec =? 15)%Z
             then modify (with_msg (Str (direction ++ " " ++ pkt_type)))
             else ret tt
         | None => ret tt
         end
     | Obj _ => ret tt
     end
   else ret tt) ;;
  now <- time_time env ;;
  let elapsed := now - SCRIPT_START_TIME in
  let elapsed_str := (format_1f elapsed ++ "s")%string in
  rec <- get_self ;;
  match lookup (levelno rec) _marks with
  | None => raise KeyError
  | Some mark =>
      match lookup (levelno rec) _colors with
      | None => raise KeyError
      | Some colour =>
          line <- base_format ;;
          ret (String.concat ""
                 [style "[" blue (Some true);
                  style mark colour (Some true);
                  style "]" blue (Some true);
                  " "%string;
                  style ("[" ++ elapsed_str ++ "]") cyan None;
                  " "%string;
                  line])
      end
  end.

End Formatter.

End Logfmt.

(** * Part II: the properties *)

(** ** Comparisons *)

Lemma Qltb_lt a b : Qltb a b = true <-> a < b.
Proof.
  unfold Qltb. rewrite negb_true_iff.
  split; intro H.
  - apply Qnot_le_lt. intro Hle. apply Qle_bool_iff in Hle. congruence.
  - destruct (Qle_bool b a) eqn:E; [|reflexivity].
    apply Qle_bool_iff in E. exfalso. apply (Qlt_not_le _ _ H E).
Qed.

Lemma Qltb_ge a b : Qltb a b = false <-> b <= a.
Proof.
  unfold Qltb. rewrite negb_false_iff. apply Qle_bool_iff.
Qed.

Lemma Qleb_le a b : Qleb a b = true <-> a <= b.
Proof. apply Qle_bool_iff. Qed.

Lemma Qleb_gt a b : Qleb a b = false <-> b < a.
Proof.
  unfold Qleb. split; intro H.
  - apply Qnot_le_lt. intro Hle. apply Qle_bool_iff in Hle. congruence.
  - destruct (Qle_bool a b) eqn:E; [|reflexivity].
    apply Qle_bool_iff in E. exfalso. apply (Qlt_not_le _ _ H E).
Qed.

(** Inversion of [bind]: a sequence returns only if both halves do. *)
Lemma bind_Return {Self A B} (c : M Self A) (k : A -> M Self B) s b s' :
  bind c k s = (Return b, s') ->
  exists a s1, c s = (Return a, s1) /\ k a s1 = (Return b, s').
Proof.
  unfold bind. destruct (c s) as [[a | e |] s1]; intro H; try discriminate.
  exists a, s1. split; [reflexivity | exact H].
Qed.

(** ** Reasoning about methods *)

Section Frames.
Context {Self : Type}.

(** [c] leaves the attribute (or view) [f] of the object as it was,
    however it ends. *)
Definition keeps {X A} (f : Self -> X) (c : M Self A) : Prop :=
  forall s r s', c s = (r, s') -> f (self s') = f (self s).

(** [c] always returns: it neither raises nor runs out of fuel. *)
Definition returns {A} (c : M Self A) : Prop :=
  forall s, exists a s', c s = (Return a, s').

(** [c] only talks to the world: the object is untouched, the events it
    adds all satisfy [p], and it never runs out of fuel.  It may raise. *)
Definition worldly {A} (p : Event -> bool) (c : M Self A) : Prop :=
  forall s, exists r new,
    c s = (r, mkSt (self s) (trace s ++ new)) /\
    forallb p new = true /\ r <> OutOfFuel.

(** [c] only talks to the world and always returns. *)
Definition safe {A} (p : Event -> bool) (c : M Self A) : Prop :=
  forall s, exists a new,
    c s = (Return a, mkSt (self s) (trace s ++ new)) /\ forallb p new = true.

Lemma keeps_ret {X A} (f : Self -> X) (a : A) : keeps f (ret a).
Proof. intros s r s' H. inversion H. reflexivity. Qed.

Lemma keeps_raise {X A} (f : Self -> X) (e : Exn) : keeps f (@raise Self A e).
Proof. intros s r s' H. inversion H. reflexivity. Qed.

Lemma keeps_out_of_fuel {X A} (f : Self -> X) : keeps f (@out_of_fuel Self A).
Proof. intros s r s' H. inversion H. reflexivity. Qed.

Lemma keeps_bind {X A B} (f : Self -> X) (c : M Self A) (k : A -> M Self B) :
  keeps f c -> (forall a, keeps f (k a)) -> keeps f (bind c k).
Proof.
  intros Hc Hk s r s' H. unfold bind in H.
  destruct (c s) as [[a | e |] s1] eqn:E.
  - apply Hk in H. apply Hc in E. congruence.
  - inversion H; subst. apply Hc in E. exact E.
  - inversion H; subst. apply Hc in E. exact E.
Qed.

Lemma keeps_try_except {X A} (f : Self -> X) (c : M Self A) catches h :
  keeps f c -> (forall e, keeps f (h e)) -> keeps f (try_except c catches h).
Proof.
  intros Hc Hh s r s' H. unfold try_except in H.
  destruct (c s) as [[a | e |] s1] eqn:E.
  - inversion H; subst. apply Hc in E. exact E.
  - destruct (catches e).
    + apply Hh in H. apply Hc in E. congruence.
    + inversion H; subst. apply Hc in E. exact E.
  - inversion H; subst. apply Hc in E. exact E.
Qed.

Lemma keeps_modify {X} (f : Self -> X) (g : Self -> Self) :
  (forall x, f (g x) = f x) -> keeps f (modify g).
Proof. intros Hg s r s' H. inversion H. cbn. apply Hg. Qed.

Lemma keeps_get_self {X} (f : Self -> X) : keeps f get_self.
Proof. intros s r s' H. inversion H. reflexivity. Qed.

Lemma keeps_history {X} (f : Self -> X) : keeps f history.
Proof. intros s r s' H. inversion H. reflexivity. Qed.

Lemma keeps_log {X} (f : Self -> X) (ev : Event) : keeps f (log ev).
Proof. intros s r s' H. inversion H. reflexivity. Qed.

Lemma keeps_for_each {X A} (f : Self -> X) (xs : list A) (body : A -> M Self unit) :
  (forall x, keeps f (body x)) -> keeps f (for_each xs body).
Proof.
  intro Hb. induction xs as [| x rest IH]; simpl.
  - apply keeps_ret.
  - apply keeps_bind; [apply Hb | intros _; exact IH].
Qed.

Lemma worldly_keeps {X A} (f : Self -> X) p (c : M Self A) :
  worldly p c -> keeps f c.
Proof.
  intros Hc s r s' H. destruct (Hc s) as (r0 & new & E & _).
  rewrite E in H. inversion H. reflexivity.
Qed.

Lemma safe_worldly {A} p (c : M Self A) : safe p c -> worldly p c.
Proof.
  intros Hc s. destruct (Hc s) as (a & new & E & Hp).
  exists (Return a), new. repeat split; [exact E | exact Hp | discriminate].
Qed.

Lemma safe_ret {A} p (a : A) : safe p (@ret Self A a).
Proof.
  intro s. exists a, []. rewrite app_nil_r. destruct s. split; reflexivity.
Qed.

Lemma worldly_ret {A} p (a : A) : worldly p (@ret Self A a).
Proof. apply safe_worldly, safe_ret. Qed.

Lemma worldly_raise {A} p (e : Exn) : worldly p (@raise Self A e).
Proof.
  intro s. exists (Raise e), []. rewrite app_nil_r. destruct s.
  repeat split. discriminate.
Qed.

Lemma safe_log p (ev : Event) : p ev = true -> safe p (@log Self ev).
Proof.
  intros Hp s. exists tt, [ev]. split; [reflexivity |].
  simpl. rewrite Hp. reflexivity.
Qed.

Lemma safe_get_self p : safe p (@get_self Self).
Proof.
  intro s. exists (self s), []. rewrite app_nil_r. destruct s. split; reflexivity.
Qed.

Lemma safe_bind {A B} p (c : M Self A) (k : A -> M Self B) :
  safe p c -> (forall a, safe p (k a)) -> safe p (bind c k).
Proof.
  intros Hc Hk s. destruct (Hc s) as (a & new1 & E1 & Hp1).
  destruct (Hk a (mkSt (self s) (trace s ++ new1))) as (b & new2 & E2 & Hp2).
  exists b, (new1 ++ new2). unfold bind. rewrite E1, E2. cbn [self trace].
  rewrite app_assoc, forallb_app, Hp1, Hp2. split; reflexivity.
Qed.

Lemma worldly_bind {A B} p (c : M Self A) (k : A -> M Self B) :
  worldly p c -> (forall a, worldly p (k a)) -> worldly p (bind c k).
Proof.
  intros Hc Hk s. destruct (Hc s) as (r & new1 & E1 & Hp1 & Hf1).
  unfold bind. rewrite E1. destruct r as [a | e |].
  - destruct (Hk a (mkSt (self s) (trace s ++ new1))) as (r2 & new2 & E2 & Hp2 & Hf2).
    exists r2, (new1 ++ new2). rewrite E2. cbn [self trace].
    rewrite app_assoc, forallb_app, Hp1, Hp2. repeat split. exact Hf2.
  - exists (Raise e), new1. repeat split; [exact Hp1 | discriminate].
  - contradiction.
Qed.

(** [try: c  except Exception: pass] cannot fail. *)
Lemma safe_guard p (c : M Self unit) :
  worldly p c -> safe p (try_except c is_Exception (fun _ => ret tt)).
Proof.
  intros Hc s. destruct (Hc s) as (r & new & E & Hp & Hf).
  unfold try_except. rewrite E. destruct r as [[] | e |].
  - exists tt, new. split; [reflexivity | exact Hp].
  - exists tt, new. split; [reflexivity | exact Hp].
  - contradiction.
Qed.

Lemma safe_for_each {A} p (xs : list A) (body : A -> M Self unit) :
  (forall x, safe p (body x)) -> safe p (for_each xs body).
Proof.
  intro Hb. induction xs as [| x rest IH]; simpl.
  - apply safe_ret.
  - apply safe_bind; [apply Hb | intros _; exact IH].
Qed.

(** If the second half of a sequence cannot fail, a failure of the
    sequence is a failure of its first half. *)
Lemma bind_Raise_left {A B} (c : M Self A) (k : A -> M Self B) s e s' :
  (forall a, returns (k a)) ->
  bind c k s = (Raise e, s') -> c s = (Raise e, s').
Proof.
  intros Hk H. unfold bind in H. destruct (c s) as [[a | e0 |] s1].
  - destruct (Hk a s1) as (b & s2 & E). rewrite E in H. discriminate.
  - inversion H. reflexivity.
  - discriminate.
Qed.

Section WithEnv.
Variable env : Env.

Lemma worldly_call p (op : Op) : p (Called op) = true -> worldly p (@call env Self op).
Proof.
  intros Hp s. unfold call. destruct (raises env (trace s) op) as [e |].
  - exists (Raise e), [Called op]. repeat split; [simpl; rewrite Hp; reflexivity | discriminate].
  - exists (Return tt), [Called op]. repeat split; [simpl; rewrite Hp; reflexivity | discriminate].
Qed.

Lemma safe_time_time p : (forall t, p (Clock t) = true) -> safe p (@time_time env Self).
Proof.
  intros Hp s. eexists _, [Clock _]. split; [reflexivity |].
  simpl. rewrite Hp. reflexivity.
Qed.

Lemma safe_time_sleep p d : p (Slept d) = true -> safe p (@time_sleep Self d).
Proof. apply safe_log. Qed.

Lemma safe_read_api_stopped p : safe p (@read_api_stopped env Self).
Proof.
  intro s. eexists _, []. rewrite app_nil_r. destruct s. split; reflexivity.
Qed.

Lemma safe_read_api_state p : safe p (@read_api_state env Self).
Proof.
  intro s. eexists _, []. rewrite app_nil_r. destruct s. split; reflexivity.
Qed.

Lemma keeps_call {X} (f : Self -> X) (op : Op) : keeps f (@call env Self op).
Proof. apply (worldly_keeps f (p := fun _ => true)), worldly_call. reflexivity. Qed.

Lemma keeps_time_time {X} (f : Self -> X) : keeps f (@time_time env Self).
Proof. intros s r s' H. inversion H. reflexivity. Qed.

Lemma keeps_read_api_state {X} (f : Self -> X) : keeps f (@read_api_state env Self).
Proof. intros s r s' H. inversion H. reflexivity. Qed.

Lemma keeps_read_api_stopped {X} (f : Self -> X) : keeps f (@read_api_stopped env Self).
Proof. intros s r s' H. inversion H. reflexivity. Qed.

Lemma keeps_recv {X} (f : Self -> X) (timeout : Q) : keeps f (@recv env Self timeout).
Proof.
  intros s r s' H. unfold recv in H.
  destruct (raises env (trace s) (api_recv timeout)); inversion H; reflexivity.
Qed.

Lemma worldly_recv p (timeout : Q) :
  p (Called (api_recv timeout)) = true -> worldly p (@recv env Self timeout).
Proof.
  intros Hp s. unfold recv. destruct (raises env (trace s) (api_recv timeout)) as [e |].
  - exists (Raise e), [Called (api_recv timeout)].
    repeat split; [simpl; rewrite Hp; reflexivity | discriminate].
  - eexists (Return _), [Called (api_recv timeout)].
    repeat split; [simpl; rewrite Hp; reflexivity | discriminate].
Qed.

End WithEnv.
End Frames.

(** A list with exactly one element satisfying [p] splits around it in
    one way only. *)
Lemma unique_split {A} (p : A -> bool) (l1 : list A) :
  forall (x : A) (r1 l2 : list A) (y : A) (r2 : list A),
    l1 ++ x :: r1 = l2 ++ y :: r2 ->
    p y = true -> p x = true ->
    forallb (fun a => negb (p a)) l1 = true ->
    forallb (fun a => negb (p a)) r1 = true ->
    l2 = l1 /\ y = x /\ r2 = r1.
Proof.
  induction l1 as [| a l1 IH]; intros x r1 l2 y r2 E Hy Hx Hl Hr.
  - destruct l2 as [| b l2]; simpl in E.
    + inversion E; subst. repeat split.
    + inversion E; subst. rewrite forallb_app in Hr. simpl in Hr.
      rewrite Hy in Hr. simpl in Hr. rewrite andb_false_r in Hr. discriminate.
  - simpl in Hl. apply andb_true_iff in Hl. destruct Hl as [Ha Hl].
    destruct l2 as [| b l2]; simpl in E.
    + inversion E; subst. rewrite Hy in Ha. discriminate.
    + inversion E; subst.
      destruct (IH x r1 l2 y r2 H1 Hy Hx Hl Hr) as (-> & -> & ->).
      repeat split.
Qed.

(** An environment in which the session is connected and nothing fails:
    the clock stands at [0], [recv] times out, and the configuration
    names a printer on the LAN. *)
Definition quiet_env : Env :=
  {| clock := fun _ => 0;
     raises := fun _ _ => None;
     api_state := fun _ => Connected;
     api_stopped := fun _ => false;
     recv_result := fun _ => None;
     uuid4 := fun _ => [];
     file_bytes := fun _ => [];
     windows := false;
     printer_config :=
       fun _ => Some (mkPrinter "M5" (Some "192.0.2.10"%string) "ABCDEFGH123456789012");
     pppp_dump := None;
     new_api := fun _ => mkApi 1 true false (Some 8%nat);
     pppp_service := fun _ => Some (Some (mkApi 1 true false (Some 8%nat)));
     run_state := fun _ => RunState_Stopped |}.

(** The same environment with another clock, or with other failures. *)
Definition with_clock (c : History -> Q) (env : Env) : Env :=
  {| clock := c;
     raises := raises env;
     api_state := api_state env;
     api_stopped := api_stopped env;
     recv_result := recv_result env;
     uuid4 := uuid4 env;
     file_bytes := file_bytes env;
     windows := windows env;
     printer_config := printer_config env;
     pppp_dump := pppp_dump env;
     new_api := new_api env;
     pppp_service := pppp_service env;
     run_state := run_state env |}.

Definition with_raises (r : History -> Op -> option Exn) (env : Env) : Env :=
  {| clock := clock env;
     raises := r;
     api_state := api_state env;
     api_stopped := api_stopped env;
     recv_result := recv_result env;
     uuid4 := uuid4 env;
     file_bytes := file_bytes env;
     windows := windows env;
     printer_config := printer_config env;
     pppp_dump := pppp_dump env;
     new_api := new_api env;
     pppp_service := pppp_service env;
     run_state := run_state env |}.

(** ** Properties of [test_transfer.py] *)

Module TransferSpec.
Import Transfer.

(** A bulk frame as it reaches [api.aabb_request]: frame type, payload
    and the [pos] argument ([None] when the caller leaves it out). *)
Definition Frame : Type := (FileTransfer * bytes * option nat)%type.

(** The bulk frames of a history, in emission order. *)
Definition bulk_frames (h : History) : list Frame :=
  flat_map (fun ev =>
              match ev with
              | Called (api_aabb_request payload ft pos) => [(ft, payload, pos)]
              | _ => []
              end) h.

(** The sleeps of a history, in order. *)
Definition sleeps (h : History) : list Q :=
  flat_map (fun ev => match ev with Slept d => [d] | _ => [] end) h.

(** *** Facts about [range] and slices *)

Lemma range_from_spec (step : nat) :
  (0 < step)%nat ->
  forall fuel pos stop,
    (stop <= fuel + pos)%nat ->
    range_from fuel pos stop step =
    map (fun k => (pos + k * step)%nat) (seq 0 ((stop - pos + step - 1) / step)).
Proof.
  intros Hstep. induction fuel as [| fuel IH]; intros pos stop Hfuel.
  - simpl. replace (stop - pos + step - 1)%nat with (step - 1)%nat by lia.
    rewrite Nat.div_small by lia. reflexivity.
  - simpl. destruct (Nat.ltb_spec pos stop) as [Hlt | Hge].
    + replace (stop - pos + step - 1)%nat with ((stop - pos - 1) + 1 * step)%nat by lia.
      rewrite Nat.div_add by lia.
      rewrite Nat.add_1_r. rewrite <- cons_seq. simpl.
      rewrite Nat.add_0_r. f_equal.
      rewrite IH by lia.
      rewrite <- seq_shift, map_map.
      assert (Hdiv : ((stop - (pos + step) + step - 1) / step = (stop - pos - 1) / step)%nat).
      { destruct (Nat.le_gt_cases (pos + step) stop) as [Hle | Hgt].
        - f_equal. lia.
        - replace (stop - (pos + step) + step - 1)%nat with (step - 1)%nat by lia.
          rewrite !Nat.div_small by lia. reflexivity. }
      rewrite Hdiv. apply map_ext. intro k. lia.
    + replace (stop - pos + step - 1)%nat with (step - 1)%nat by lia.
      rewrite Nat.div_small by lia. reflexivity.
Qed.

(** [range(0, n, step)] visits [0, step, 2*step, ...], [ceil(n / step)]
    positions in all. *)
Lemma py_range_spec (n step : nat) :
  (0 < step)%nat ->
  py_range 0 n step = map (fun k => (k * step)%nat) (seq 0 ((n + step - 1) / step)).
Proof.
  intro Hstep. unfold py_range. rewrite range_from_spec by lia.
  rewrite Nat.sub_0_r. apply map_ext. intro k. lia.
Qed.

Lemma range_from_concat (data : bytes) (step : nat) :
  (0 < step)%nat ->
  forall fuel pos,
    (len data <= fuel + pos)%nat ->
    List.concat (map (fun p => slice data p (p + step))
                (range_from fuel pos (len data) step)) = skipn pos data.
Proof.
  intros Hstep. induction fuel as [| fuel IH]; intros pos Hfuel.
  - simpl. rewrite skipn_all2 by lia. reflexivity.
  - simpl. destruct (Nat.ltb_spec pos (len data)) as [Hlt | Hge].
    + simpl. rewrite IH by lia. unfold slice.
      replace (pos + step - pos)%nat with step by lia.
      rewrite Nat.add_comm, <- skipn_skipn.
      apply firstn_skipn.
    + simpl. rewrite skipn_all2 by lia. reflexivity.
Qed.

(** The chunks of the upload loop, glued together, are the file. *)
Lemma chunks_concat (data : bytes) :
  List.concat (map (fun p => slice data p (p + blocksize))
              (py_range 0 (len data) blocksize)) = data.
Proof.
  unfold py_range. rewrite range_from_concat.
  - reflexivity.
  - unfold blocksize. lia.
  - lia.
Qed.

(** *** The effects of the rate limiter *)

Section TransferFacts.
Variable env : Env.
Variable fui_bytes : FileUploadInfo -> bytes.
Context {Self : Type}.

(** [wait] in closed form: one clock read, then one of three branches. *)
Lemma wait_eq (n : Z) (rl : RateLimiter) (s : St Self) :
  let t := clock env (trace s) in
  let time_passed := t - last_check rl in
  wait env n rl s =
  if Qleb 1 time_passed then
    (Return (mkRateLimiter (rate_bytes rl) t (0 + n)),
     mkSt (self s) (trace s ++ [Clock t]))
  else if Qltb (rate_bytes rl) (inject_Z (bytes_sent rl + n)) then
    let h := trace s ++ [Clock t; Slept (1 - time_passed)] in
    (Return (mkRateLimiter (rate_bytes rl) (clock env h) (0 + n)),
     mkSt (self s) (h ++ [Clock (clock env h)]))
  else
    (Return (mkRateLimiter (rate_bytes rl) (last_check rl) (bytes_sent rl + n)),
     mkSt (self s) (trace s ++ [Clock t])).
Proof.
  intros t time_passed. unfold wait, bind, time_time, time_sleep, log, ret.
  cbn [self trace]. fold t. fold time_passed.
  destruct (Qleb 1 time_passed); [reflexivity |].
  destruct (Qltb (rate_bytes rl) (inject_Z (bytes_sent rl + n))); [| reflexivity].
  cbn [self trace rate_bytes last_check bytes_sent].
  rewrite <- app_assoc. reflexivity.
Qed.

(** [wait] always returns; it touches neither the object nor the bulk
    channel. *)
Lemma wait_returns (n : Z) (rl : RateLimiter) (s : St Self) :
  exists rl' new,
    wait env n rl s = (Return rl', mkSt (self s) (trace s ++ new)) /\
    bulk_frames new = [].
Proof.
  rewrite wait_eq.
  destruct (Qleb 1 _).
  - eexists _, _. split; reflexivity.
  - destruct (Qltb _ _).
    + eexists _, _. cbv zeta. rewrite <- app_assoc. split; reflexivity.
    + eexists _, _. split; reflexivity.
Qed.

Lemma bulk_frames_app (h1 h2 : History) :
  bulk_frames (h1 ++ h2) = bulk_frames h1 ++ bulk_frames h2.
Proof. apply flat_map_app. Qed.

Lemma call_Return (op : Op) (s s' : St Self) (u : unit) :
  call env op s = (Return u, s') ->
  s' = mkSt (self s) (trace s ++ [Called op]).
Proof.
  unfold call. destruct (raises env (trace s) op); intro H; inversion H.
  reflexivity.
Qed.

Lemma wait_connected_Return (fuel : nat) (s s' : St Self) (u : unit) :
  wait_connected env fuel s = (Return u, s') ->
  exists new,
    self s' = self s /\ trace s' = trace s ++ new /\ bulk_frames new = [].
Proof.
  revert s. induction fuel as [| fuel IH]; intros s; simpl;
    unfold bind, read_api_state, read_api_stopped, time_sleep, log, ret, raise, out_of_fuel;
    cbn [self trace].
  - destruct (is_Connected _); intro H; inversion H; subst.
    exists []. rewrite app_nil_r. repeat split.
  - destruct (is_Connected _).
    + intro H; inversion H; subst.
      exists []. rewrite app_nil_r. repeat split.
    + destruct (api_stopped env _); [discriminate |].
      intro H. apply IH in H. destruct H as (new & Hs & Ht & Hb).
      cbn [self trace] in *. exists (Slept (1 # 10) :: new).
      rewrite Ht, <- app_assoc. repeat split; assumption.
Qed.

Lemma send_chunks_Return (data : bytes) (positions : list nat) :
  forall (rl rl' : RateLimiter) (s s' : St Self),
    send_chunks env positions data rl s = (Return rl', s') ->
    exists new,
      self s' = self s /\ trace s' = trace s ++ new /\
      bulk_frames new =
      map (fun pos => (DATA, slice data pos (pos + blocksize), Some pos)) positions.
Proof.
  induction positions as [| pos rest IH]; intros rl rl' s s' H; simpl in H.
  - inversion H; subst. exists []. rewrite app_nil_r. repeat split.
  - apply bind_Return in H. destruct H as (rl1 & s1 & Hw & H).
    apply bind_Return in H. destruct H as (u & s2 & Hc & H).
    destruct (wait_returns (Z.of_nat (len (slice data pos (pos + blocksize)))) rl s)
      as (rl1' & new1 & Hw' & Hb1).
    rewrite Hw' in Hw. inversion Hw; subst rl1' s1. clear Hw.
    apply call_Return in Hc. subst s2.
    apply IH in H. destruct H as (new2 & Hs & Ht & Hb2). cbn [self trace] in *.
    eexists. split; [exact Hs | split].
    + rewrite Ht, <- !app_assoc. reflexivity.
    + rewrite !bulk_frames_app, Hb1, Hb2. reflexivity.
Qed.

End TransferFacts.

(** *** The upload *)

(** [ceil (n / d)] *)
Definition ceil_div (n d : nat) : nat := ((n + d - 1) / d)%nat.

Lemma ceil_div_spec (n d : nat) :
  (0 < d)%nat -> (n <= ceil_div n d * d < n + d)%nat.
Proof.
  intro Hd. unfold ceil_div.
  pose proof (Nat.div_mod_eq (n + d - 1) d) as E.
  pose proof (Nat.mod_upper_bound (n + d - 1) d ltac:(lia)) as B.
  nia.
Qed.

(** The byte offsets [0, 32768, 65536, ...] of a file of [n] bytes. *)
Definition offsets (n : nat) : list nat :=
  map (fun k => (k * blocksize)%nat) (seq 0 (ceil_div n blocksize)).

(** The DATA frame the upload emits for the chunk at [pos]. *)
Definition data_frame (data : bytes) (pos : nat) : Frame :=
  (DATA, slice data pos (pos + blocksize), Some pos).

Definition payload (f : Frame) : bytes := snd (fst f).

Lemma blocksize_pos : (0 < blocksize)%nat.
Proof. unfold blocksize. lia. Qed.

Lemma py_range_offsets (n : nat) : py_range 0 n blocksize = offsets n.
Proof. apply py_range_spec, blocksize_pos. Qed.

Lemma data_frames_payload (data : bytes) (ps : list nat) :
  map payload (map (data_frame data) ps) =
  map (fun p => slice data p (p + blocksize)) ps.
Proof. rewrite map_map. reflexivity. Qed.


Definition start : St unit := mkSt tt [].

Definition demo_fui : FileUploadInfo :=
  mkFileUploadInfo "a.gcode" 3 "5289df737df57326fcdd22597afb1fac" "test" "-" "-".

(** A stand-in for libflagship's serialisation. *)
Definition demo_fui_bytes (f : FileUploadInfo) : bytes :=
  list_byte_of_string (name f).

(** Once the wait for the session is over, the upload runs to completion
    unless a send fails. *)
Lemma send_chunks_completes (env : Env) (Self : Type) (data : bytes) :
  (forall h op, raises env h op = None) ->
  forall (positions : list nat) (rl : RateLimiter) (s : St Self),
  exists rl' s', send_chunks env positions data rl s = (Return rl', s').
Proof.
  intros Hquiet. induction positions as [| pos rest IH]; intros rl s; simpl.
  - eexists _, _. reflexivity.
  - unfold bind at 1.
    destruct (wait_returns env (Z.of_nat (len (slice data pos (pos + blocksize)))) rl s)
      as (rl1 & new & -> & _).
    unfold bind at 1, call. rewrite Hquiet. apply IH.
Qed.

Lemma send_file_completes (env : Env) (fui_bytes : FileUploadInfo -> bytes)
      (Self : Type) (fuel : nat) (fui : FileUploadInfo) (data : bytes)
      (rate : Q) (s s1 : St Self) :
  (forall h op, raises env h op = None) ->
  wait_connected env fuel s = (Return tt, s1) ->
  exists s', send_file env fui_bytes fuel fui data rate s = (Return tt, s').
Proof.
  intros Hquiet Hw. unfold send_file.
  unfold bind at 1. rewrite Hw.
  unfold bind at 1, RateLimiter_init, bind at 1, time_time, ret, history.
  unfold bind at 1. unfold bind at 1, call. rewrite Hquiet.
  unfold bind at 1. rewrite Hquiet.
  unfold bind at 1.
  match goal with
  | |- context [send_chunks env ?ps data ?rl ?st] =>
      destruct (@send_chunks_completes env Self data Hquiet ps rl st) as (rl' & s2 & ->)
  end.
  unfold bind, call. rewrite Hquiet. eexists. reflexivity.
Qed.

(** What a completed upload has put on the bulk channel. *)
Lemma send_file_Return (env : Env) (fui_bytes : FileUploadInfo -> bytes)
      (Self : Type) (fuel : nat) (fui : FileUploadInfo) (data : bytes)
      (rate_limit_mbps : Q) (s s' : St Self) :
  send_file env fui_bytes fuel fui data rate_limit_mbps s = (Return tt, s') ->
  exists new : History,
    trace s' = trace s ++ new /\
    bulk_frames new =
      [(BEGIN, fui_bytes fui ++ [x00], None)]
      ++ map (data_frame data) (offsets (len data))
      ++ [(END, [], None)].
Proof.
  intro H. unfold send_file in H.
  apply bind_Return in H. destruct H as (u0 & s0 & Hwait & H).
  apply wait_connected_Return in Hwait. destruct Hwait as (new0 & _ & Ht0 & Hb0).
  apply bind_Return in H. destruct H as (rl & s1 & Hinit & H).
  unfold RateLimiter_init, bind, time_time, ret in Hinit. inversion Hinit; subst rl s1.
  clear Hinit.
  apply bind_Return in H. destruct H as (h & s2 & Hh & H).
  unfold history in Hh. inversion Hh; subst h s2. clear Hh.
  apply bind_Return in H. destruct H as (u1 & s3 & Hx & H).
  apply call_Return in Hx. subst s3.
  apply bind_Return in H. destruct H as (u2 & s4 & Hbegin & H).
  apply call_Return in Hbegin. subst s4.
  apply bind_Return in H. destruct H as (rl' & s5 & Hchunks & H).
  apply send_chunks_Return in Hchunks. destruct Hchunks as (new5 & _ & Ht5 & Hb5).
  apply bind_Return in H. destruct H as (u3 & s6 & Hend & H).
  apply call_Return in Hend. subst s6.
  unfold ret in H. inversion H; subst s'. clear H.
  cbn [self trace] in *.
  rewrite py_range_offsets in Hb5.
  eexists. split.
  - rewrite Ht5, Ht0, <- !app_assoc. reflexivity.
  - rewrite !bulk_frames_app, Hb0, Hb5. reflexivity.
Qed.

(** C1.  Every completed [send_file] of [N] bytes puts on the bulk channel
    exactly: one BEGIN frame carrying [bytes(fui)] and a zero byte; then
    [ceil (N / 32768)] DATA frames, at the offsets [0, 32768, 65536, ...],
    whose payloads are the successive slices of the file, [N] bytes in
    all; then one END frame with an empty payload.  And [send_file] does
    complete whenever its wait for the session ends and no send fails. *)
Theorem send_file_frames (env : Env) (fui_bytes : FileUploadInfo -> bytes)
        (Self : Type) (fuel : nat) (fui : FileUploadInfo) (data : bytes)
        (rate_limit_mbps : Q) (s : St Self) :
  ((forall h op, raises env h op = None) ->
   (exists s1, wait_connected env fuel s = (Return tt, s1)) ->
   exists s', send_file env fui_bytes fuel fui data rate_limit_mbps s = (Return tt, s')) /\
  (forall s' : St Self,
      send_file env fui_bytes fuel fui data rate_limit_mbps s = (Return tt, s') ->
      exists new : History,
        trace s' = trace s ++ new /\
        bulk_frames new =
          [(BEGIN, fui_bytes fui ++ [x00], None)]
          ++ map (data_frame data) (offsets (len data))
          ++ [(END, [], None)]) /\
  len (map (data_frame data) (offsets (len data))) = ceil_div (len data) blocksize /\
  Z.of_nat blocksize = 32768%Z /\
  (len data <= ceil_div (len data) blocksize * blocksize < len data + blocksize)%nat /\
  map (fun f => snd f) (map (data_frame data) (offsets (len data)))
  = map Some (map (fun k => (k * blocksize)%nat)
                  (seq 0 (ceil_div (len data) blocksize))) /\
  list_sum (map (fun f => len (payload f))
                (map (data_frame data) (offsets (len data)))) = len data /\
  List.concat (map payload (map (data_frame data) (offsets (len data)))) = data.
Proof.
  split; [| split; [| split; [| split; [| split; [| split; [| split]]]]]].
  - intros Hquiet (s1 & Hw). destruct s1 as [x1 h1].
    eapply send_file_completes; eassumption.
  - intros s'. apply send_file_Return.
  - unfold offsets. rewrite !length_map, length_seq. reflexivity.
  - reflexivity.
  - apply ceil_div_spec, blocksize_pos.
  - unfold offsets, data_frame. rewrite !map_map. reflexivity.
  - transitivity (len (List.concat (map payload
                                         (map (data_frame data) (offsets (len data)))))).
    + rewrite length_concat, !map_map. reflexivity.
    + rewrite data_frames_payload, <- py_range_offsets, chunks_concat. reflexivity.
  - rewrite data_frames_payload, <- py_range_offsets. apply chunks_concat.
Qed.

Lemma send_file_frames_witness :
  exists s' : St unit,
    send_file quiet_env demo_fui_bytes 0 demo_fui [x01; x02; x03] 10 start
    = (Return tt, s') /\
    exists new : History,
      trace s' = trace start ++ new /\
      bulk_frames new =
        [(BEGIN, demo_fui_bytes demo_fui ++ [x00], None)]
        ++ map (data_frame [x01; x02; x03]) (offsets 3)
        ++ [(END, [], None)].
Proof.
  destruct (proj1 (@send_file_frames quiet_env demo_fui_bytes unit 0 demo_fui
                                     [x01; x02; x03] 10 start))
    as (s' & Hs').
  - intros h op. reflexivity.
  - exists start. reflexivity.
  - exists s'. split; [exact Hs' |].
    apply (proj1 (proj2 (@send_file_frames quiet_env demo_fui_bytes unit 0 demo_fui
                                           [x01; x02; x03] 10 start))).
    exact Hs'.
Defined.

(** An upload of 100 KiB: four DATA frames of 32768, 32768, 32768 and
    4096 bytes at the offsets 0, 32768, 65536 and 98304, between one
    BEGIN and one END. *)
Example upload_100KiB :
  map (fun f : Frame =>
         (fst (fst f), Z.of_nat (len (payload f)), option_map Z.of_nat (snd f)))
      (bulk_frames
         (trace (snd (send_file quiet_env demo_fui_bytes 0 demo_fui
                                (repeat x00 (100 * 1024)) 1 start))))
  = [(BEGIN, 8, None);
     (DATA, 32768, Some 0);
     (DATA, 32768, Some 32768);
     (DATA, 32768, Some 65536);
     (DATA, 4096, Some 98304);
     (END, 0, None)]%Z.
Proof. vm_compute. reflexivity. Qed.

(** *** The rate limiter's window *)

Lemma sleeps_app (h1 h2 : History) : sleeps (h1 ++ h2) = sleeps h1 ++ sleeps h2.
Proof. apply flat_map_app. Qed.



(** The clock reads 0 when the limiter is built and [t] from then on. *)
Definition later (t : Q) : Env :=
  with_clock (fun h => match h with [] => 0 | _ => t end) quiet_env.


(** Build a limiter for 1 Mbps and hand it four 32 KiB chunks. *)
Definition four_chunks (env : Env) : M unit RateLimiter :=
  rl <- RateLimiter_init env 1 ;;
  rl <- wait env 32768 rl ;;
  rl <- wait env 32768 rl ;;
  rl <- wait env 32768 rl ;;
  wait env 32768 rl.


(** C9, as the code has it.  Every [wait n] returns, having charged [n],
    after at most one sleep.  The sleep lasts [1 - time_passed] seconds,
    the rest of the window: more than [0], and at most [1] exactly when
    the clock has not gone back since [last_check] (a full second when no
    time has passed at all). *)
Theorem wait_sleeps_at_most_once (env : Env) (Self : Type) (n : Z)
        (rl : RateLimiter) (s : St Self) :
  exists (rl' : RateLimiter) (new : History),
    wait env n rl s = (Return rl', mkSt (self s) (trace s ++ new)) /\
    (bytes_sent rl' = n \/ bytes_sent rl' = (bytes_sent rl + n)%Z) /\
    (sleeps new = [] \/
     sleeps new = [1 - (clock env (trace s) - last_check rl)] /\
     0 < 1 - (clock env (trace s) - last_check rl) /\
     (1 - (clock env (trace s) - last_check rl) <= 1 <->
      last_check rl <= clock env (trace s))).
Proof.
  rewrite wait_eq. cbv zeta.
  destruct (Qleb 1 (clock env (trace s) - last_check rl)) eqn:Eroll.
  - eexists _, [Clock _]. split; [reflexivity |].
    cbn [bytes_sent sleeps flat_map app]. rewrite Z.add_0_l.
    split; left; reflexivity.
  - apply Qleb_gt in Eroll.
    destruct (Qltb (rate_bytes rl) (inject_Z (bytes_sent rl + n))).
    + eexists _, [Clock _; Slept _; Clock _]. split.
      { rewrite <- app_assoc. reflexivity. }
      cbn [bytes_sent sleeps flat_map app]. rewrite Z.add_0_l.
      split; [left; reflexivity | right].
      split; [reflexivity | split; [lra | split; intro; lra]].
    + eexists _, [Clock _]. split; [reflexivity |].
      cbn [bytes_sent sleeps flat_map app].
      split; [right | left]; reflexivity.
Qed.

(** C9 as stated fails on the bound.  With a clock that has not advanced
    since the window began, the fifth 32 KiB chunk at 1 Mbps sleeps for a
    full second; with a clock that was set back by a second, for two. *)
Lemma wait_sleep_counterexample :
  (sleeps (trace (snd ((rl <- four_chunks quiet_env ;; wait quiet_env 32768 rl) start)))
   = [1] /\ ~ 1 < 1) /\
  (sleeps (trace (snd (wait quiet_env 32768 (mkRateLimiter 131072 1 131072) start)))
   = [2] /\ ~ 2 < 1).
Proof.
  split; split; try (vm_compute; reflexivity); intro H; discriminate H.
Qed.

End TransferSpec.

(** ** Properties of [web/service/pppp.py] *)

Module PPPPSpec.
Import PPPP.

(** *** Teardown *)

(** The events a teardown may add to the history. *)
Definition teardown_event (ev : Event) : bool :=
  match ev with
  | Called op =>
      match op with
      | api_send_PktClose | api_stop | chan_close _ _
      | sock_getsockname | sock_getpeername | sock_setsockopt_linger
      | sock_shutdown | sock_close | dumper_close => true
      | _ => false
      end
  | Slept _ | Clock _ => true
  end.

Definition is_dumper_close (ev : Event) : bool :=
  match ev with Called dumper_close => true | _ => false end.

(** How often [dumper.close()] was called in a history. *)
Definition dumper_closes (h : History) : nat := len (filter is_dumper_close h).

(** A teardown event other than closing the dumper. *)
Definition session_teardown (ev : Event) : bool :=
  teardown_event ev && negb (is_dumper_close ev).

(** [1] if the object holds a dumper, else [0]. *)
Definition dumper_open_count (s : PPPPService) : nat :=
  match dumper s with Some _ => 1 | None => 0 end.

(** The object after a teardown that ended at time [t]. *)
Definition cleaned (t : Q) (s : PPPPService) : PPPPService :=
  set_last_cleanup_time t
    (set_heartbeat_fail_count 0
       (set__last_heartbeat 0
          (set__api None
             (set_dumper None
                (set_handlers [] s))))).

Lemma session_teardown_forallb (h : History) :
  forallb session_teardown h = true ->
  forallb teardown_event h = true /\ dumper_closes h = 0%nat.
Proof.
  unfold dumper_closes. induction h as [| ev h IH]; simpl; intro H.
  - split; reflexivity.
  - apply andb_true_iff in H. destruct H as [Hev Hh].
    unfold session_teardown in Hev. apply andb_true_iff in Hev.
    destruct Hev as [Ht Hd]. apply negb_true_iff in Hd.
    destruct (IH Hh) as [IH1 IH2]. rewrite Ht, Hd, IH1. split; [reflexivity | exact IH2].
Qed.

Lemma dumper_closes_app (h1 h2 : History) :
  dumper_closes (h1 ++ h2) = (dumper_closes h1 + dumper_closes h2)%nat.
Proof. unfold dumper_closes. rewrite filter_app, length_app. reflexivity. Qed.

Ltac frame :=
  lazymatch goal with
  | |- keeps _ (ret _) => apply keeps_ret
  | |- keeps _ (raise _) => apply keeps_raise
  | |- keeps _ out_of_fuel => apply keeps_out_of_fuel
  | |- keeps _ (bind _ _) => apply keeps_bind; [frame | intro; frame]
  | |- keeps _ (try_except _ _ _) => apply keeps_try_except; [frame | intro; frame]
  | |- keeps _ (guarded _) => unfold guarded; frame
  | |- keeps _ (call _ _) => apply keeps_call
  | |- keeps _ (recv _ _) => apply keeps_recv
  | |- keeps _ (time_time _) => apply keeps_time_time
  | |- keeps _ (time_sleep _) => apply keeps_log
  | |- keeps _ (read_api_state _) => apply keeps_read_api_state
  | |- keeps _ (read_api_stopped _) => apply keeps_read_api_stopped
  | |- keeps _ (modify _) => apply keeps_modify; intro; reflexivity
  | |- keeps _ get_self => apply keeps_get_self
  | |- keeps _ history => apply keeps_history
  | |- keeps _ (for_each _ _) => apply keeps_for_each; intro; frame
  | |- keeps _ (if ?b then _ else _) => destruct b; frame
  | |- keeps _ (match ?x with _ => _ end) => destruct x; frame
  | |- keeps _ (let _ := _ in _) => cbv zeta; frame
  | _ => idtac
  end.

Ltac world :=
  lazymatch goal with
  | |- safe _ (ret _) => apply safe_ret
  | |- safe _ (bind _ _) => apply safe_bind; [world | intro; world]
  | |- safe _ (guarded _) => apply safe_guard; world
  | |- safe _ (time_sleep _) => apply safe_time_sleep; reflexivity
  | |- safe _ (time_time _) => apply safe_time_time; intro; reflexivity
  | |- safe _ (read_api_stopped _) => apply safe_read_api_stopped
  | |- safe _ (read_api_state _) => apply safe_read_api_state
  | |- safe _ get_self => apply safe_get_self
  | |- safe _ (for_each _ _) => apply safe_for_each; intro; world
  | |- safe _ (close_channel _ _) => unfold close_channel; world
  | |- safe _ (if ?b then _ else _) => destruct b; world
  | |- safe _ (match ?x with _ => _ end) => destruct x; world
  | |- worldly _ (bind _ _) => apply worldly_bind; [world | intro; world]
  | |- worldly _ (call _ _) => apply worldly_call; reflexivity
  | |- worldly _ (recv _ _) => apply worldly_recv; reflexivity
  | |- worldly _ (ret _) => apply worldly_ret
  | |- worldly _ (raise _) => apply worldly_raise
  | |- worldly _ (if ?b then _ else _) => destruct b; world
  | |- worldly _ (match ?x with _ => _ end) => destruct x; world
  | |- worldly _ _ => apply safe_worldly; world
  end.

Section Teardown.
Variable env : Env.

(** [c], run on the object [svc] after the history [h], returns and
    leaves the object cleaned, having called [dumper.close()] [n] times. *)
Definition tears_down (n : nat) (c : Method unit) (svc : PPPPService) (h : History)
  : Prop :=
  exists (new : History) (t : Q),
    c (mkSt svc h) = (Return tt, mkSt (cleaned t svc) (h ++ new)) /\
    forallb teardown_event new = true /\
    dumper_closes new = n.

Lemma tears_down_step {A} (c : Method A) (k : A -> Method unit) n svc h :
  safe session_teardown c ->
  (forall a h1, tears_down n (k a) svc h1) ->
  tears_down n (bind c k) svc h.
Proof.
  intros Hc Hk. destruct (Hc (mkSt svc h)) as (a & new1 & E1 & Hp1).
  cbn [self trace] in E1.
  destruct (Hk a (h ++ new1)) as (new2 & t & E2 & Hp2 & Hn2).
  apply session_teardown_forallb in Hp1. destruct Hp1 as [Hp1 Hn1].
  exists (new1 ++ new2), t. unfold bind. rewrite E1, E2.
  rewrite app_assoc, forallb_app, Hp1, Hp2, dumper_closes_app, Hn1, Hn2.
  repeat split.
Qed.

(** The [try] block of [cleanup_connection] cannot fail: every foreign
    call in it is guarded. *)
Lemma cleanup_body_tears_down (api : Api) (svc : PPPPService) (h : History) :
  tears_down (dumper_open_count svc) (cleanup_body env api) svc h.
Proof.
  unfold cleanup_body.
  revert h.
  do 7 (intro h; apply tears_down_step; [world | intros ?]; clear h).
  intro h0.
  unfold tears_down, bind, modify, get_self, guarded, try_except, call, time_sleep,
    time_time, log, ret.
  unfold dumper_open_count. cbn [self trace dumper set_handlers].
  destruct (dumper svc) as [d |]; cbn [self trace].
  - destruct (raises env h0 dumper_close); cbn [is_Exception self trace];
      eexists _, _; (split; [rewrite <- !app_assoc; reflexivity | split; reflexivity]).
  - eexists _, _; (split; [rewrite <- !app_assoc; reflexivity | split; reflexivity]).
Qed.

(** What [cleanup_connection] does, in full. *)
Lemma cleanup_connection_run (svc : PPPPService) (h : History) :
  match _api svc with
  | Some _ =>
      exists (new : History) (t : Q),
        cleanup_connection env (mkSt svc h)
        = (Return tt, mkSt (cleaned t svc) (h ++ new)) /\
        forallb teardown_event new = true /\
        dumper_closes new = dumper_open_count svc
  | None => cleanup_connection env (mkSt svc h) = (Return tt, mkSt svc h)
  end.
Proof.
  unfold cleanup_connection, bind, get_self. cbn [self].
  destruct (_api svc) as [api |]; [| reflexivity].
  destruct (cleanup_body_tears_down api svc h) as (new & t & E & Hp & Hn).
  exists new, t. unfold try_except. rewrite E. repeat split; assumption.
Qed.

End Teardown.

(** C4, as the code has it.  [cleanup_connection] always returns, whatever
    fails inside.  When a session is present, it leaves the session
    reference [None], the handler list empty, the dumper dropped after
    one call of its [close()] (none if there was no dumper), and the
    heartbeat state reset.  When no session is present it does nothing at
    all.  In both cases a second call changes nothing. *)
Theorem cleanup_connection_tears_down (env : Env) (svc : PPPPService) (h : History) :
  exists (s' : St PPPPService) (new : History),
    cleanup_connection env (mkSt svc h) = (Return tt, s') /\
    trace s' = h ++ new /\
    match _api svc with
    | Some _ =>
        _api (self s') = None /\
        handlers (self s') = [] /\
        dumper (self s') = None /\
        dumper_closes new = dumper_open_count svc /\
        _last_heartbeat (self s') = 0 /\
        heartbeat_fail_count (self s') = 0%nat
    | None => self s' = svc /\ new = []
    end /\
    cleanup_connection env s' = (Return tt, s').
Proof.
  pose proof (cleanup_connection_run env svc h) as H.
  destruct (_api svc) as [api |] eqn:Eapi.
  - destruct H as (new & t & E & _ & Hn).
    exists (mkSt (cleaned t svc) (h ++ new)), new.
    split; [exact E |]. split; [reflexivity |].
    split; [repeat split; exact Hn |].
    exact (cleanup_connection_run env (cleaned t svc) (h ++ new)).
  - exists (mkSt svc h), []. split; [exact H |].
    split; [cbn; rewrite app_nil_r; reflexivity |].
    split; [split; reflexivity | exact H].
Qed.

(** A service without a session that still holds a handler, an open
    dumper and two failed heartbeats. *)
Definition leftover : PPPPService :=
  set_heartbeat_fail_count 2 (set_dumper (Some "pppp.log"%string) (set_handlers [7%nat] init)).

(** A printer that does not answer: the LAN search fails at time [100],
    with packet dumping configured. *)
Definition dumping_env : Env :=
  {| clock := fun _ => 100;
     raises := fun _ op =>
                 match op with api_connect_lan_search => Some OSError | _ => None end;
     api_state := fun _ => Idle;
     api_stopped := fun _ => false;
     recv_result := fun _ => None;
     uuid4 := fun _ => [];
     file_bytes := fun _ => [];
     windows := false;
     printer_config := printer_config quiet_env;
     pppp_dump := Some "pppp.log"%string;
     new_api := new_api quiet_env;
     pppp_service := pppp_service quiet_env;
     run_state := run_state quiet_env |}.

(** C4 as stated fails when no session is present: the handler, the
    dumper and the heartbeat count all survive [cleanup_connection].
    [worker_start] itself gets there: when the connection attempt fails,
    its dumper is already open while [_api] is still [None], and the
    cleanup it runs neither closes nor drops it. *)
Lemma cleanup_without_session_counterexample :
  (cleanup_connection quiet_env (mkSt leftover []) = (Return tt, mkSt leftover []) /\
   _api leftover = None /\
   handlers leftover = [7%nat] /\
   dumper leftover = Some "pppp.log"%string /\
   heartbeat_fail_count leftover = 2%nat) /\
  (fst (worker_start dumping_env 5 (mkSt init [])) = Raise OSError /\
   dumper (self (snd (worker_start dumping_env 5 (mkSt init []))))
   = Some "pppp.log"%string /\
   dumper_closes (trace (snd (worker_start dumping_env 5 (mkSt init [])))) = 0%nat).
Proof.
  split; [repeat split | split; [| split]]; vm_compute; reflexivity.
Qed.

(** *** Backoff *)

Section Backoff.
Variable env : Env.



(** The retry counter once [get_retry_interval] has looked at it: back to
    zero after an idle spell, and back to zero at [MAX_RETRY_COUNT]. *)
Definition settled (idle : bool) (count : nat) : nat :=
  let count := if idle then 0%nat else count in
  if (MAX_RETRY_COUNT <=? count)%nat then 0%nat else count.

Lemma get_retry_interval_eq (svc : PPPPService) (h : History) :
  get_retry_interval env (mkSt svc h) =
  let idle := Qltb MAX_RETRY_INTERVAL (clock env h - last_connection_attempt svc) in
  let count := settled idle (retry_count svc) in
  (Return (py_min (Q_of_nat (INITIAL_RETRY_DELAY * 2 ^ count)) MAX_RETRY_INTERVAL),
   mkSt (set_retry_count count svc) (h ++ [Clock (clock env h)])).
Proof.
  unfold get_retry_interval, settled, bind, time_time, get_self, modify, ret.
  cbn [self trace]. destruct svc as [rc lca lsc api lh hfc tr lrt hs st du rp lct].
  cbn [last_connection_attempt retry_count].
  destruct (Qltb MAX_RETRY_INTERVAL (clock env h - lca));
    cbn [self trace retry_count set_retry_count].
  - reflexivity.
  - destruct (MAX_RETRY_COUNT <=? rc)%nat; reflexivity.
Qed.

Lemma adopt_run (api : Api) (svc : PPPPService) (h : History) :
  exists s', adopt env api (mkSt svc h) = (Return tt, s') /\
             _api (self s') = Some api /\ retry_count (self s') = 0%nat.
Proof.
  eexists. unfold adopt, reset_retry_count, bind, modify, time_time, ret.
  cbn [self trace]. repeat split.
Qed.

Lemma adopt_returns (api : Api) : returns (adopt env api).
Proof.
  intros [svc h]. destruct (adopt_run api svc h) as (s' & E & _). eauto.
Qed.

Lemma bind_socket_keeps {X} (f : PPPPService -> X) (attempts : list nat) :
  keeps f (bind_socket env attempts).
Proof.
  induction attempts as [| attempt rest IH]; simpl; [frame |].
  apply keeps_bind; [frame | intros []; [frame | exact IH]].
Qed.

Lemma await_connection_keeps {X} (f : PPPPService -> X) (fuel : nat) (deadline : Q) :
  keeps f (await_connection env fuel deadline).
Proof.
  induction fuel as [| fuel IH]; simpl.
  - frame.
  - apply keeps_bind; [frame | intro st].
    destruct (is_Connected st); [frame |].
    apply keeps_bind; [frame | intros _; exact IH].
Qed.

(** Until the session is connected, [worker_start] touches no attribute
    but the dumper. *)
Lemma establish_keeps {X} (f : PPPPService -> X) (fuel : nat) (deadline : Q) :
  (forall d s, f (set_dumper d s) = f s) ->
  keeps f (establish env fuel deadline).
Proof.
  intro Hf. unfold establish.
  do 4 (apply keeps_bind; [frame | intros _]).
  apply keeps_bind; [apply bind_socket_keeps | intros _].
  apply keeps_bind; [frame | intros h].
  apply keeps_bind; [frame | intros _]. cbv zeta.
  apply keeps_bind.
  { destruct (pppp_dump env); [| frame].
    apply keeps_bind; [frame | intros _].
    apply keeps_bind; [apply keeps_modify; intro; apply Hf | intros _; frame]. }
  intros _. do 2 (apply keeps_bind; [frame | intros _]).
  apply keeps_bind; [apply await_connection_keeps | intros _; frame].
Qed.




End Backoff.





(** The delays of the backoff, one period. *)
Definition backoff_period : list Q := [2; 4; 8; 16; 30].











(** *** The run loop *)

Definition is_recv (ev : Event) : bool :=
  match ev with Called (api_recv _) => true | _ => false end.

(** Any event but a call of [recv]. *)
Definition not_recv (ev : Event) : bool := negb (is_recv ev).

Lemma teardown_not_recv (h : History) :
  forallb teardown_event h = true -> forallb not_recv h = true.
Proof.
  induction h as [| ev h IH]; simpl; [reflexivity |].
  intro H. apply andb_true_iff in H. destruct H as [Hev Hh].
  rewrite (IH Hh), andb_true_r.
  destruct ev as [[] | |]; try reflexivity; discriminate.
Qed.

(** The attributes the run loop leaves alone unless it tears the
    connection down. *)
Definition same_core (a b : PPPPService) : Prop :=
  stopping a = stopping b /\
  restart_pending a = restart_pending b /\
  handlers a = handlers b /\
  _api a = _api b.

Lemma same_core_refl (a : PPPPService) : same_core a a.
Proof. repeat split. Qed.

(** What the handlers are called with for the packet [msg]. *)
Definition deliveries (msg : Packet) (hs : list nat) : History :=
  map (fun handler => Called (handler_call handler (chan msg) msg)) hs.

Lemma not_recv_deliveries (msg : Packet) (hs : list nat) :
  forallb not_recv (deliveries msg hs) = true.
Proof. induction hs as [| hd hs IH]; simpl; [reflexivity | exact IH]. Qed.

Section RunLoop.
Variable env : Env.

Lemma cleanup_then_flag (svc : PPPPService) (h : History) :
  exists s' new,
    (cleanup_connection env ;; modify (set_restart_pending true) ;; ret true)
      (mkSt svc h) = (Return true, s') /\
    trace s' = h ++ new /\ forallb not_recv new = true.
Proof.
  unfold bind at 1. pose proof (cleanup_connection_run env svc h) as R.
  destruct (_api svc).
  - destruct R as (new & t & E & Hp & _). rewrite E.
    eexists _, new. split; [reflexivity |]. split; [reflexivity |].
    apply teardown_not_recv, Hp.
  - rewrite R. eexists _, []. split; [reflexivity |].
    cbn. rewrite app_nil_r. split; reflexivity.
Qed.

Lemma cleanup_then_return (svc : PPPPService) (h : History) :
  exists s' new,
    (cleanup_connection env ;; modify (set_restart_pending true) ;; ret tt)
      (mkSt svc h) = (Return tt, s') /\
    trace s' = h ++ new /\ forallb not_recv new = true.
Proof.
  unfold bind at 1. pose proof (cleanup_connection_run env svc h) as R.
  destruct (_api svc).
  - destruct R as (new & t & E & Hp & _). rewrite E.
    eexists _, new. split; [reflexivity |]. split; [reflexivity |].
    apply teardown_not_recv, Hp.
  - rewrite R. eexists _, []. split; [reflexivity |].
    cbn. rewrite app_nil_r. split; reflexivity.
Qed.

(** Every handler is called, once and in order, whether or not a handler
    raises; the loop itself always returns. *)
Lemma deliver_run (msg : Packet) (svc : PPPPService) (h : History) :
  deliver env msg (mkSt svc h) = (Return tt, mkSt svc (h ++ deliveries msg (handlers svc))).
Proof.
  unfold deliver, bind at 1, get_self. cbn [self].
  generalize (handlers svc) as hs. intro hs. revert h.
  induction hs as [| hd hs IH]; intro h; simpl.
  - rewrite app_nil_r. reflexivity.
  - unfold bind, guarded, try_except, call. cbn [self trace].
    destruct (raises env h (handler_call hd (chan msg) msg)); cbn [is_Exception];
      unfold ret; fold (@bind PPPPService unit unit);
      rewrite IH, <- app_assoc; reflexivity.
Qed.

(** [send_heartbeat] always answers, and touches nothing but the failure
    count. *)
Lemma send_heartbeat_run (svc : PPPPService) (h : History) :
  exists (sent : bool) (n : nat) (new : History),
    send_heartbeat env (mkSt svc h)
    = (Return sent, mkSt (set_heartbeat_fail_count n svc) (h ++ new)) /\
    forallb not_recv new = true.
Proof.
  destruct svc as [rc lca lsc api lh hfc tr lrt hs st du rp lct].
  unfold send_heartbeat, api_command, connected, bind, get_self, read_api_stopped,
    read_api_state, try_except, call, modify, raise, ret, incr_heartbeat_fail_count,
    set_heartbeat_fail_count.
  destruct api as [a |]; cbn.
  - destruct (api_stopped env h) eqn:Es;
      destruct (is_Connected (api_state env h)) eqn:Ec;
      cbn; rewrite ?Es, ?Ec; cbn; rewrite ?Ec; cbn;
      try (eexists _, _, []; rewrite app_nil_r; split; reflexivity).
    destruct (raises env h (api_json_command Heartbeat)); cbn;
      eexists _, _, [_]; split; reflexivity.
  - eexists _, _, []; rewrite app_nil_r; split; reflexivity.
Qed.

(** The heartbeat step either makes [worker_run] return after a
    teardown, or lets it go on with the core of the object untouched. *)
Lemma heartbeat_due_run (now : Q) (svc : PPPPService) (h : History) :
  exists (returned : bool) (s' : St PPPPService) (new : History),
    heartbeat_due env now (mkSt svc h) = (Return returned, s') /\
    trace s' = h ++ new /\ forallb not_recv new = true /\
    (returned = false -> same_core (self s') svc).
Proof.
  unfold heartbeat_due, bind at 1, get_self. cbn [self].
  destruct (Qleb HEARTBEAT_INTERVAL (now - _last_heartbeat svc)).
  - unfold bind at 1.
    destruct (send_heartbeat_run svc h) as (sent & n & new1 & E & Hp1). rewrite E.
    unfold bind at 1, get_self. cbn [self].
    destruct (negb sent && _)%bool.
    + destruct (cleanup_then_flag (set_heartbeat_fail_count n svc) (h ++ new1))
        as (s' & new2 & E2 & Ht & Hp2).
      exists true, s', (new1 ++ new2). rewrite E2.
      split; [reflexivity |]. split; [rewrite Ht, app_assoc; reflexivity |].
      split; [rewrite forallb_app, Hp1, Hp2; reflexivity | discriminate].
    + eexists false, _, new1. split; [reflexivity |].
      split; [reflexivity |]. split; [exact Hp1 | intros _; repeat split].
  - eexists false, _, []. split; [reflexivity |].
    cbn. rewrite app_nil_r. repeat split.
Qed.

(** The [except] clauses of the outer [try] of [worker_run]. *)
Lemma recover_run (e : Exn) (svc : PPPPService) (h : History) :
  exists (returned : bool) (s' : St PPPPService) (new : History),
    (if is_ConnectionResetError e then
       cleanup_connection env ;; modify (set_restart_pending true) ;; ret true
     else
       modify incr_heartbeat_fail_count ;;
       s <- get_self ;;
       if (HEARTBEAT_FAIL_THRESHOLD <=? heartbeat_fail_count s)%nat then
         cleanup_connection env ;; modify (set_restart_pending true) ;; ret true
       else ret false) (mkSt svc h) = (Return returned, s') /\
    trace s' = h ++ new /\ forallb not_recv new = true /\
    (returned = false -> same_core (self s') svc).
Proof.
  destruct (is_ConnectionResetError e).
  - destruct (cleanup_then_flag svc h) as (s' & new & E & Ht & Hp).
    exists true, s', new.
    split; [exact E |]. split; [exact Ht |]. split; [exact Hp | discriminate].
  - unfold bind at 1, modify. cbn [self trace].
    unfold bind at 1, get_self. cbn [self].
    destruct (HEARTBEAT_FAIL_THRESHOLD <=? _)%nat.
    + destruct (cleanup_then_flag (incr_heartbeat_fail_count svc) h)
        as (s' & new & E & Ht & Hp).
      exists true, s', new.
      split; [exact E |]. split; [exact Ht |]. split; [exact Hp | discriminate].
    + eexists false, _, []. split; [reflexivity |].
      cbn. rewrite app_nil_r. repeat split.
Qed.

End RunLoop.

Section RunLoopCases.
Variable env : Env.

Lemma recv_eq (t : Q) (svc : PPPPService) (h : History) :
  recv env t (mkSt svc h) =
  match raises env h (api_recv t) with
  | Some e => (Raise e, mkSt svc (h ++ [Called (api_recv t)]))
  | None => (Return (recv_result env h), mkSt svc (h ++ [Called (api_recv t)]))
  end.
Proof. reflexivity. Qed.

Lemma call_eq (op : Op) (svc : PPPPService) (h : History) :
  call env op (mkSt svc h) =
  match raises env h op with
  | Some e => (Raise e, mkSt svc (h ++ [Called op]))
  | None => (Return tt, mkSt svc (h ++ [Called op]))
  end.
Proof. reflexivity. Qed.

(** The outer [try] statement of [worker_run]: it never raises; the
    history it adds starts with the one call of [recv]; and when a packet
    is received and processed, it is delivered to every handler and
    nothing else happens. *)
Lemma receive_run (timeout : Q) (svc : PPPPService) (h : History) :
  exists (returned : bool) (s' : St PPPPService) (rest : History),
    receive env timeout (mkSt svc h) = (Return returned, s') /\
    trace s' = h ++ Called (api_recv (py_min timeout HEARTBEAT_INTERVAL)) :: rest /\
    forallb not_recv rest = true /\
    (returned = false -> same_core (self s') svc) /\
    (forall msg : Packet,
        raises env h (api_recv (py_min timeout HEARTBEAT_INTERVAL)) = None ->
        recv_result env h = Some msg ->
        raises env (h ++ [Called (api_recv (py_min timeout HEARTBEAT_INTERVAL))])
               (api_process msg) = None ->
        returned = false /\ self s' = svc /\
        rest = Called (api_process msg) :: deliveries msg (handlers svc)).
Proof.
  set (t0 := py_min timeout HEARTBEAT_INTERVAL).
  unfold receive. fold t0.
  unfold try_except at 1. unfold bind at 1. unfold try_except at 1. unfold bind at 1.
  rewrite recv_eq.
  destruct (raises env h (api_recv t0)) as [e |] eqn:Er.
  - destruct (is_TimeoutError e).
    + exists false, (mkSt svc (h ++ [Called (api_recv t0)])), [].
      split; [reflexivity |]. split; [reflexivity |]. split; [reflexivity |].
      split; [intros _; apply same_core_refl | intros msg H; discriminate H].
    + cbn [is_Exception].
      destruct (recover_run env e svc (h ++ [Called (api_recv t0)]))
        as (returned & s' & new & E & Ht & Hp & Hcore).
      exists returned, s', new. split; [exact E |].
      split; [rewrite Ht, <- app_assoc; reflexivity |]. split; [exact Hp |].
      split; [exact Hcore | intros msg H; discriminate H].
  - destruct (recv_result env h) as [m |] eqn:Em.
    + unfold bind at 1. rewrite call_eq.
      destruct (raises env (h ++ [Called (api_recv t0)]) (api_process m)) as [e |] eqn:Ep.
      * destruct (is_TimeoutError e).
        -- eexists false, _, [Called (api_process m)].
           split; [reflexivity |]. split; [cbn; rewrite <- app_assoc; reflexivity |].
           split; [reflexivity |].
           split; [intros _; apply same_core_refl |].
           intros msg _ Hm Hp'. inversion Hm; subst. rewrite Ep in Hp'. discriminate.
        -- cbn [is_Exception].
           destruct (recover_run env e svc
                       ((h ++ [Called (api_recv t0)]) ++ [Called (api_process m)]))
             as (returned & s' & new & E & Ht & Hp & Hcore).
           exists returned, s', (Called (api_process m) :: new). split; [exact E |].
           split; [rewrite Ht, <- !app_assoc; reflexivity |]. split; [exact Hp |].
           split; [exact Hcore |].
           intros msg _ Hm Hp'. inversion Hm; subst. rewrite Ep in Hp'. discriminate.
      * rewrite deliver_run.
        eexists false, _, (Called (api_process m) :: deliveries m (handlers svc)).
        split; [reflexivity |]. split; [cbn; rewrite <- !app_assoc; reflexivity |].
        split; [apply not_recv_deliveries |].
        split; [intros _; apply same_core_refl |].
        intros msg _ Hm _. inversion Hm; subst. repeat split.
    + exists false, (mkSt svc (h ++ [Called (api_recv t0)])), [].
      split; [reflexivity |]. split; [reflexivity |]. split; [reflexivity |].
      split; [intros _; apply same_core_refl | intros msg _ H; discriminate H].
Qed.

(** How [worker_run] ends once the outer [try] is over. *)
Definition finish (returned : bool) (s : St PPPPService)
  : outcome unit * St PPPPService :=
  if returned then (Return tt, s)
  else if restart_pending (self s) && negb (stopping (self s)) then
    (Raise (ServiceRestartSignal "Service needs restart"),
     mkSt (set_restart_pending false (self s)) (trace s))
  else (Return tt, s).

(** The two ways through [worker_run]: it returns early, without a call
    of [recv]; or it reaches the outer [try] with the core of the object
    as it found it. *)
Lemma worker_run_cases (timeout : Q) (svc : PPPPService) (h : History) r s' :
  worker_run env timeout (mkSt svc h) = (r, s') ->
  (r = Return tt /\
   exists new, trace s' = h ++ new /\ forallb not_recv new = true) \/
  (stopping svc = false /\ _api svc <> None /\
   exists (pre : History) (svc1 : PPPPService) (returned : bool) (s2 : St PPPPService),
     forallb not_recv pre = true /\
     same_core svc1 svc /\
     receive env timeout (mkSt svc1 (h ++ pre)) = (Return returned, s2) /\
     (r, s') = finish returned s2).
Proof.
  unfold worker_run, bind at 1, get_self. cbn [self].
  destruct (stopping svc) eqn:Hstop.
  { intro H. inversion H; subst. left. split; [reflexivity |].
    exists []. cbn. rewrite app_nil_r. split; reflexivity. }
  unfold bind at 1, log_instance_count, bind at 1, time_time, ret at 1. cbn [self trace].
  unfold bind at 1, get_self. cbn [self].
  destruct (_api svc) as [api |] eqn:Hapi.
  2:{ unfold bind at 1. cbn [self trace].
      destruct (Qltb _ _); intro H; inversion H; subst; left;
        (split; [reflexivity |]); eexists; cbn [trace];
        (split; [rewrite <- !app_assoc; reflexivity | reflexivity]). }
  unfold bind at 1, read_api_stopped. cbn [self trace].
  destruct (api_stopped env _).
  { match goal with |- context [bind _ _ (mkSt ?a ?b)] =>
      destruct (cleanup_then_return env a b) as (s1 & new & E & Ht & Hp)
    end.
    rewrite E. intro H. inversion H; subst. left. split; [reflexivity |].
    eexists. split; [rewrite Ht, <- app_assoc; reflexivity |]. exact Hp. }
  unfold bind at 1. cbn [self trace].
  unfold bind at 1.
  match goal with |- context [heartbeat_due env ?now (mkSt ?a ?b)] =>
    destruct (heartbeat_due_run env now a b) as (ret1 & s1 & new1 & E1 & Ht1 & Hp1 & Hc1)
  end.
  rewrite E1. destruct ret1.
  { intro H. inversion H; subst. left. split; [reflexivity |].
    eexists. split; [rewrite Ht1, <- !app_assoc; reflexivity |]. exact Hp1. }
  specialize (Hc1 eq_refl). destruct s1 as [svc1 h1]. cbn [self trace] in *. subst h1.
  unfold bind at 1.
  destruct (receive_run timeout svc1 (((h ++ [Clock (clock env h)]) ++
              [Clock (clock env (h ++ [Clock (clock env h)]))]) ++ new1))
    as (ret2 & s2 & rest & E2 & Ht2 & Hp2 & Hc2 & _).
  rewrite E2. intro H. right. split; [reflexivity |]. split; [discriminate |].
  exists ([Clock (clock env h); Clock (clock env (h ++ [Clock (clock env h)]))] ++ new1),
    svc1, ret2, s2.
  split; [exact Hp1 |]. split; [exact Hc1 |].
  split; [rewrite <- E2; f_equal; f_equal; rewrite <- !app_assoc; reflexivity |].
  rewrite <- H. unfold finish. destruct ret2; [reflexivity |].
  unfold bind, get_self.
  destruct (restart_pending (self s2) && negb (stopping (self s2)))%bool; reflexivity.
Qed.

End RunLoopCases.

Lemma finish_trace (returned : bool) (s : St PPPPService) :
  trace (snd (finish returned s)) = trace s.
Proof.
  unfold finish. destruct returned; [reflexivity |].
  destruct (restart_pending (self s) && negb (stopping (self s)))%bool; reflexivity.
Qed.

(** *** The session after a failure *)




(** The session is gone, the handlers with it, and a restart is asked
    for. *)
Definition torn_down (s : PPPPService) : Prop :=
  _api s = None /\ handlers s = [] /\ restart_pending s = true.


Section RunLoopStates.
Variable env : Env.

Lemma cleanup_then_torn (A : Type) (a : A) (svc : PPPPService) (h : History) :
  _api svc <> None ->
  exists s' new,
    (cleanup_connection env ;; modify (set_restart_pending true) ;; ret a)
      (mkSt svc h) = (Return a, s') /\
    trace s' = h ++ new /\ forallb teardown_event new = true /\
    torn_down (self s') /\ stopping (self s') = stopping svc.
Proof.
  intro Hapi. unfold bind at 1. pose proof (cleanup_connection_run env svc h) as R.
  destruct (_api svc); [| contradiction].
  destruct R as (new & t & E & Hp & _). rewrite E.
  eexists _, new. split; [reflexivity |]. split; [reflexivity |].
  split; [exact Hp |]. split; [repeat split | reflexivity].
Qed.

(** The [except] clauses of the outer [try] of [worker_run], on a
    service with a session: a connection reset tears the session down;
    any other exception is counted, and tears it down at the
    threshold. *)
Lemma recover_outcome (e : Exn) (svc : PPPPService) (h : History) :
  _api svc <> None ->
  exists (returned : bool) (s' : St PPPPService) (new : History),
    (if is_ConnectionResetError e then
       cleanup_connection env ;; modify (set_restart_pending true) ;; ret true
     else
       modify incr_heartbeat_fail_count ;;
       s <- get_self ;;
       if (HEARTBEAT_FAIL_THRESHOLD <=? heartbeat_fail_count s)%nat then
         cleanup_connection env ;; modify (set_restart_pending true) ;; ret true
       else ret false) (mkSt svc h) = (Return returned, s') /\
    trace s' = h ++ new /\
    forallb teardown_event new = true /\
    returned = (is_ConnectionResetError e
                || (HEARTBEAT_FAIL_THRESHOLD <=? S (heartbeat_fail_count svc))%nat)%bool /\
    (if returned
     then torn_down (self s') /\ stopping (self s') = stopping svc
     else self s' = incr_heartbeat_fail_count svc /\ new = []).
Proof.
  intro Hapi. destruct (is_ConnectionResetError e).
  - destruct (cleanup_then_torn true svc h Hapi) as (s' & new & E & Ht & Hp & Htorn & Hs).
    exists true, s', new. split; [exact E |]. split; [exact Ht |].
    split; [exact Hp |]. split; [reflexivity |]. split; assumption.
  - unfold bind at 1, modify. cbn [self trace].
    unfold bind at 1, get_self. cbn [self].
    change (heartbeat_fail_count (incr_heartbeat_fail_count svc))
      with (S (heartbeat_fail_count svc)).
    cbn [orb].
    destruct (HEARTBEAT_FAIL_THRESHOLD <=? S (heartbeat_fail_count svc))%nat.
    + destruct (cleanup_then_torn true (incr_heartbeat_fail_count svc) h Hapi)
        as (s' & new & E & Ht & Hp & Htorn & Hs).
      exists true, s', new. split; [exact E |]. split; [exact Ht |].
      split; [exact Hp |]. split; [reflexivity |]. split; assumption.
    + eexists false, _, []. split; [reflexivity |].
      cbn [self trace]. rewrite app_nil_r. repeat split.
Qed.


(** When the heartbeat step makes [worker_run] return, the session has
    been torn down. *)
Lemma heartbeat_due_torn (now : Q) (svc : PPPPService) (h : History)
      (s' : St PPPPService) :
  _api svc <> None ->
  heartbeat_due env now (mkSt svc h) = (Return true, s') ->
  torn_down (self s') /\ stopping (self s') = stopping svc.
Proof.
  intro Hapi. unfold heartbeat_due, bind at 1, get_self. cbn [self].
  destruct (Qleb HEARTBEAT_INTERVAL (now - _last_heartbeat svc)).
  - unfold bind at 1.
    destruct (send_heartbeat_run env svc h) as (sent & n & new1 & E & _). rewrite E.
    unfold bind at 1, get_self. cbn [self].
    destruct (negb sent && _)%bool.
    + destruct (cleanup_then_torn true (set_heartbeat_fail_count n svc) (h ++ new1) Hapi)
        as (s1 & new2 & E2 & _ & _ & Htorn & Hs).
      rewrite E2. intro H. inversion H; subst. split; assumption.
    + unfold bind, modify, ret. intro H. discriminate H.
  - unfold ret. intro H. discriminate H.
Qed.

(** The same for the outer [try] statement. *)
Lemma receive_torn (timeout : Q) (svc : PPPPService) (h : History)
      (s' : St PPPPService) :
  _api svc <> None ->
  receive env timeout (mkSt svc h) = (Return true, s') ->
  torn_down (self s') /\ stopping (self s') = stopping svc.
Proof.
  intro Hapi.
  set (t0 := py_min timeout HEARTBEAT_INTERVAL).
  unfold receive. fold t0.
  unfold try_except at 1. unfold bind at 1. unfold try_except at 1. unfold bind at 1.
  rewrite recv_eq.
  assert (Hrec : forall e h1 s1,
             (if is_ConnectionResetError e then
                cleanup_connection env ;; modify (set_restart_pending true) ;; ret true
              else
                modify incr_heartbeat_fail_count ;;
                s <- get_self ;;
                if (HEARTBEAT_FAIL_THRESHOLD <=? heartbeat_fail_count s)%nat then
                  cleanup_connection env ;; modify (set_restart_pending true) ;; ret true
                else ret false) (mkSt svc h1) = (Return true, s1) ->
             torn_down (self s1) /\ stopping (self s1) = stopping svc).
  { intros e h1 s1 H.
    destruct (recover_outcome e svc h1 Hapi) as (ret & s2 & new & E & _ & _ & _ & Hst).
    rewrite E in H. inversion H; subst. exact Hst. }
  destruct (raises env h (api_recv t0)) as [e |].
  - destruct (is_TimeoutError e).
    + unfold ret. intro H. discriminate H.
    + cbn [is_Exception]. apply Hrec.
  - destruct (recv_result env h) as [m |].
    + unfold bind at 1. rewrite call_eq.
      destruct (raises env (h ++ [Called (api_recv t0)]) (api_process m)) as [e |].
      * destruct (is_TimeoutError e).
        -- unfold ret. intro H. discriminate H.
        -- cbn [is_Exception]. apply Hrec.
      * rewrite deliver_run. unfold ret. intro H. discriminate H.
    + unfold ret. intro H. discriminate H.
Qed.

(** Every way through [worker_run], with the state it leaves: an early
    return that changes nothing (stopping, or no session yet), the
    restart mark of a service without a session, a teardown, or the end
    of the method with the core of the object as it was. *)
Lemma worker_run_states (timeout : Q) (svc : PPPPService) (h : History) r s' :
  worker_run env timeout (mkSt svc h) = (r, s') ->
  (r = Return tt /\
   ((self s' = svc /\ (stopping svc = true \/ _api svc = None)) \/
    (_api svc = None /\ self s' = set_restart_pending true svc) \/
    (stopping svc = false /\ _api svc <> None /\
     torn_down (self s') /\ stopping (self s') = false))) \/
  (stopping svc = false /\ _api svc <> None /\
   exists s2 : St PPPPService,
     same_core (self s2) svc /\ (r, s') = finish false s2).
Proof.
  unfold worker_run, bind at 1, get_self. cbn [self].
  destruct (stopping svc) eqn:Hstop.
  { intro H. inversion H; subst. left. split; [reflexivity |].
    left. split; [reflexivity | left; reflexivity]. }
  unfold bind at 1, log_instance_count, bind at 1, time_time, ret at 1. cbn [self trace].
  unfold bind at 1, get_self. cbn [self].
  destruct (_api svc) as [api |] eqn:Hapi.
  2:{ unfold bind at 1. cbn [self trace].
      destruct (Qltb _ _); intro H; inversion H; subst; left;
        (split; [reflexivity |]).
      - left. split; [reflexivity | right; reflexivity].
      - right. left. split; reflexivity. }
  assert (Hsome : _api svc <> None) by (rewrite Hapi; discriminate).
  unfold bind at 1, read_api_stopped. cbn [self trace].
  destruct (api_stopped env _).
  { match goal with |- context [bind _ _ (mkSt ?a ?b)] =>
      destruct (cleanup_then_torn tt a b Hsome) as (s1 & new & E & _ & _ & Htorn & Hs)
    end.
    rewrite E. intro H. inversion H; subst. left. split; [reflexivity |].
    right. right. split; [reflexivity |]. split; [discriminate |].
    split; [exact Htorn | rewrite Hs; exact Hstop]. }
  unfold bind at 1. cbn [self trace].
  unfold bind at 1.
  match goal with |- context [heartbeat_due env ?now (mkSt ?a ?b)] =>
    destruct (heartbeat_due_run env now a b) as (ret1 & s1 & new1 & E1 & Ht1 & Hp1 & Hc1);
    pose proof (@heartbeat_due_torn now a b s1 Hsome) as Htorn1
  end.
  rewrite E1. destruct ret1.
  { destruct (Htorn1 E1) as [Htorn Hs].
    intro H. inversion H; subst. left. split; [reflexivity |].
    right. right. split; [reflexivity |]. split; [discriminate |].
    split; [exact Htorn | rewrite Hs; exact Hstop]. }
  clear Htorn1.
  specialize (Hc1 eq_refl). destruct s1 as [svc1 h1]. cbn [self trace] in *.
  destruct Hc1 as (Hc_stop & Hc_rp & Hc_h & Hc_api).
  assert (Hsome1 : _api svc1 <> None) by (rewrite Hc_api; exact Hsome).
  unfold bind at 1.
  destruct (receive_run env timeout svc1 h1)
    as (ret2 & s2 & rest & E2 & Ht2 & Hp2 & Hc2 & _).
  rewrite E2. destruct ret2.
  { destruct (receive_torn timeout svc1 h1 Hsome1 E2) as [Htorn Hs].
    intro H. inversion H; subst. left. split; [reflexivity |].
    right. right. split; [reflexivity |]. split; [discriminate |].
    split; [exact Htorn | rewrite Hs, Hc_stop; exact Hstop]. }
  destruct (Hc2 eq_refl) as (H2_stop & H2_rp & H2_h & H2_api).
  intro H. right. split; [reflexivity |]. split; [discriminate |].
  exists s2. split.
  - repeat split; congruence.
  - rewrite <- H. unfold finish, bind, get_self.
    destruct (restart_pending (self s2) && negb (stopping (self s2)))%bool; reflexivity.
Qed.

End RunLoopStates.



(** A service with a session and two handlers. *)
Definition live : PPPPService :=
  set_handlers [1; 2]%nat (set__api (Some (mkApi 1 true false (Some 8%nat))) init).






(** C10, as the code has it.  With [stopping] set, [worker_run] returns
    at once: the object and the history are untouched.  When
    [worker_run] raises, it raises [ServiceRestartSignal]; [stopping] is
    [False] then, on entry and at the raise; a restart was pending on
    entry and none is pending after; and the run had a session and ends
    with it.  A run that returns never clears a pending restart, so a
    request is consumed at most once; and a run that returns with a
    request pending, on a service that is not stopping and has a
    session, has torn that session down.  So [worker_run] raises exactly
    when it is not stopping, a restart is pending and the session
    survives the run; in particular never without a session. *)
Theorem worker_run_restart_signal (env : Env) (timeout : Q) (svc : PPPPService)
        (h : History) :
  (stopping svc = true ->
   worker_run env timeout (mkSt svc h) = (Return tt, mkSt svc h)) /\
  match fst (worker_run env timeout (mkSt svc h)) with
  | Raise e =>
      e = ServiceRestartSignal "Service needs restart" /\
      stopping svc = false /\
      stopping (self (snd (worker_run env timeout (mkSt svc h)))) = false /\
      restart_pending svc = true /\
      restart_pending (self (snd (worker_run env timeout (mkSt svc h)))) = false /\
      _api svc <> None /\
      _api (self (snd (worker_run env timeout (mkSt svc h)))) = _api svc
  | Return _ =>
      (restart_pending svc = true ->
       restart_pending (self (snd (worker_run env timeout (mkSt svc h)))) = true) /\
      (restart_pending svc = true -> stopping svc = false -> _api svc <> None ->
       _api (self (snd (worker_run env timeout (mkSt svc h)))) = None)
  | OutOfFuel => False
  end.
Proof.
  split.
  { intro Hstop. unfold worker_run, bind, get_self. cbn [self]. rewrite Hstop.
    reflexivity. }
  destruct (worker_run env timeout (mkSt svc h)) as [r s'] eqn:Hrun.
  cbn [fst snd].
  destruct (@worker_run_states env timeout svc h r s' Hrun)
    as [[-> [[Hself Hwhy] | [[Hnone Hself] | (Hstop & Hapi & Htorn & _)]]]
       | (Hstop & Hapi & s2 & Hcore & Hfin)].
  - rewrite Hself. split; [intro Hp; exact Hp |].
    intros _ Hs Ha. destruct Hwhy as [Hw | Hw]; [congruence | contradiction].
  - rewrite Hself. split; [intros _; reflexivity |].
    intros _ _ Ha. contradiction.
  - destruct Htorn as (Ha & _ & Hp). split; [intros _; exact Hp | intros _ _ _; exact Ha].
  - destruct Hcore as (Hc_stop & Hc_rp & _ & Hc_api).
    unfold finish in Hfin. rewrite Hc_rp, Hc_stop, Hstop in Hfin.
    cbn [negb] in Hfin. rewrite andb_true_r in Hfin.
    destruct (restart_pending svc) eqn:Hrp; inversion Hfin; subst r s'.
    + cbn [self _api stopping restart_pending set_restart_pending].
      split; [reflexivity |]. split; [exact Hstop |].
      split; [rewrite Hc_stop; exact Hstop |]. split; [reflexivity |].
      split; [reflexivity |]. split; [exact Hapi | exact Hc_api].
    + split; [discriminate |]. intro Hc. discriminate Hc.
Qed.

(** A live session with a restart pending: the run raises the signal
    and clears the mark. *)
Lemma restart_signal_example :
  worker_run quiet_env 1 (mkSt (set_restart_pending true live) [])
  = (Raise (ServiceRestartSignal "Service needs restart"),
     mkSt live [Clock 0; Clock 0; Called (api_recv 1)]).
Proof. vm_compute. reflexivity. Qed.

(** The session's thread has stopped. *)
Definition thread_stopped : Env :=
  {| clock := clock quiet_env;
     raises := raises quiet_env;
     api_state := api_state quiet_env;
     api_stopped := fun _ => true;
     recv_result := recv_result quiet_env;
     uuid4 := uuid4 quiet_env;
     file_bytes := file_bytes quiet_env;
     windows := windows quiet_env;
     printer_config := printer_config quiet_env;
     pppp_dump := pppp_dump quiet_env;
     new_api := new_api quiet_env;
     pppp_service := pppp_service quiet_env;
     run_state := run_state quiet_env |}.

(** C10 as the specification has it fails: a restart request need not
    be consumed.  The first run finds the session's thread stopped, tears
    the session down and asks for a restart; it returns, and so do the
    runs after it, with the request still pending and no session. *)
Lemma restart_request_counterexample :
  fst (worker_run thread_stopped 1 (mkSt live [])) = Return tt /\
  restart_pending (self (snd (worker_run thread_stopped 1 (mkSt live [])))) = true /\
  fst (for_each (seq 0 4) (fun _ => worker_run thread_stopped 1) (mkSt live []))
  = Return tt /\
  restart_pending
    (self (snd (for_each (seq 0 4) (fun _ => worker_run thread_stopped 1)
                         (mkSt live [])))) = true /\
  _api (self (snd (for_each (seq 0 4) (fun _ => worker_run thread_stopped 1)
                            (mkSt live [])))) = None.
Proof.
  split; [vm_compute; reflexivity |]. split; [vm_compute; reflexivity |].
  split; [vm_compute; reflexivity |]. split; vm_compute; reflexivity.
Qed.

End PPPPSpec.

(** ** Properties of [web/service/video.py] *)

Module VideoSpec.
Import Video.

Section HealthPolicy.
Variable env : Env.

(** The statistics line of a due window would divide by a zero uptime. *)
Definition zero_uptime (now : Q) (s : VideoQueue) : bool :=
  is_set (stream_start_time s) &&
  Qeq_bool (now - match stream_start_time s with Some t => t | None => 0 end) 0.

(** The frame rate the handler computes for the window that ends with
    this frame at time [now]: the frame itself is counted. *)
Definition window_fps (now : Q) (s : VideoQueue) : Q :=
  Q_of_nat (S (frame_count s)) / (now - last_frame_check s).

(** A video frame closes a window: what the handler does, in full. *)
Lemma handler_window_eq (v : VideoQueue) (h : History) (msg : Packet) :
  chan msg = Some 1%nat ->
  is_Xzyh msg = true ->
  Qleb FRAME_RATE_CHECK_INTERVAL (clock env h - last_frame_check v) = true ->
  during_quality_change (clock env h) v = false ->
  zero_uptime (clock env h) v = false ->
  let now := clock env h in
  let counted :=
    with_first_frame_received true
      (with_total_frames (S (total_frames v)) (with_frame_count (S (frame_count v)) v)) in
  let timed :=
    if is_set (stream_start_time v)
    then with_stream_uptime
           (now - match stream_start_time v with Some t => t | None => 0 end) counted
    else counted in
  let closed (stall : nat) :=
    with_last_frame_time now
      (with_last_frame_check now
         (with_frame_count 0 (with_stall_warning_count stall timed))) in
  _handler env (chan msg, msg) (mkSt v h) =
  if Qltb (window_fps now v) MIN_ACCEPTABLE_FPS then
    if (3 <=? S (stall_warning_count v))%nat then
      (Raise (ServiceRestartSignal "Persistent low frame rate"),
       mkSt (with_stall_warning_count (S (stall_warning_count v)) timed)
            (h ++ [Clock now]))
    else
      call env (service_notify msg)
           (mkSt (closed (S (stall_warning_count v))) (h ++ [Clock now]))
  else call env (service_notify msg) (mkSt (closed 0%nat) (h ++ [Clock now])).
Proof.
  intros Hchan Hx Hdue Hq Hz. cbv zeta.
  unfold _handler. rewrite Hchan, Hx. cbn [negb].
  unfold bind at 1, time_time. cbn [self trace].
  unfold bind at 1, modify at 1. cbn [self trace].
  unfold bind at 1, modify at 1. cbn [self trace].
  unfold bind at 1, get_self at 1. cbn [self trace].
  assert (Hfirst :
            (if negb (first_frame_received
                        (with_total_frames
                           (S (total_frames (with_frame_count (S (frame_count v)) v)))
                           (with_frame_count (S (frame_count v)) v)))
             then modify (with_first_frame_received true) else ret tt)
              (mkSt (with_total_frames
                       (S (total_frames (with_frame_count (S (frame_count v)) v)))
                       (with_frame_count (S (frame_count v)) v))
                    (h ++ [Clock (clock env h)]))
            = (Return tt,
               mkSt (with_first_frame_received true
                       (with_total_frames (S (total_frames v))
                          (with_frame_count (S (frame_count v)) v)))
                    (h ++ [Clock (clock env h)]))).
  { destruct v as [sst ffr tf su swc lwt ve cq fc lfc lft qct lsr].
    cbn. destruct ffr; reflexivity. }
  unfold bind at 1. rewrite Hfirst. clear Hfirst.
  unfold bind at 1, get_self at 1. cbn [self trace].
  cbn [last_frame_check with_first_frame_received with_total_frames with_frame_count
       frame_count].
  rewrite Hdue.
  unfold bind at 1.
  unfold bind at 1.
  (* the statistics line *)
  unfold log_stream_stats at 1, bind at 1, get_self at 1. cbn [self trace].
  cbn [stream_start_time with_first_frame_received with_total_frames with_frame_count].
  unfold zero_uptime in Hz. unfold window_fps.
  unfold during_quality_change in *.
  destruct (is_set (stream_start_time v)) eqn:Hset.
  - cbn [andb] in Hz. unfold bind at 1, modify at 1. cbn [self trace]. rewrite Hz.
    unfold ret at 1.
    unfold bind at 1.
    cbn [quality_change_time with_first_frame_received with_total_frames with_frame_count
         with_stream_uptime].
    rewrite Hq. unfold bind at 1.
    unfold check_frame_rate.
    destruct (Qltb _ WARNING_FPS) eqn:Ewarn;
      destruct (Qltb _ MIN_ACCEPTABLE_FPS) eqn:Emin; try reflexivity.
    + unfold bind at 1, modify at 1. cbn [self trace].
      unfold bind at 1, get_self at 1. cbn [self trace].
      cbn [stall_warning_count with_stall_warning_count with_first_frame_received
           with_total_frames with_frame_count with_stream_uptime].
      destruct (3 <=? S (stall_warning_count v))%nat; reflexivity.
    + exfalso. apply Qltb_ge in Ewarn. apply Qltb_lt in Emin.
      unfold WARNING_FPS, MIN_ACCEPTABLE_FPS in *. lra.
  - unfold ret at 1.
    unfold bind at 1.
    cbn [quality_change_time with_first_frame_received with_total_frames with_frame_count].
    rewrite Hq. unfold bind at 1.
    unfold check_frame_rate.
    destruct (Qltb _ WARNING_FPS) eqn:Ewarn;
      destruct (Qltb _ MIN_ACCEPTABLE_FPS) eqn:Emin; try reflexivity.
    + unfold bind at 1, modify at 1. cbn [self trace].
      unfold bind at 1, get_self at 1. cbn [self trace].
      cbn [stall_warning_count with_stall_warning_count with_first_frame_received
           with_total_frames with_frame_count].
      destruct (3 <=? S (stall_warning_count v))%nat; reflexivity.
    + exfalso. apply Qltb_ge in Ewarn. apply Qltb_lt in Emin.
      unfold WARNING_FPS, MIN_ACCEPTABLE_FPS in *. lra.
Qed.

End HealthPolicy.

(** C5, as the code has it.  When a video frame closes a 5-second window
    outside a quality change, with [fps] the rate of that window:
    if [fps < 3] the stall counter is incremented, and
    [ServiceRestartSignal] is raised when it reaches 3, that is at the
    third such window in a row; if [fps >= 3] the counter is reset to 0,
    so a window with [3 <= fps < 5] resets it too.  The statistics line
    is taken not to divide by a zero uptime. *)
Theorem frame_rate_policy (env : Env) (v : VideoQueue) (h : History) (msg : Packet) :
  chan msg = Some 1%nat ->
  is_Xzyh msg = true ->
  FRAME_RATE_CHECK_INTERVAL <= clock env h - last_frame_check v ->
  during_quality_change (clock env h) v = false ->
  zero_uptime (clock env h) v = false ->
  exists (r : outcome unit) (s' : St VideoQueue),
    _handler env (chan msg, msg) (mkSt v h) = (r, s') /\
    (window_fps (clock env h) v < MIN_ACCEPTABLE_FPS ->
     stall_warning_count (self s') = S (stall_warning_count v) /\
     ((3 <= S (stall_warning_count v))%nat ->
      r = Raise (ServiceRestartSignal "Persistent low frame rate") /\
      trace s' = h ++ [Clock (clock env h)]) /\
     ((S (stall_warning_count v) < 3)%nat ->
      trace s' = h ++ [Clock (clock env h); Called (service_notify msg)])) /\
    (MIN_ACCEPTABLE_FPS <= window_fps (clock env h) v ->
     stall_warning_count (self s') = 0%nat /\
     trace s' = h ++ [Clock (clock env h); Called (service_notify msg)]).
Proof.
  intros Hchan Hx Hdue Hq Hz.
  apply Qleb_le in Hdue.
  rewrite (handler_window_eq env v h msg Hchan Hx Hdue Hq Hz). cbv zeta.
  set (fps := window_fps (clock env h) v).
  unfold MIN_ACCEPTABLE_FPS.
  destruct (Qltb fps 3) eqn:Elow.
  - apply Qltb_lt in Elow.
    destruct (Nat.leb_spec 3 (S (stall_warning_count v))) as [Hthird | Hnot].
    + eexists _, _. split; [reflexivity |]. split.
      * intros _. split; [reflexivity |]. split; [intros _; split; reflexivity | lia].
      * intro Hge. lra.
    + unfold call. cbn [self trace].
      destruct (raises env _ _); eexists _, _; (split; [reflexivity |]); split.
      all: try (intro Hge; lra).
      all: intros _; (split; [reflexivity |]); split;
        [lia | intros _; cbn [trace]; rewrite <- app_assoc; reflexivity].
  - apply Qltb_ge in Elow.
    unfold call. cbn [self trace].
    destruct (raises env _ _); eexists _, _; (split; [reflexivity |]); split.
    all: try (intro Hlt; lra).
    all: intros _; split; [reflexivity | cbn [trace]; rewrite <- app_assoc; reflexivity].
Qed.

(** A video frame on channel 1. *)
Definition video_frame : Packet := mkPacket (Some 1%nat) true 42.

(** The clock reads 5 s; nothing fails. *)
Definition five_seconds : Env := with_clock (fun _ => 5) quiet_env.

(** A consumer created at time 0 with two stall warnings, whose current
    window holds [n] frames so far. *)
Definition two_warnings (n : nat) : VideoQueue :=
  with_stall_warning_count 2 (with_frame_count n (init 0)).

Lemma frame_rate_policy_witness :
  exists (r : outcome unit) (s' : St VideoQueue),
    _handler five_seconds (chan video_frame, video_frame) (mkSt (two_warnings 4) [])
    = (r, s') /\
    (window_fps (clock five_seconds []) (two_warnings 4) < MIN_ACCEPTABLE_FPS ->
     stall_warning_count (self s') = S (stall_warning_count (two_warnings 4)) /\
     ((3 <= S (stall_warning_count (two_warnings 4)))%nat ->
      r = Raise (ServiceRestartSignal "Persistent low frame rate") /\
      trace s' = [] ++ [Clock (clock five_seconds [])]) /\
     ((S (stall_warning_count (two_warnings 4)) < 3)%nat ->
      trace s'
      = [] ++ [Clock (clock five_seconds []); Called (service_notify video_frame)])) /\
    (MIN_ACCEPTABLE_FPS <= window_fps (clock five_seconds []) (two_warnings 4) ->
     stall_warning_count (self s') = 0%nat /\
     trace s'
     = [] ++ [Clock (clock five_seconds []); Called (service_notify video_frame)]).
Proof.
  apply (@frame_rate_policy five_seconds (two_warnings 4) [] video_frame).
  - reflexivity.
  - reflexivity.
  - vm_compute. discriminate.
  - reflexivity.
  - reflexivity.
Defined.

(** C5 as stated fails on the middle band.  With two warnings counted, a
    window of 20 frames in 5 s (4 fps, between 3 and 5) does not leave
    the counter at 2: it resets it to 0. *)
Lemma middle_band_counterexample :
  window_fps (clock five_seconds []) (two_warnings 19) == 4 /\
  stall_warning_count (two_warnings 19) = 2%nat /\
  during_quality_change (clock five_seconds []) (two_warnings 19) = false /\
  _handler five_seconds (chan video_frame, video_frame) (mkSt (two_warnings 19) [])
  = (Return tt,
     mkSt (mkVideoQueue None true 1 0 0 0 false 0 0 5 5 None 0)
          [Clock 5; Called (service_notify video_frame)]) /\
  stall_warning_count
    (self (snd (_handler five_seconds (chan video_frame, video_frame)
                         (mkSt (two_warnings 19) []))))
  <> 2%nat.
Proof.
  split; [reflexivity |]. split; [reflexivity |]. split; [reflexivity |].
  split; [vm_compute; reflexivity | vm_compute; discriminate].
Qed.

(** *** Enabling and disabling *)

Lemma set_video_enabled_sets (env : Env) (b : bool) (s : St VideoQueue) r s' :
  set_video_enabled env b s = (r, s') -> video_enabled (self s') = b.
Proof.
  unfold set_video_enabled, bind at 1, get_self.
  destruct (Bool.eqb b (video_enabled (self s))) eqn:E.
  - intro H. inversion H; subst. symmetry. apply eqb_prop, E.
  - unfold bind at 1, modify. cbn [self trace].
    intro H.
    assert (K : keeps video_enabled
                      ((if b
                        then st <- read_run_state env;;
                             match st with
                             | RunState_Stopped => call env service_start
                             | _ => ret tt
                             end
                        else st <- read_run_state env;;
                             match st with
                             | RunState_Running => call env service_stop
                             | _ => ret tt
                             end);; ret true)).
    { apply keeps_bind; [| intro; apply keeps_ret].
      destruct b; (apply keeps_bind;
                   [intros x r0 x' Hx; inversion Hx; reflexivity
                   | intros []; first [apply keeps_call | apply keeps_ret]]). }
    apply K in H. rewrite H. reflexivity.
Qed.

(** C8.  [set_video_enabled b] on a consumer whose [video_enabled] is
    already [b] returns [True] and does nothing: the object and the
    history are as before, so the service is neither started nor
    stopped.  Calling it twice in a row is the same as calling it once. *)
Theorem set_video_enabled_idempotent (env : Env) (b : bool) (v : VideoQueue)
        (h : History) :
  (video_enabled v = b ->
   set_video_enabled env b (mkSt v h) = (Return true, mkSt v h)) /\
  (set_video_enabled env b ;; set_video_enabled env b) (mkSt v h)
  = set_video_enabled env b (mkSt v h).
Proof.
  assert (Hnoop : forall s : St VideoQueue,
             video_enabled (self s) = b ->
             set_video_enabled env b s = (Return true, s)).
  { intros s Hs. unfold set_video_enabled, bind, get_self.
    rewrite Hs, eqb_reflx. reflexivity. }
  split.
  - intro Hv. apply (Hnoop (mkSt v h) Hv).
  - unfold bind at 1.
    destruct (set_video_enabled env b (mkSt v h)) as [[a | e |] s1] eqn:E;
      try reflexivity.
    rewrite (Hnoop s1 (set_video_enabled_sets _ _ _ E)).
    assert (Ha : a = true).
    { revert E. unfold set_video_enabled, bind at 1, get_self.
      destruct (Bool.eqb b _).
      - intro H. inversion H. reflexivity.
      - unfold bind at 1, modify. unfold bind at 1.
        match goal with |- context [match ?c with _ => _ end = _] =>
          destruct c as [[u | e |] s2]
        end; intro H; inversion H; reflexivity. }
    rewrite Ha. reflexivity.
Qed.

Lemma set_video_enabled_idempotent_witness :
  set_video_enabled quiet_env true (mkSt (with_video_enabled true (init 0)) [])
  = (Return true, mkSt (with_video_enabled true (init 0)) []) /\
  (set_video_enabled quiet_env true ;; set_video_enabled quiet_env true)
    (mkSt (init 0) [])
  = set_video_enabled quiet_env true (mkSt (init 0) []).
Proof.
  split.
  - apply (proj1 (set_video_enabled_idempotent quiet_env true
                                               (with_video_enabled true (init 0)) [])).
    reflexivity.
  - apply (proj2 (set_video_enabled_idempotent quiet_env true (init 0) [])).
Defined.

End VideoSpec.

(** ** Properties of [web/service/filetransfer.py] *)

Module FileTransferSpec.
Import FileTransfer.

Definition is_get (ev : Event) : bool :=
  match ev with Called (svc_get name) => String.eqb name "pppp" | _ => false end.

Definition is_put (ev : Event) : bool :=
  match ev with Called (svc_put name) => String.eqb name "pppp" | _ => false end.

(** How often the P2P service was borrowed, and how often returned. *)
Definition gets (h : History) : nat := len (filter is_get h).
Definition puts (h : History) : nat := len (filter is_put h).

(** Once the session is connected, every way out of [send_file] goes
    through the [finally] clause: the cache is cleared and the service
    returned, whether the upload succeeds or fails (and even if [put]
    itself fails). *)
Lemma transfer_releases (env : Env) (fui_bytes : Transfer.FileUploadInfo -> bytes)
      (md5_hex : bytes -> string) (fuel : nat) (fd : Upload) (user_name : string)
      (rate_limit_mbps : Q) (s : St FileTransferService) r s' :
  transfer env fui_bytes md5_hex fuel fd user_name rate_limit_mbps s = (r, s') ->
  r <> OutOfFuel ->
  cached_file (self s') = None /\
  cached_filename (self s') = None /\
  exists h', trace s' = h' ++ [Called (svc_put "pppp")].
Proof.
  unfold transfer, try_finally.
  match goal with |- context [match ?c with _ => _ end = _] =>
    destruct c as [[u | e |] s1]
  end.
  - unfold release, bind, modify, call. cbn [self trace].
    destruct (raises env (trace s1) (svc_put "pppp")); intros H _; inversion H;
      cbn; repeat split; eexists; reflexivity.
  - unfold release, bind, modify, call. cbn [self trace].
    destruct (raises env (trace s1) (svc_put "pppp")); intros H _; inversion H;
      cbn; repeat split; eexists; reflexivity.
  - intros H Hfuel. inversion H; subst. contradiction.
Qed.

(** The P2P service is registered but has no session. *)
Definition no_session : Env :=
  {| clock := clock quiet_env;
     raises := raises quiet_env;
     api_state := fun _ => Idle;
     api_stopped := fun _ => false;
     recv_result := recv_result quiet_env;
     uuid4 := uuid4 quiet_env;
     file_bytes := fun _ => [x01; x02; x03];
     windows := false;
     printer_config := printer_config quiet_env;
     pppp_dump := None;
     new_api := new_api quiet_env;
     pppp_service := fun _ => Some None;
     run_state := run_state quiet_env |}.

(** The P2P service has a session, which stops before it is connected. *)
Definition session_stops : Env :=
  {| clock := clock quiet_env;
     raises := raises quiet_env;
     api_state := fun _ => Connecting;
     api_stopped := fun _ => true;
     recv_result := recv_result quiet_env;
     uuid4 := uuid4 quiet_env;
     file_bytes := fun _ => [x01; x02; x03];
     windows := false;
     printer_config := printer_config quiet_env;
     pppp_dump := None;
     new_api := new_api quiet_env;
     pppp_service := pppp_service quiet_env;
     run_state := run_state quiet_env |}.

Definition upload (env : Env) : outcome unit * St FileTransferService :=
  send_file env TransferSpec.demo_fui_bytes (fun _ => ""%string) 5
            (mkUpload "a.gcode") "user" 10 (mkSt init []).

(** C6 on the code.  When [send_file] fails to obtain a connected
    session, whether the service has no session or its session stops
    while [send_file] waits, the [ConnectionError] leaves [send_file]
    after one [get] and no [put]: the borrowed service is not returned.
    In a quiet environment the same call ends with one [get] and one
    [put]. *)
Theorem send_file_leaks_service :
  (upload no_session
   = (Raise (ConnectionError "No pppp connection to printer"),
      mkSt (with_pppp (Some None) init) [Called (svc_get "pppp")]) /\
   gets (trace (snd (upload no_session))) = 1%nat /\
   puts (trace (snd (upload no_session))) = 0%nat) /\
  (fst (upload session_stops) = Raise (ConnectionError "API thread stopped") /\
   gets (trace (snd (upload session_stops))) = 1%nat /\
   puts (trace (snd (upload session_stops))) = 0%nat) /\
  (fst (upload quiet_env) = Return tt /\
   gets (trace (snd (upload quiet_env))) = 1%nat /\
   puts (trace (snd (upload quiet_env))) = 1%nat /\
   cached_file (self (snd (upload quiet_env))) = None /\
   cached_filename (self (snd (upload quiet_env))) = None).
Proof.
  repeat split; vm_compute; reflexivity.
Qed.

End FileTransferSpec.

(** * Part III: further properties of the sources *)

(** ** What a method adds to the history *)

Section Emits.
Context {Self : Type}.

(** However [c] ends, the events it adds to the history all satisfy [p]. *)
Definition emits {A} (p : Event -> bool) (c : M Self A) : Prop :=
  forall s r s', c s = (r, s') ->
    exists new, trace s' = trace s ++ new /\ forallb p new = true.

Lemma emits_nothing {A} p (c : M Self A) :
  (forall s r s', c s = (r, s') -> trace s' = trace s) -> emits p c.
Proof.
  intros Hc s r s' H. exists []. rewrite app_nil_r. split; [eauto | reflexivity].
Qed.

Lemma emits_ret {A} p (a : A) : emits p (@ret Self A a).
Proof. apply emits_nothing. intros s r s' H. inversion H. reflexivity. Qed.

Lemma emits_raise {A} p (e : Exn) : emits p (@raise Self A e).
Proof. apply emits_nothing. intros s r s' H. inversion H. reflexivity. Qed.

Lemma emits_out_of_fuel {A} p : emits p (@out_of_fuel Self A).
Proof. apply emits_nothing. intros s r s' H. inversion H. reflexivity. Qed.

Lemma emits_get_self p : emits p (@get_self Self).
Proof. apply emits_nothing. intros s r s' H. inversion H. reflexivity. Qed.

Lemma emits_history p : emits p (@history Self).
Proof. apply emits_nothing. intros s r s' H. inversion H. reflexivity. Qed.

Lemma emits_modify p (f : Self -> Self) : emits p (modify f).
Proof. apply emits_nothing. intros s r s' H. inversion H. reflexivity. Qed.

Lemma emits_log p (ev : Event) : p ev = true -> emits p (@log Self ev).
Proof.
  intros Hp s r s' H. inversion H. exists [ev]. split; [reflexivity |].
  simpl. rewrite Hp. reflexivity.
Qed.

Lemma emits_bind {A B} p (c : M Self A) (k : A -> M Self B) :
  emits p c -> (forall a, emits p (k a)) -> emits p (bind c k).
Proof.
  intros Hc Hk s r s' H. unfold bind in H.
  destruct (c s) as [[a | e |] s1] eqn:E; destruct (Hc _ _ _ E) as (new1 & Ht1 & Hp1).
  - destruct (Hk a _ _ _ H) as (new2 & Ht2 & Hp2).
    exists (new1 ++ new2). rewrite Ht2, Ht1, app_assoc, forallb_app, Hp1, Hp2.
    split; reflexivity.
  - inversion H; subst. exists new1. split; assumption.
  - inversion H; subst. exists new1. split; assumption.
Qed.

Lemma emits_try_except {A} p (c : M Self A) catches h :
  emits p c -> (forall e, emits p (h e)) -> emits p (try_except c catches h).
Proof.
  intros Hc Hh s r s' H. unfold try_except in H.
  destruct (c s) as [[a | e |] s1] eqn:E; destruct (Hc _ _ _ E) as (new1 & Ht1 & Hp1).
  - inversion H; subst. exists new1. split; assumption.
  - destruct (catches e).
    + destruct (Hh e _ _ _ H) as (new2 & Ht2 & Hp2).
      exists (new1 ++ new2). rewrite Ht2, Ht1, app_assoc, forallb_app, Hp1, Hp2.
      split; reflexivity.
    + inversion H; subst. exists new1. split; assumption.
  - inversion H; subst. exists new1. split; assumption.
Qed.

Lemma emits_try_finally {A} p (c : M Self A) (f : M Self unit) :
  emits p c -> emits p f -> emits p (try_finally c f).
Proof.
  intros Hc Hf s r s' H. unfold try_finally in H.
  destruct (c s) as [[a | e |] s1] eqn:E; destruct (Hc _ _ _ E) as (new1 & Ht1 & Hp1).
  - destruct (f s1) as [[u | e2 |] s2] eqn:E2; destruct (Hf _ _ _ E2) as (new2 & Ht2 & Hp2);
      inversion H; subst; exists (new1 ++ new2);
      rewrite Ht2, Ht1, app_assoc, forallb_app, Hp1, Hp2; split; reflexivity.
  - destruct (f s1) as [[u | e2 |] s2] eqn:E2; destruct (Hf _ _ _ E2) as (new2 & Ht2 & Hp2);
      inversion H; subst; exists (new1 ++ new2);
      rewrite Ht2, Ht1, app_assoc, forallb_app, Hp1, Hp2; split; reflexivity.
  - inversion H; subst. exists new1. split; assumption.
Qed.

Lemma emits_for_each {A} p (xs : list A) (body : A -> M Self unit) :
  (forall x, emits p (body x)) -> emits p (for_each xs body).
Proof.
  intro Hb. induction xs as [| x rest IH]; simpl.
  - apply emits_ret.
  - apply emits_bind; [apply Hb | intros _; exact IH].
Qed.

Lemma emits_weaken {A} (p q : Event -> bool) (c : M Self A) :
  (forall ev, p ev = true -> q ev = true) -> emits p c -> emits q c.
Proof.
  intros Hpq Hc s r s' H. destruct (Hc _ _ _ H) as (new & Ht & Hp).
  exists new. split; [exact Ht |].
  rewrite forallb_forall in *. intros ev Hin. apply Hpq, Hp, Hin.
Qed.

Section WithEnv.
Variable env : Env.

Lemma emits_call p (op : Op) : p (Called op) = true -> emits p (@call env Self op).
Proof.
  intros Hp s r s' H. unfold call in H.
  exists [Called op]. simpl. rewrite Hp.
  destruct (raises env (trace s) op); inversion H; split; reflexivity.
Qed.

Lemma emits_recv p (t : Q) :
  p (Called (api_recv t)) = true -> emits p (@recv env Self t).
Proof.
  intros Hp s r s' H. unfold recv in H.
  exists [Called (api_recv t)]. simpl. rewrite Hp.
  destruct (raises env (trace s) (api_recv t)); inversion H; split; reflexivity.
Qed.

Lemma emits_time_time p : (forall t, p (Clock t) = true) -> emits p (@time_time env Self).
Proof.
  intros Hp s r s' H. inversion H. eexists [Clock _]. split; [reflexivity |].
  simpl. rewrite Hp. reflexivity.
Qed.

Lemma emits_read_api_state p : emits p (@read_api_state env Self).
Proof. apply emits_nothing. intros s r s' H. inversion H. reflexivity. Qed.

Lemma emits_read_api_stopped p : emits p (@read_api_stopped env Self).
Proof. apply emits_nothing. intros s r s' H. inversion H. reflexivity. Qed.

End WithEnv.
End Emits.

Ltac emit :=
  lazymatch goal with
  | |- emits _ (ret _) => apply emits_ret
  | |- emits _ (raise _) => apply emits_raise
  | |- emits _ out_of_fuel => apply emits_out_of_fuel
  | |- emits _ (bind _ _) => apply emits_bind; [emit | intro; emit]
  | |- emits _ (try_except _ _ _) => apply emits_try_except; [emit | intro; emit]
  | |- emits _ (try_finally _ _) => apply emits_try_finally; emit
  | |- emits _ (call _ _) => apply emits_call; reflexivity
  | |- emits _ (recv _ _) => apply emits_recv; reflexivity
  | |- emits _ (time_time _) => apply emits_time_time; intro; reflexivity
  | |- emits _ (time_sleep _) => apply emits_log; reflexivity
  | |- emits _ (log _) => apply emits_log; reflexivity
  | |- emits _ (read_api_state _) => apply emits_read_api_state
  | |- emits _ (read_api_stopped _) => apply emits_read_api_stopped
  | |- emits _ (modify _) => apply emits_modify
  | |- emits _ get_self => apply emits_get_self
  | |- emits _ history => apply emits_history
  | |- emits _ (for_each _ _) => apply emits_for_each; intro; emit
  | |- emits _ (if ?b then _ else _) => destruct b; emit
  | |- emits _ (match ?x with _ => _ end) => destruct x; emit
  | |- emits _ (let _ := _ in _) => cbv zeta; emit
  | _ => idtac
  end.

(** The foreign calls of a history, in order. *)
Definition calls (h : History) : list Op :=
  flat_map (fun ev => match ev with Called op => [op] | _ => [] end) h.

Lemma calls_app (h1 h2 : History) : calls (h1 ++ h2) = calls h1 ++ calls h2.
Proof. apply flat_map_app. Qed.

(** [l1] is an initial part of [l2]. *)
Definition prefix {A} (l1 l2 : list A) : Prop := exists rest, l2 = l1 ++ rest.

Lemma prefix_refl {A} (l : list A) : prefix l l.
Proof. exists []. symmetry. apply app_nil_r. Qed.

Lemma prefix_nil {A} (l : list A) : prefix [] l.
Proof. exists l. reflexivity. Qed.

Lemma prefix_app {A} (l l1 l2 : list A) : prefix l1 l2 -> prefix (l ++ l1) (l ++ l2).
Proof. intros (rest & ->). exists rest. apply app_assoc. Qed.

Lemma prefix_app_r {A} (l1 l2 l3 : list A) : prefix l1 l2 -> prefix l1 (l2 ++ l3).
Proof. intros (rest & ->). exists (rest ++ l3). symmetry. apply app_assoc. Qed.

Section FailedCalls.
Variable env : Env.
Context {Self : Type}.

(** A computation that failed with [e] after adding [new] to the history
    [h]: its last step was a foreign call, and [e] is what that call
    raised. *)
Definition failed_call (h new : History) (e : Exn) : Prop :=
  exists pre op, new = pre ++ [Called op] /\ raises env (h ++ pre) op = Some e.

Lemma failed_call_app (h new1 new2 : History) (e : Exn) :
  failed_call (h ++ new1) new2 e -> failed_call h (new1 ++ new2) e.
Proof.
  intros (pre & op & -> & Hr). exists (new1 ++ pre), op.
  rewrite <- app_assoc. split; [reflexivity |]. rewrite app_assoc. exact Hr.
Qed.

Lemma call_outcome (op : Op) (s : St Self) r s' :
  call env op s = (r, s') ->
  s' = mkSt (self s) (trace s ++ [Called op]) /\
  match r with
  | Return _ => True
  | Raise e => failed_call (trace s) [Called op] e
  | OutOfFuel => False
  end.
Proof.
  unfold call. destruct (raises env (trace s) op) as [e |] eqn:E;
    intro H; inversion H; subst; split; try reflexivity; try exact I.
  exists [], op. rewrite app_nil_r. split; [reflexivity | exact E].
Qed.

End FailedCalls.

(** ** Further properties of [test_transfer.py] *)

Module UploadSpec.
Import Transfer TransferSpec.

(** The history after [k] more polls of a tenth of a second. *)
Definition polled (h : History) (k : nat) : History :=
  h ++ repeat (Slept (1 # 10)) k.

Lemma polled_S (h : History) (k : nat) :
  polled (h ++ [Slept (1 # 10)]) k = polled h (S k).
Proof. unfold polled. rewrite <- app_assoc. reflexivity. Qed.

Lemma polled_0 (h : History) : polled h 0 = h.
Proof. unfold polled. apply app_nil_r. Qed.

(** X1.  The wait for the session, for every behaviour of the session and
    any number of iterations allowed: it only sleeps, a tenth of a second
    at a time, and calls nothing.  It returns at the first poll that finds
    the session [Connected]; it raises [ConnectionError] at the first poll
    after whose sleep the session's thread is found stopped; the stop flag
    is looked at only after a sleep, so a session that is already
    [Connected] is accepted even if stopped, and one that is stopped on
    entry costs one sleep.  It goes on exactly as long as neither
    happens. *)
Theorem wait_connected_polls (env : Env) (Self : Type) (fuel : nat) (s : St Self) :
  exists k : nat,
    (k <= fuel)%nat /\
    snd (wait_connected env fuel s) = mkSt (self s) (polled (trace s) k) /\
    (forall j, (j < k)%nat ->
               is_Connected (api_state env (polled (trace s) j)) = false) /\
    (forall j, (0 < j < k)%nat -> api_stopped env (polled (trace s) j) = false) /\
    match fst (wait_connected env fuel s) with
    | Return _ =>
        is_Connected (api_state env (polled (trace s) k)) = true /\
        ((0 < k)%nat -> api_stopped env (polled (trace s) k) = false)
    | Raise e =>
        e = ConnectionError "API thread stopped" /\ (0 < k)%nat /\
        api_stopped env (polled (trace s) k) = true
    | OutOfFuel =>
        k = fuel /\
        is_Connected (api_state env (polled (trace s) k)) = false /\
        ((0 < k)%nat -> api_stopped env (polled (trace s) k) = false)
    end.
Proof.
  revert s. induction fuel as [| fuel IH]; intros [x h];
    destruct (wait_connected env _ (mkSt x h)) as [r s'] eqn:E;
    cbn [wait_connected] in E; unfold bind at 1, read_api_state in E;
    cbn [fst snd self trace] in *;
    destruct (is_Connected (api_state env h)) eqn:Ec.
  - inversion E; subst. exists 0%nat. rewrite !polled_0.
    split; [lia |]. split; [reflexivity |].
    split; [intros j Hj; lia |]. split; [intros j Hj; lia |].
    split; [exact Ec | intro H0; lia].
  - inversion E; subst. exists 0%nat. rewrite !polled_0.
    split; [lia |]. split; [reflexivity |].
    split; [intros j Hj; lia |]. split; [intros j Hj; lia |].
    split; [reflexivity |]. split; [exact Ec | intro H0; lia].
  - inversion E; subst. exists 0%nat. rewrite !polled_0.
    split; [lia |]. split; [reflexivity |].
    split; [intros j Hj; lia |]. split; [intros j Hj; lia |].
    split; [exact Ec | intro H0; lia].
  - unfold bind at 1, time_sleep, log in E. cbn [self trace] in E.
    unfold bind at 1, read_api_stopped in E. cbn [self trace] in E.
    destruct (api_stopped env (h ++ [Slept (1 # 10)])) eqn:Es.
    + inversion E; subst. exists 1%nat.
      split; [lia |]. split; [reflexivity |].
      split; [intros j Hj; assert (j = 0)%nat as -> by lia; rewrite polled_0; exact Ec |].
      split; [intros j Hj; lia |].
      split; [reflexivity |]. split; [lia | exact Es].
    + specialize (IH (mkSt x (h ++ [Slept (1 # 10)]))). rewrite E in IH.
      destruct IH as (k & Hk & Hsnd & Hc & Hs & Hr). cbn [fst snd self trace] in *.
      exists (S k). split; [lia |].
      split; [rewrite Hsnd, polled_S; reflexivity |].
      split.
      { intros [| j] Hj; [rewrite polled_0; exact Ec |].
        rewrite <- polled_S. apply Hc. lia. }
      split.
      { intros [| j] Hj; [lia |]. rewrite <- polled_S.
        destruct j as [| j]; [rewrite polled_0; exact Es | apply Hs; lia]. }
      rewrite <- !polled_S.
      assert (Hlast : ((0 < k)%nat ->
                       api_stopped env (polled (h ++ [Slept (1 # 10)]) k) = false) ->
                      api_stopped env (polled (h ++ [Slept (1 # 10)]) k) = false).
      { intro H0. destruct k as [| k]; [rewrite polled_0; exact Es | apply H0; lia]. }
      destruct r as [u | e |].
      * destruct Hr as [Hr1 Hr2]. split; [exact Hr1 | intros _; exact (Hlast Hr2)].
      * destruct Hr as (Hr1 & Hr2 & Hr3). split; [exact Hr1 |]. split; [lia | exact Hr3].
      * destruct Hr as (Hr1 & Hr2 & Hr3). split; [lia |].
        split; [exact Hr2 | intros _; exact (Hlast Hr3)].
Qed.

(** The wait leaves the object alone and adds at most [fuel] polls to the
    history. *)
Lemma wait_connected_polled (env : Env) (Self : Type) (fuel : nat) (s : St Self) :
  exists k : nat,
    (k <= fuel)%nat /\
    snd (wait_connected env fuel s) = mkSt (self s) (polled (trace s) k).
Proof.
  revert s. induction fuel as [| fuel IH]; intros [x h]; cbn [wait_connected];
    unfold bind at 1, read_api_state; cbn [self trace];
    destruct (is_Connected (api_state env h)).
  - exists 0%nat. rewrite polled_0. split; [lia | reflexivity].
  - exists 0%nat. rewrite polled_0. split; [lia | reflexivity].
  - exists 0%nat. rewrite polled_0. split; [lia | reflexivity].
  - unfold bind at 1, time_sleep, log. cbn [self trace].
    unfold bind at 1, read_api_stopped. cbn [self trace].
    destruct (api_stopped env (h ++ [Slept (1 # 10)])).
    + exists 1%nat. split; [lia | reflexivity].
    + destruct (IH (mkSt x (h ++ [Slept (1 # 10)]))) as (k & Hk & Hs).
      exists (S k). split; [lia |]. rewrite Hs. cbn [self trace].
      rewrite polled_S. reflexivity.
Qed.

(** The wait calls nothing, leaves the object alone, and fails only with
    the [ConnectionError] of a stopped session. *)
Lemma wait_connected_quiet (env : Env) (Self : Type) (fuel : nat) (s : St Self) r s' :
  wait_connected env fuel s = (r, s') ->
  exists new,
    self s' = self s /\ trace s' = trace s ++ new /\ calls new = [] /\
    forallb (fun ev => match ev with Slept _ => true | _ => false end) new = true /\
    match r with
    | Raise e => e = ConnectionError "API thread stopped"
    | _ => True
    end.
Proof.
  revert s. induction fuel as [| fuel IH]; intros [x h]; cbn [wait_connected];
    unfold bind at 1, read_api_state; cbn [self trace];
    destruct (is_Connected (api_state env h)).
  - intro H. inversion H; subst. exists []. rewrite app_nil_r. repeat split.
  - intro H. inversion H; subst. exists []. rewrite app_nil_r. repeat split.
  - intro H. inversion H; subst. exists []. rewrite app_nil_r. repeat split.
  - unfold bind at 1, time_sleep, log. cbn [self trace].
    unfold bind at 1, read_api_stopped. cbn [self trace].
    destruct (api_stopped env (h ++ [Slept (1 # 10)])).
    + intro H. inversion H; subst. exists [Slept (1 # 10)]. repeat split.
    + intro H. apply IH in H. destruct H as (new & Hs & Ht & Hc & Hp & Hr).
      cbn [self trace] in *. exists (Slept (1 # 10) :: new).
      rewrite Ht, <- app_assoc. repeat split; assumption.
Qed.

Section Calls.
Variable env : Env.
Context {Self : Type}.

(** [wait] calls nothing. *)
Lemma wait_calls (n : Z) (rl : RateLimiter) (s : St Self) :
  exists rl' new,
    wait env n rl s = (Return rl', mkSt (self s) (trace s ++ new)) /\
    calls new = [] /\ rate_bytes rl' = rate_bytes rl.
Proof.
  rewrite wait_eq.
  destruct (Qleb 1 _).
  - eexists _, _. repeat split.
  - destruct (Qltb _ _).
    + eexists _, _. cbv zeta. rewrite <- app_assoc. repeat split.
    + eexists _, _. repeat split.
Qed.

(** The [DATA] request for the chunk at [pos]. *)
Definition data_op (data : bytes) (pos : nat) : Op :=
  api_aabb_request (slice data pos (pos + blocksize)) DATA (Some pos).

(** The upload loop sends the chunks in order and stops at the first
    request that fails. *)
Lemma send_chunks_calls (data : bytes) (positions : list nat) :
  forall (rl : RateLimiter) (s : St Self) r s',
    send_chunks env positions data rl s = (r, s') ->
    exists new,
      self s' = self s /\ trace s' = trace s ++ new /\
      prefix (calls new) (map (data_op data) positions) /\
      match r with
      | Return _ => calls new = map (data_op data) positions
      | Raise e => failed_call env (trace s) new e
      | OutOfFuel => False
      end.
Proof.
  induction positions as [| pos rest IH]; intros rl s r s' H; cbn [send_chunks] in H.
  - inversion H; subst. exists []. rewrite app_nil_r.
    split; [reflexivity |]. split; [reflexivity |]. split; [apply prefix_refl | reflexivity].
  - unfold bind at 1 in H.
    destruct (wait_calls (Z.of_nat (len (slice data pos (pos + blocksize)))) rl s)
      as (rl1 & new1 & Ew & Hc1 & _).
    rewrite Ew in H. unfold bind at 1 in H.
    destruct (call env (api_aabb_request (slice data pos (pos + blocksize)) DATA (Some pos))
                   (mkSt (self s) (trace s ++ new1))) as [[u | e |] s2] eqn:Ec;
      apply call_outcome in Ec; destruct Ec as [-> Hc]; cbn [self trace] in *.
    + apply IH in H. destruct H as (new2 & Hs & Ht & Hpre & Hr).
      cbn [self trace] in *.
      exists (new1 ++ [Called (data_op data pos)] ++ new2).
      split; [exact Hs |].
      split; [rewrite Ht, <- !app_assoc; reflexivity |].
      rewrite !calls_app, Hc1. cbn [app map].
      split; [apply (prefix_app [data_op data pos]), Hpre |].
      destruct r as [u' | e |].
      * cbn [calls flat_map app]. rewrite Hr. reflexivity.
      * apply failed_call_app.
        apply (failed_call_app (trace s ++ new1) [Called (data_op data pos)]).
        exact Hr.
      * exact Hr.
    + inversion H; subst. cbn [self trace].
      exists (new1 ++ [Called (data_op data pos)]).
      split; [reflexivity |]. split; [rewrite <- app_assoc; reflexivity |].
      rewrite calls_app, Hc1. cbn [app map calls flat_map].
      split; [exists (map (data_op data) rest); reflexivity |].
      apply failed_call_app. exact Hc.
    + contradiction.
Qed.

End Calls.

(** Everything a complete upload asks of the session, in order: the
    transfer request, the [BEGIN] frame with the metadata, the [DATA]
    frames, the [END] frame. *)
Definition upload_calls (transfer_id metadata data : bytes) : list Op :=
  [api_send_xzyh transfer_id P2P_SEND_FILE None;
   api_aabb_request metadata BEGIN None]
  ++ map (data_op data) (offsets (len data))
  ++ [api_aabb_request [] END None].

(** X2.  However [send_file] ends, what it has asked of the session is an
    initial part of the one sequence a complete upload consists of: the
    transfer request with an identifier of at most 16 bytes, [BEGIN],
    the [DATA] frames in order, [END].  Nothing is sent out of order,
    twice, or after a failure.  It is the whole sequence when [send_file]
    returns; when [send_file] raises, either the session stopped during
    the wait and nothing at all was sent, or the last request sent is
    the one that raised, and the exception is that request's. *)
Theorem send_file_calls (env : Env) (fui_bytes : FileUploadInfo -> bytes)
        (Self : Type) (fuel : nat) (fui : FileUploadInfo) (data : bytes)
        (rate_limit_mbps : Q) (s : St Self) :
  exists (new : History) (transfer_id : bytes),
    snd (send_file env fui_bytes fuel fui data rate_limit_mbps s)
    = mkSt (self s) (trace s ++ new) /\
    (len transfer_id <= 16)%nat /\
    prefix (calls new) (upload_calls transfer_id (fui_bytes fui ++ [x00]) data) /\
    match fst (send_file env fui_bytes fuel fui data rate_limit_mbps s) with
    | Return _ => calls new = upload_calls transfer_id (fui_bytes fui ++ [x00]) data
    | Raise e =>
        (calls new = [] /\ e = ConnectionError "API thread stopped") \/
        failed_call env (trace s) new e
    | OutOfFuel => calls new = []
    end.
Proof.
  destruct (send_file env fui_bytes fuel fui data rate_limit_mbps s) as [r s'] eqn:H.
  cbn [fst snd]. unfold send_file in H. unfold bind at 1 in H.
  destruct (wait_connected env fuel s) as [[u | e |] s0] eqn:Ew;
    apply wait_connected_quiet in Ew; destruct Ew as (new0 & Hs0 & Ht0 & Hc0 & _ & Hr0);
    destruct s0 as [x0 h0]; cbn [self trace] in *; subst x0 h0.
  2:{ inversion H; subst. exists new0, []. split; [reflexivity |]. split; [cbn; lia |].
      rewrite Hc0. split; [apply prefix_nil | left; split; reflexivity]. }
  2:{ inversion H; subst. exists new0, []. split; [reflexivity |]. split; [cbn; lia |].
      rewrite Hc0. split; [apply prefix_nil | reflexivity]. }
  unfold bind at 1, RateLimiter_init, bind at 1, time_time, ret at 1 in H.
  cbn [self trace] in H.
  unfold bind at 1, history in H. cbn [self trace] in H.
  set (h1 := (trace s ++ new0) ++ [Clock (clock env (trace s ++ new0))]) in H.
  set (tid := firstn 16 (uuid4 env h1)) in H.
  assert (Htid : (len tid <= 16)%nat) by apply firstn_le_length.
  set (meta := fui_bytes fui ++ [x00]) in *.
  set (rl0 := mkRateLimiter _ _ _) in H.
  unfold bind at 1 in H.
  destruct (call env (api_send_xzyh tid P2P_SEND_FILE None) (mkSt (self s) h1))
    as [[u1 | e1 |] s1] eqn:E1; apply call_outcome in E1; destruct E1 as [-> Hf1];
    cbn [self trace] in *.
  2:{ inversion H; subst r s'.
      exists (new0 ++ [Clock (clock env (trace s ++ new0))]
                   ++ [Called (api_send_xzyh tid P2P_SEND_FILE None)]), tid.
      subst h1.
      split; [rewrite <- !app_assoc; reflexivity |]. split; [exact Htid |].
      rewrite !calls_app, Hc0. cbn [calls flat_map app].
      split; [eexists; reflexivity |]. right.
      apply failed_call_app.
      apply (failed_call_app (trace s ++ new0) [Clock _]). exact Hf1. }
  2:{ contradiction. }
  unfold bind at 1 in H.
  destruct (call env (api_aabb_request meta BEGIN None)
                 (mkSt (self s) (h1 ++ [Called (api_send_xzyh tid P2P_SEND_FILE None)])))
    as [[u2 | e2 |] s2] eqn:E2; apply call_outcome in E2; destruct E2 as [-> Hf2];
    cbn [self trace] in *.
  2:{ inversion H; subst r s'.
      exists (new0 ++ [Clock (clock env (trace s ++ new0))]
                   ++ [Called (api_send_xzyh tid P2P_SEND_FILE None)]
                   ++ [Called (api_aabb_request meta BEGIN None)]), tid.
      subst h1.
      split; [rewrite <- !app_assoc; reflexivity |]. split; [exact Htid |].
      rewrite !calls_app, Hc0. cbn [calls flat_map app].
      split; [eexists; reflexivity |]. right.
      apply failed_call_app.
      apply (failed_call_app (trace s ++ new0) [Clock _]).
      apply (failed_call_app _ [Called (api_send_xzyh tid P2P_SEND_FILE None)]).
      exact Hf2. }
  2:{ contradiction. }
  set (h2 := (h1 ++ [Called (api_send_xzyh tid P2P_SEND_FILE None)])
               ++ [Called (api_aabb_request meta BEGIN None)]) in *.
  assert (Eh2 : h2 = trace s ++ new0 ++ [Clock (clock env (trace s ++ new0));
                                         Called (api_send_xzyh tid P2P_SEND_FILE None);
                                         Called (api_aabb_request meta BEGIN None)]).
  { subst h2 h1. rewrite <- !app_assoc. reflexivity. }
  unfold bind at 1 in H.
  destruct (send_chunks env (py_range 0 (len data) blocksize) data rl0 (mkSt (self s) h2))
    as [[rl3 | e3 |] s3] eqn:E3; apply send_chunks_calls in E3;
    destruct E3 as (new3 & Hs3 & Ht3 & Hp3 & Hr3); destruct s3 as [x3 h3];
    cbn [self trace] in *; subst x3 h3; rewrite py_range_offsets in *.
  2:{ inversion H; subst r s'.
      exists (new0 ++ [Clock (clock env (trace s ++ new0));
                       Called (api_send_xzyh tid P2P_SEND_FILE None);
                       Called (api_aabb_request meta BEGIN None)] ++ new3), tid.
      rewrite Eh2.
      split; [rewrite <- !app_assoc; reflexivity |]. split; [exact Htid |].
      rewrite !calls_app, Hc0. cbn [calls flat_map app].
      split.
      - apply (prefix_app [api_send_xzyh tid P2P_SEND_FILE None;
                           api_aabb_request meta BEGIN None]).
        apply prefix_app_r, Hp3.
      - right. apply failed_call_app.
        apply (failed_call_app (trace s ++ new0) [Clock _; Called _; Called _]).
        rewrite Eh2, app_assoc in Hr3. exact Hr3. }
  2:{ contradiction. }
  unfold bind at 1 in H.
  destruct (call env (api_aabb_request [] END None) (mkSt (self s) (h2 ++ new3)))
    as [[u4 | e4 |] s4] eqn:E4; apply call_outcome in E4; destruct E4 as [-> Hf4];
    cbn [self trace] in *.
  3:{ contradiction. }
  - unfold ret in H. inversion H; subst r s'.
    exists (new0 ++ [Clock (clock env (trace s ++ new0));
                     Called (api_send_xzyh tid P2P_SEND_FILE None);
                     Called (api_aabb_request meta BEGIN None)] ++ new3
                 ++ [Called (api_aabb_request [] END None)]), tid.
    rewrite Eh2.
    split; [rewrite <- !app_assoc; reflexivity |]. split; [exact Htid |].
    rewrite !calls_app, Hc0, Hr3. cbn [calls flat_map app].
    split; [apply prefix_refl | reflexivity].
  - inversion H; subst r s'.
    exists (new0 ++ [Clock (clock env (trace s ++ new0));
                     Called (api_send_xzyh tid P2P_SEND_FILE None);
                     Called (api_aabb_request meta BEGIN None)] ++ new3
                 ++ [Called (api_aabb_request [] END None)]), tid.
    rewrite Eh2.
    split; [rewrite <- !app_assoc; reflexivity |]. split; [exact Htid |].
    rewrite !calls_app, Hc0, Hr3. cbn [calls flat_map app].
    split.
    + apply prefix_refl.
    + right. apply failed_call_app.
      apply (failed_call_app (trace s ++ new0) [Clock _; Called _; Called _]).
      apply (failed_call_app _ new3).
      rewrite Eh2, <- !app_assoc in Hf4. rewrite <- !app_assoc. exact Hf4.
Qed.

(** *** Small uploads *)

Lemma chunk_lengths_sum (data : bytes) :
  list_sum (map (fun p => len (slice data p (p + blocksize))) (offsets (len data)))
  = len data.
Proof.
  transitivity (len (List.concat (map (fun p => slice data p (p + blocksize))
                                      (offsets (len data))))).
  - rewrite length_concat, map_map. reflexivity.
  - rewrite <- py_range_offsets, chunks_concat. reflexivity.
Qed.

(** While what is charged and what is still to come fit the budget
    together, the limiter never sleeps. *)
Lemma send_chunks_within_budget (env : Env) (Self : Type) (data : bytes)
      (positions : list nat) :
  forall (rl : RateLimiter) (s : St Self) r s',
    (0 <= bytes_sent rl)%Z ->
    inject_Z (bytes_sent rl
              + Z.of_nat (list_sum (map (fun p => len (slice data p (p + blocksize)))
                                        positions)))
    <= rate_bytes rl ->
    send_chunks env positions data rl s = (r, s') ->
    exists new, trace s' = trace s ++ new /\ sleeps new = [].
Proof.
  induction positions as [| pos rest IH]; intros rl s r s' Hpos Hfit H;
    cbn [send_chunks] in H.
  - inversion H; subst. exists []. rewrite app_nil_r. split; reflexivity.
  - cbn [map] in Hfit.
    assert (Hcons : forall a l, list_sum (a :: l) = (a + list_sum l)%nat) by reflexivity.
    rewrite Hcons in Hfit. clear Hcons.
    set (n := len (slice data pos (pos + blocksize))) in *.
    set (m := list_sum (map (fun p => len (slice data p (p + blocksize))) rest)) in *.
    assert (Hn : inject_Z (bytes_sent rl + Z.of_nat n) <= rate_bytes rl).
    { eapply Qle_trans; [| exact Hfit]. rewrite <- Zle_Qle. lia. }
    unfold bind at 1 in H. rewrite wait_eq in H. cbv zeta in H.
    rewrite (proj2 (Qltb_ge _ _) Hn) in H.
    assert (Hnext : forall (rl1 : RateLimiter) (h1 : Q),
               rate_bytes rl1 = rate_bytes rl ->
               (0 <= bytes_sent rl1 <= bytes_sent rl + Z.of_nat n)%Z ->
               (x <- call env (api_aabb_request (slice data pos (pos + blocksize))
                                                DATA (Some pos)) ;;
                send_chunks env rest data rl1)
                 (mkSt (self s) (trace s ++ [Clock h1])) = (r, s') ->
               exists new, trace s' = trace s ++ new /\ sleeps new = []).
    { intros rl1 t1 Hrate Hb Hk. unfold bind at 1, call in Hk. cbn [self trace] in Hk.
      destruct (raises env _ _).
      - inversion Hk; subst. eexists. rewrite <- app_assoc. split; reflexivity.
      - apply IH in Hk.
        + destruct Hk as (new & Ht & Hsl). cbn [trace] in Ht.
          eexists. rewrite Ht, <- !app_assoc. split; [reflexivity |].
          cbn [app sleeps flat_map]. exact Hsl.
        + lia.
        + rewrite Hrate. eapply Qle_trans; [| exact Hfit]. rewrite <- Zle_Qle.
          fold m. lia. }
    destruct (Qleb 1 _).
    + eapply Hnext; [| | exact H]; cbn [rate_bytes bytes_sent]; [reflexivity | lia].
    + eapply Hnext; [| | exact H]; cbn [rate_bytes bytes_sent]; [reflexivity | lia].
Qed.

(** X3.  A file no larger than the budget of one window,
    [rate_limit_mbps * 1024 * 1024 / 8] bytes, is never throttled:
    however the clock behaves and however the upload ends, the only
    sleeps of [send_file] are the polls of its wait for the session. *)
Theorem small_upload_never_throttled (env : Env) (fui_bytes : FileUploadInfo -> bytes)
        (Self : Type) (fuel : nat) (fui : FileUploadInfo) (data : bytes)
        (rate_limit_mbps : Q) (s : St Self) :
  inject_Z (Z.of_nat (len data)) <= rate_limit_mbps * 1024 * 1024 / 8 ->
  exists (k : nat) (rest : History),
    (k <= fuel)%nat /\
    trace (snd (send_file env fui_bytes fuel fui data rate_limit_mbps s))
    = polled (trace s) k ++ rest /\
    sleeps rest = [].
Proof.
  intro Hsmall.
  destruct (send_file env fui_bytes fuel fui data rate_limit_mbps s) as [r s'] eqn:H.
  cbn [snd]. unfold send_file in H. unfold bind at 1 in H.
  destruct (wait_connected_polled env fuel s) as (k & Hk & Hsnd).
  destruct (wait_connected env fuel s) as [[u | e |] s0]; cbn [snd] in Hsnd; subst s0.
  2:{ inversion H; subst. exists k, []. rewrite app_nil_r. repeat split. exact Hk. }
  2:{ inversion H; subst. exists k, []. rewrite app_nil_r. repeat split. exact Hk. }
  exists k. revert H.
  generalize (polled (trace s) k) as h0. intros h0 H.
  unfold bind at 1, RateLimiter_init, bind at 1, time_time, ret at 1 in H.
  cbn [self trace] in H.
  unfold bind at 1, history in H. cbn [self trace] in H.
  unfold bind at 1, call in H. cbn [self trace] in H.
  destruct (raises env _ _).
  { inversion H; subst. eexists. rewrite <- app_assoc. split; [exact Hk |].
    split; reflexivity. }
  unfold bind at 1, call in H. cbn [self trace] in H.
  destruct (raises env _ _).
  { inversion H; subst. eexists. rewrite <- !app_assoc. split; [exact Hk |].
    split; reflexivity. }
  unfold bind at 1 in H.
  match type of H with
  | context [send_chunks env ?ps data ?rl ?st] =>
      destruct (send_chunks env ps data rl st) as [[rl3 | e3 |] s3] eqn:E3;
        apply send_chunks_within_budget in E3
  end.
  all: try (cbn [bytes_sent]; lia).
  all: try (cbn [bytes_sent rate_bytes]; rewrite py_range_offsets, chunk_lengths_sum;
            exact Hsmall).
  all: destruct E3 as (new3 & Ht3 & Hsl3); cbn [trace] in Ht3.
  - unfold bind, call, ret in H. cbn [self trace] in H.
    destruct (raises env _ _); inversion H; subst; cbn [trace]; rewrite Ht3;
      eexists; rewrite <- !app_assoc; (split; [exact Hk |]); (split; [reflexivity |]);
      cbn [app sleeps flat_map]; rewrite sleeps_app, Hsl3; reflexivity.
  - inversion H; subst. rewrite Ht3.
    eexists; rewrite <- !app_assoc; (split; [exact Hk |]); (split; [reflexivity |]).
    cbn [app sleeps flat_map]. exact Hsl3.
  - inversion H; subst. rewrite Ht3.
    eexists; rewrite <- !app_assoc; (split; [exact Hk |]); (split; [reflexivity |]).
    cbn [app sleeps flat_map]. exact Hsl3.
Qed.

Lemma small_upload_never_throttled_witness :
  exists (k : nat) (rest : History),
    (k <= 0)%nat /\
    trace (snd (send_file quiet_env demo_fui_bytes 0 demo_fui [x01; x02; x03] 10 start))
    = polled (trace start) k ++ rest /\
    sleeps rest = [].
Proof.
  apply (@small_upload_never_throttled quiet_env demo_fui_bytes unit 0 demo_fui
                                       [x01; x02; x03] 10 start).
  vm_compute. discriminate.
Defined.


End UploadSpec.

(** ** Further properties of [web/service/pppp.py] *)

Module ConnectSpec.
Import PPPP PPPPSpec.
Import TransferSpec (sleeps, sleeps_app, call_Return).

(** *** The retry interval *)

Lemma settled_below (idle : bool) (count : nat) :
  (settled idle count < MAX_RETRY_COUNT)%nat /\ (settled idle count <= count)%nat.
Proof.
  unfold settled, MAX_RETRY_COUNT. destruct idle.
  - cbn. lia.
  - destruct (Nat.leb_spec 5 count); lia.
Qed.

(** X4.  In every state, whatever the counter holds and whatever the
    clock reads, [get_retry_interval] returns one of the five delays
    [2, 4, 8, 16, 30]: at least [INITIAL_RETRY_DELAY], at most
    [MAX_RETRY_INTERVAL].  It leaves the counter below [MAX_RETRY_COUNT]
    and never above what it was, touches no other attribute, and reads
    the clock once. *)
Theorem get_retry_interval_bounds (env : Env) (svc : PPPPService) (h : History) :
  exists (d : Q) (count : nat),
    get_retry_interval env (mkSt svc h)
    = (Return d, mkSt (set_retry_count count svc) (h ++ [Clock (clock env h)])) /\
    (count < MAX_RETRY_COUNT)%nat /\
    (count <= retry_count svc)%nat /\
    d = nth count backoff_period 0 /\
    In d backoff_period /\
    Q_of_nat INITIAL_RETRY_DELAY <= d /\ d <= MAX_RETRY_INTERVAL.
Proof.
  rewrite get_retry_interval_eq. cbv zeta.
  set (count := settled _ (retry_count svc)).
  destruct (settled_below
              (Qltb MAX_RETRY_INTERVAL (clock env h - last_connection_attempt svc))
              (retry_count svc)) as [Hlt Hle].
  fold count in Hlt, Hle.
  exists (py_min (Q_of_nat (INITIAL_RETRY_DELAY * 2 ^ count)) MAX_RETRY_INTERVAL), count.
  split; [reflexivity |]. split; [exact Hlt |]. split; [exact Hle |].
  unfold MAX_RETRY_COUNT in Hlt.
  destruct count as [| [| [| [| [| m]]]]]; try lia; clear;
    (split; [reflexivity |]); (split; [cbn; tauto |]);
    split; vm_compute; discriminate.
Qed.

(** *** Binding the socket *)

Definition is_bind (ev : Event) : bool :=
  match ev with Called sock_bind => true | _ => false end.

(** How often [sock.bind] was called in a history. *)
Definition binds (h : History) : nat := len (filter is_bind h).

Lemma binds_app (h1 h2 : History) : binds (h1 ++ h2) = (binds h1 + binds h2)%nat.
Proof. unfold binds. rewrite filter_app, length_app. reflexivity. Qed.

Section Bind.
Variable env : Env.

(** One pass through the body of [for attempt in range(3)]. *)
Lemma bind_attempt (attempt : nat) (svc : PPPPService) (h : History) :
  exists (r : outcome bool) (new : History),
    try_except
      (call env sock_bind ;; call env sock_getsockname ;; ret true)
      is_OSError
      (fun e =>
         if (attempt =? 2)%nat then raise e
         else time_sleep CLEANUP_WAIT ;; ret false)
      (mkSt svc h) = (r, mkSt svc (h ++ new)) /\
    binds new = 1%nat /\
    match r with
    | Return true =>
        new = [Called sock_bind; Called sock_getsockname] /\
        raises env h sock_bind = None /\
        raises env (h ++ [Called sock_bind]) sock_getsockname = None
    | Return false =>
        attempt <> 2%nat /\ sleeps new = [CLEANUP_WAIT] /\
        exists pre e, new = pre ++ [Slept CLEANUP_WAIT] /\
                      failed_call env h pre e /\ is_OSError e = true
    | Raise e =>
        sleeps new = [] /\ failed_call env h new e /\
        (is_OSError e = true -> attempt = 2%nat)
    | OutOfFuel => False
    end.
Proof.
  unfold try_except, bind, call, time_sleep, log, ret, raise. cbn [self trace].
  destruct (raises env h sock_bind) as [e |] eqn:Eb.
  - assert (Hf : failed_call env h [Called sock_bind] e).
    { exists [], sock_bind. rewrite app_nil_r. split; [reflexivity | exact Eb]. }
    destruct (is_OSError e) eqn:Eo.
    + destruct (Nat.eqb_spec attempt 2) as [-> | Hne].
      * eexists _, _. split; [reflexivity |]. split; [reflexivity |].
        split; [reflexivity |]. split; [exact Hf | reflexivity].
      * cbn [self trace]. eexists _, _. split; [rewrite <- app_assoc; reflexivity |].
        split; [reflexivity |]. split; [exact Hne |]. split; [reflexivity |].
        exists [Called sock_bind], e. repeat split; assumption.
    + eexists _, _. split; [reflexivity |]. split; [reflexivity |].
      split; [reflexivity |]. split; [exact Hf | congruence].
  - cbn [self trace].
    destruct (raises env (h ++ [Called sock_bind]) sock_getsockname) as [e |] eqn:Eg.
    + assert (Hf : failed_call env h [Called sock_bind; Called sock_getsockname] e).
      { exists [Called sock_bind], sock_getsockname. split; [reflexivity | exact Eg]. }
      destruct (is_OSError e) eqn:Eo.
      * destruct (Nat.eqb_spec attempt 2) as [-> | Hne].
        -- eexists _, _. split; [rewrite <- app_assoc; reflexivity |].
           split; [reflexivity |]. split; [reflexivity |].
           split; [exact Hf | reflexivity].
        -- cbn [self trace]. eexists _, _. split; [rewrite <- !app_assoc; reflexivity |].
           split; [reflexivity |]. split; [exact Hne |]. split; [reflexivity |].
           exists [Called sock_bind; Called sock_getsockname], e. repeat split; assumption.
      * eexists _, _. split; [rewrite <- app_assoc; reflexivity |].
        split; [reflexivity |]. split; [reflexivity |].
        split; [exact Hf | congruence].
    + eexists _, _. split; [rewrite <- app_assoc; reflexivity |].
      split; [reflexivity |]. repeat split.
Qed.

End Bind.

(** X5.  Binding the socket, for every behaviour of the socket:
    [sock.bind] is called at least once and at most three times, with a
    sleep of [CLEANUP_WAIT] after each failed try but the last; the
    service object is left alone.  The loop returns as soon as one
    [bind] and the [getsockname] after it succeed.  When it raises, the
    exception is the one of the last call made, and an [OSError] is let
    through only from the third try; any other exception ends the loop
    at once. *)
Theorem bind_socket_retries (env : Env) (svc : PPPPService) (h : History) :
  exists (k : nat) (new : History),
    (1 <= k <= 3)%nat /\
    snd (bind_socket env [0; 1; 2]%nat (mkSt svc h)) = mkSt svc (h ++ new) /\
    binds new = k /\
    sleeps new = repeat CLEANUP_WAIT (k - 1) /\
    match fst (bind_socket env [0; 1; 2]%nat (mkSt svc h)) with
    | Return _ =>
        exists pre, new = pre ++ [Called sock_bind; Called sock_getsockname] /\
                    raises env (h ++ pre) sock_bind = None
    | Raise e => failed_call env h new e /\ (is_OSError e = true -> k = 3%nat)
    | OutOfFuel => False
    end.
Proof.
  destruct (bind_socket env [0; 1; 2]%nat (mkSt svc h)) as [r s'] eqn:H.
  cbn [fst snd]. cbn [bind_socket] in H.
  (* first try *)
  unfold bind at 1 in H.
  destruct (bind_attempt env 0 svc h) as (r0 & new0 & E0 & Hb0 & Hr0).
  rewrite E0 in H.
  destruct r0 as [[|] | e0 |]; [| | | contradiction].
  { inversion H; subst. destruct Hr0 as (-> & Hr0 & _).
    exists 1%nat, [Called sock_bind; Called sock_getsockname].
    split; [lia |]. split; [reflexivity |]. split; [reflexivity |].
    split; [reflexivity |]. exists []. rewrite app_nil_r. split; [reflexivity | exact Hr0]. }
  2:{ inversion H; subst. destruct Hr0 as (Hs0 & Hf0 & Ho0).
      exists 1%nat, new0. split; [lia |]. split; [reflexivity |]. split; [exact Hb0 |].
      split; [exact Hs0 |]. split; [exact Hf0 | intro Ho; apply Ho0 in Ho; discriminate]. }
  destruct Hr0 as (_ & Hs0 & _).
  (* second try *)
  unfold bind at 1 in H.
  destruct (bind_attempt env 1 svc (h ++ new0)) as (r1 & new1 & E1 & Hb1 & Hr1).
  rewrite E1 in H.
  destruct r1 as [[|] | e1 |]; [| | | contradiction].
  { inversion H; subst. destruct Hr1 as (-> & Hr1 & _).
    exists 2%nat, (new0 ++ [Called sock_bind; Called sock_getsockname]).
    split; [lia |]. split; [rewrite <- app_assoc; reflexivity |].
    split; [rewrite binds_app, Hb0; reflexivity |].
    split; [rewrite sleeps_app, Hs0; reflexivity |].
    exists new0. split; [reflexivity | exact Hr1]. }
  2:{ inversion H; subst. destruct Hr1 as (Hs1 & Hf1 & Ho1).
      exists 2%nat, (new0 ++ new1). split; [lia |].
      split; [rewrite <- app_assoc; reflexivity |].
      split; [rewrite binds_app, Hb0, Hb1; reflexivity |].
      split; [rewrite sleeps_app, Hs0, Hs1; reflexivity |].
      split; [apply failed_call_app, Hf1 | intro Ho; apply Ho1 in Ho; discriminate]. }
  destruct Hr1 as (_ & Hs1 & _).
  (* third try *)
  unfold bind at 1 in H.
  destruct (bind_attempt env 2 svc ((h ++ new0) ++ new1)) as (r2 & new2 & E2 & Hb2 & Hr2).
  rewrite E2 in H.
  destruct r2 as [[|] | e2 |]; [| | | contradiction].
  - inversion H; subst. destruct Hr2 as (-> & Hr2 & _).
    exists 3%nat, (new0 ++ new1 ++ [Called sock_bind; Called sock_getsockname]).
    split; [lia |]. split; [rewrite <- !app_assoc; reflexivity |].
    split; [rewrite !binds_app, Hb0, Hb1; reflexivity |].
    split; [rewrite !sleeps_app, Hs0, Hs1; reflexivity |].
    exists (new0 ++ new1). rewrite <- !app_assoc. split; [reflexivity |].
    rewrite <- app_assoc in Hr2. exact Hr2.
  - destruct Hr2 as (Hne & _). contradiction.
  - inversion H; subst. destruct Hr2 as (Hs2 & Hf2 & _).
    exists 3%nat, (new0 ++ new1 ++ new2).
    split; [lia |]. split; [rewrite <- !app_assoc; reflexivity |].
    split; [rewrite !binds_app, Hb0, Hb1, Hb2; reflexivity |].
    split; [rewrite !sleeps_app, Hs0, Hs1, Hs2; reflexivity |].
    split; [| reflexivity].
    apply failed_call_app, failed_call_app, Hf2.
Qed.

(** *** Waiting for the session *)

(** The timeouts [api.recv] was called with in a history. *)
Definition recv_timeouts (h : History) : list Q :=
  flat_map (fun ev => match ev with Called (api_recv t) => [t] | _ => [] end) h.

Lemma recv_timeouts_app (h1 h2 : History) :
  recv_timeouts (h1 ++ h2) = recv_timeouts h1 ++ recv_timeouts h2.
Proof. apply flat_map_app. Qed.

(** What the wait raises when one of its steps raised [e]: a
    [StopIteration] becomes a [ConnectionRefusedError]. *)
Definition refused (e : Exn) : Exn :=
  if is_StopIteration e
  then ConnectionRefusedError "Connection rejected by device"
  else e.

Lemma refused_not_StopIteration (e : Exn) : refused e <> StopIteration.
Proof. destruct e; cbn; discriminate. Qed.

Lemma py_min_timeout (t : Q) : 0 < t -> 0 < py_min t 1 /\ py_min t 1 <= 1.
Proof.
  intro Ht. unfold py_min. destruct (Qltb 1 t) eqn:E.
  - split; [reflexivity | apply Qle_refl].
  - apply Qltb_ge in E. split; assumption.
Qed.

(** X6.  The wait of [worker_start] for the session, for every behaviour
    of the device and the clock.  Each [recv] is given a timeout that is
    positive and at most one second; the service object is left alone.
    The wait returns only when the session is [Connected].  When it
    raises, either the clock had reached the deadline (then it is
    [TimeoutError], raised right after a clock read), or the last call
    made ([recv] or [process]) raised: that exception ends the wait at
    once, a [TimeoutError] of [recv] included, however much time is left,
    and a [StopIteration] is turned into [ConnectionRefusedError], so
    that [StopIteration] never leaves the wait. *)
Theorem await_connection_outcome (env : Env) (fuel : nat) (deadline : Q)
        (svc : PPPPService) (h : History) :
  exists new : History,
    snd (await_connection env fuel deadline (mkSt svc h)) = mkSt svc (h ++ new) /\
    Forall (fun t => 0 < t /\ t <= 1) (recv_timeouts new) /\
    (len (recv_timeouts new) <= fuel)%nat /\
    match fst (await_connection env fuel deadline (mkSt svc h)) with
    | Return _ => is_Connected (api_state env (h ++ new)) = true
    | Raise e =>
        e <> StopIteration /\
        ((e = TimeoutError "Connection timed out" /\
          exists pre t, new = pre ++ [Clock t] /\ deadline <= t) \/
         (exists e0, failed_call env h new e0 /\ e = refused e0))
    | OutOfFuel => is_Connected (api_state env (h ++ new)) = false
    end.
Proof.
  revert h. induction fuel as [| fuel IH]; intro h;
    destruct (await_connection env _ deadline (mkSt svc h)) as [r s'] eqn:E;
    cbn [await_connection] in E; unfold bind at 1, read_api_state in E;
    cbn [fst snd self trace] in *;
    destruct (is_Connected (api_state env h)) eqn:Ec.
  - inversion E; subst. exists []. rewrite app_nil_r.
    split; [reflexivity |]. split; [constructor |]. split; [cbn; lia | exact Ec].
  - inversion E; subst. exists []. rewrite app_nil_r.
    split; [reflexivity |]. split; [constructor |]. split; [cbn; lia | exact Ec].
  - inversion E; subst. exists []. rewrite app_nil_r.
    split; [reflexivity |]. split; [constructor |]. split; [cbn; lia | exact Ec].
  - unfold bind at 1, try_except, bind at 1, time_time in E. cbn [self trace] in E.
    set (t := clock env h) in E.
    destruct (Qleb (deadline - t) 0) eqn:Elate.
    + (* the deadline has passed *)
      unfold raise in E. cbn [is_TimeoutError orb] in E. inversion E; subst.
      exists [Clock t]. split; [reflexivity |]. split; [constructor |].
      split; [cbn; lia |]. split; [discriminate |]. left. split; [reflexivity |].
      exists [], t. split; [reflexivity |]. apply Qleb_le in Elate. lra.
    + apply Qleb_gt in Elate.
      destruct (py_min_timeout Elate) as [Hpos Hle].
      set (d := py_min (deadline - t) 1) in *.
      unfold bind at 1 in E. rewrite recv_eq in E.
      destruct (raises env (h ++ [Clock t]) (api_recv d)) as [e0 |] eqn:Er.
      * (* [recv] raised *)
        assert (Hf : failed_call env h [Clock t; Called (api_recv d)] e0).
        { exists [Clock t], (api_recv d). split; [reflexivity | exact Er]. }
        assert (Hout : r = Raise (refused e0) /\
                       s' = mkSt svc ((h ++ [Clock t]) ++ [Called (api_recv d)])).
        { unfold refused. destruct e0; cbn in E; inversion E; split; reflexivity. }
        destruct Hout as [-> ->].
        exists [Clock t; Called (api_recv d)].
        split; [rewrite <- app_assoc; reflexivity |].
        split; [repeat constructor; assumption |]. split; [cbn; lia |].
        split; [apply refused_not_StopIteration |].
        right. exists e0. split; [exact Hf | reflexivity].
      * destruct (recv_result env (h ++ [Clock t])) as [m |].
        -- rewrite call_eq in E.
           destruct (raises env ((h ++ [Clock t]) ++ [Called (api_recv d)]) (api_process m))
             as [e0 |] eqn:Ep.
           ++ (* [process] raised *)
              assert (Hf : failed_call env h [Clock t; Called (api_recv d);
                                              Called (api_process m)] e0).
              { exists [Clock t; Called (api_recv d)], (api_process m).
                split; [reflexivity |]. rewrite <- app_assoc in Ep. exact Ep. }
              assert (Hout : r = Raise (refused e0) /\
                             s' = mkSt svc (((h ++ [Clock t]) ++ [Called (api_recv d)])
                                              ++ [Called (api_process m)])).
              { unfold refused. destruct e0; cbn in E; inversion E; split; reflexivity. }
              destruct Hout as [-> ->].
              exists [Clock t; Called (api_recv d); Called (api_process m)].
              split; [rewrite <- !app_assoc; reflexivity |].
              split; [repeat constructor; assumption |]. split; [cbn; lia |].
              split; [apply refused_not_StopIteration |].
              right. exists e0. split; [exact Hf | reflexivity].
           ++ specialize (IH (((h ++ [Clock t]) ++ [Called (api_recv d)])
                                ++ [Called (api_process m)])).
              rewrite E in IH. destruct IH as (new & Hsnd & Hall & Hlen & Hr).
              cbn [fst snd] in *.
              exists ([Clock t; Called (api_recv d); Called (api_process m)] ++ new).
              split; [rewrite Hsnd, <- !app_assoc; reflexivity |].
              change (recv_timeouts ([Clock t; Called (api_recv d); Called (api_process m)]
                                       ++ new)) with (d :: recv_timeouts new).
              split; [constructor; [split; assumption | exact Hall] |].
              split; [cbn [List.length]; lia |].
              replace (h ++ [Clock t; Called (api_recv d); Called (api_process m)] ++ new)
                with ((((h ++ [Clock t]) ++ [Called (api_recv d)])
                         ++ [Called (api_process m)]) ++ new)
                by (rewrite <- !app_assoc; reflexivity).
              destruct r as [u | e |]; try exact Hr.
              destruct Hr as [Hne Hr]. split; [exact Hne |].
              destruct Hr as [(He & pre & t1 & -> & Hd) | (e0 & Hf & He)].
              ** left. split; [exact He |]. eexists (_ ++ pre), t1.
                 rewrite <- app_assoc. split; [reflexivity | exact Hd].
              ** right. exists e0. split; [| exact He].
                 apply (failed_call_app h [Clock t; Called (api_recv d);
                                           Called (api_process m)]).
                 rewrite <- !app_assoc in Hf. exact Hf.
        -- specialize (IH ((h ++ [Clock t]) ++ [Called (api_recv d)])).
           unfold ret at 1 in E. rewrite E in IH.
           destruct IH as (new & Hsnd & Hall & Hlen & Hr).
           cbn [fst snd] in *.
           exists ([Clock t; Called (api_recv d)] ++ new).
           split; [rewrite Hsnd, <- !app_assoc; reflexivity |].
           change (recv_timeouts ([Clock t; Called (api_recv d)] ++ new))
             with (d :: recv_timeouts new).
           split; [constructor; [split; assumption | exact Hall] |].
           split; [cbn [List.length]; lia |].
           replace (h ++ [Clock t; Called (api_recv d)] ++ new)
             with (((h ++ [Clock t]) ++ [Called (api_recv d)]) ++ new)
             by (rewrite <- !app_assoc; reflexivity).
           destruct r as [u | e |]; try exact Hr.
           destruct Hr as [Hne Hr]. split; [exact Hne |].
           destruct Hr as [(He & pre & t1 & -> & Hd) | (e0 & Hf & He)].
           ** left. split; [exact He |]. eexists (_ ++ pre), t1.
              rewrite <- app_assoc. split; [reflexivity | exact Hd].
           ** right. exists e0. split; [| exact He].
              apply (failed_call_app h [Clock t; Called (api_recv d)]).
              rewrite <- !app_assoc in Hf. exact Hf.
Qed.


(** *** A connection attempt that fails *)

(** A call that closes or stops something. *)
Definition releases (ev : Event) : bool :=
  match ev with
  | Called op =>
      match op with
      | api_send_PktClose | api_stop | chan_close _ _
      | sock_shutdown | sock_close | dumper_close => true
      | _ => false
      end
  | _ => false
  end.

Definition keeps_open (ev : Event) : bool := negb (releases ev).

Section Attempt.
Variable env : Env.

Lemma bind_socket_emits (attempts : list nat) :
  emits keeps_open (bind_socket env attempts).
Proof.
  induction attempts as [| attempt rest IH]; cbn [bind_socket]; [emit |].
  apply emits_bind; [emit | intros []; [emit | exact IH]].
Qed.

Lemma await_connection_emits (fuel : nat) (deadline : Q) :
  emits keeps_open (await_connection env fuel deadline).
Proof.
  induction fuel as [| fuel IH]; cbn [await_connection].
  - emit.
  - apply emits_bind; [emit | intro st].
    destruct (is_Connected st); [emit |].
    apply emits_bind; [emit | intros _; exact IH].
Qed.

(** Until the session is connected, the attempt closes nothing. *)
Lemma establish_emits (fuel : nat) (deadline : Q) :
  emits keeps_open (establish env fuel deadline).
Proof.
  unfold establish.
  do 4 (apply emits_bind; [emit | intros _]).
  apply emits_bind; [apply bind_socket_emits | intros _].
  apply emits_bind; [emit | intros h].
  apply emits_bind; [emit | intros _]. cbv zeta.
  apply emits_bind; [emit | intros _].
  do 2 (apply emits_bind; [emit | intros _]).
  apply emits_bind; [apply await_connection_emits | intros _; emit].
Qed.

(** The attributes an attempt leaves alone until it succeeds. *)
Definition attempt_frame (s : PPPPService)
  : option Api * list nat * bool * bool * nat * Q * nat * option Q :=
  (_api s, handlers s, stopping s, restart_pending s, retry_count s,
   last_connection_attempt s, total_restarts s, last_restart_time s).

(** How [connect] fails: with no configuration or address before
    anything is called, or in the [try] block, whose [except] clause then
    finds no session to clean up. *)
Lemma connect_Raise (fuel : nat) (svc : PPPPService) (h : History) e s' :
  _api svc = None ->
  connect env fuel (mkSt svc h) = (Raise e, s') ->
  attempt_frame (self s') = attempt_frame svc /\
  exists post, trace s' = h ++ post /\ forallb keeps_open post = true.
Proof.
  intros Hapi. unfold connect, bind at 1, time_time. cbn [self trace].
  unfold bind at 1, history. cbn [self trace].
  destruct (printer_config env _) as [printer |].
  2:{ intro H. inversion H; subst. split; [reflexivity |]. eexists. split; reflexivity. }
  destruct (ip_addr printer).
  2:{ intro H. inversion H; subst. split; [reflexivity |]. eexists. split; reflexivity. }
  unfold try_except.
  match goal with |- context [bind ?c ?k ?st] =>
    destruct (bind c k st) as [[u | e1 |] s1] eqn:E
  end; try discriminate.
  cbn [is_Exception]. intro H.
  apply bind_Raise_left in E; [| intro; apply adopt_returns].
  pose proof (@establish_keeps env _ attempt_frame _ _ (fun _ _ => eq_refl) _ _ _ E)
    as Hframe.
  pose proof (establish_emits fuel (clock env h + 15)) as Hem.
  destruct (Hem _ _ _ E) as (post & Ht & Hp). cbn [self trace] in *. clear Hem.
  destruct s1 as [svc1 h1]. cbn [self trace] in *.
  assert (Hapi1 : _api svc1 = None).
  { unfold attempt_frame in Hframe. inversion Hframe. congruence. }
  unfold bind at 1 in H.
  pose proof (cleanup_connection_run env svc1 h1) as R. rewrite Hapi1 in R.
  rewrite R in H. inversion H; subst. cbn [self trace].
  split; [exact Hframe |].
  exists (Clock (clock env h) :: post). split; [| exact Hp].
  rewrite <- app_assoc. reflexivity.
Qed.

End Attempt.

(** X7.  A connection attempt that fails, for every way it can fail.
    Whenever [worker_start] raises, the service holds no session and the
    attempt has been counted; the handlers are those it had on entry if
    it had no session then, and none otherwise.  In the history, a
    teardown (that of the session it had on entry) and clock reads come
    first; what follows contains no close, stop or shutdown at all.  So
    the [except] clause's [cleanup_connection] finds nothing to clean:
    the socket, the session thread and the packet dumper that the failed
    attempt opened are not closed by [worker_start]. *)
Theorem failed_attempt_releases_nothing (env : Env) (fuel : nat) (svc : PPPPService)
        (h : History) (e : Exn) (s' : St PPPPService) :
  worker_start env fuel (mkSt svc h) = (Raise e, s') ->
  _api (self s') = None /\
  stopping svc = false /\
  total_restarts (self s') = S (total_restarts svc) /\
  last_restart_time (self s') = Some (last_connection_attempt (self s')) /\
  handlers (self s') = match _api svc with Some _ => [] | None => handlers svc end /\
  exists pre post : History,
    trace s' = h ++ pre ++ post /\
    forallb teardown_event pre = true /\
    forallb keeps_open post = true.
Proof.
  unfold worker_start, bind at 1, get_self. cbn [self].
  destruct (stopping svc) eqn:Hstop; [discriminate |].
  unfold bind at 1.
  pose proof (cleanup_connection_run env svc h) as R.
  assert (Hclean : exists svc1 new1,
             cleanup_connection env (mkSt svc h) = (Return tt, mkSt svc1 (h ++ new1)) /\
             forallb teardown_event new1 = true /\
             _api svc1 = None /\
             total_restarts svc1 = total_restarts svc /\
             handlers svc1 = match _api svc with Some _ => [] | None => handlers svc end).
  { destruct (_api svc) eqn:Eapi.
    - destruct R as (new & t & E & Hp & _). exists (cleaned t svc), new. repeat split; assumption.
    - exists svc, []. rewrite app_nil_r. repeat split; assumption. }
  destruct Hclean as (svc1 & new1 & Ec & Hp1 & Hapi1 & Htr1 & Hh1). rewrite Ec. clear R Ec.
  unfold bind at 1, time_sleep, log. cbn [self trace].
  unfold bind at 1, time_time. cbn [self trace].
  unfold bind at 1. rewrite get_retry_interval_eq. cbv zeta.
  unfold bind at 1, get_self. cbn [self trace].
  match goal with
  | |- context [if Qltb ?a ?b then _ else _] => destruct (Qltb a b)
  end; [discriminate |].
  unfold bind at 1, modify. cbn [self trace].
  intro H. apply connect_Raise in H; [| exact Hapi1].
  destruct H as (Hframe & post & Ht & Hp). unfold attempt_frame in Hframe.
  inversion Hframe as [[Ha Hh Hs Hr Hc Hl Htot Hlr]].
  cbn [_api handlers total_restarts last_restart_time last_connection_attempt
       begin_attempt set_last_restart_time set_total_restarts set_retry_count
       set_last_connection_attempt] in *.
  split; [congruence |]. split; [reflexivity |]. split; [congruence |].
  split; [congruence |]. split; [congruence |].
  eexists (new1 ++ [Slept (CLEANUP_WAIT * 2); Clock _; Clock _]), post.
  split; [rewrite Ht, <- !app_assoc; reflexivity |].
  split; [rewrite forallb_app, Hp1; reflexivity | exact Hp].
Qed.

Lemma failed_attempt_releases_nothing_witness :
  _api (self (snd (worker_start dumping_env 5 (mkSt init [])))) = None /\
  stopping init = false /\
  total_restarts (self (snd (worker_start dumping_env 5 (mkSt init []))))
  = S (total_restarts init) /\
  last_restart_time (self (snd (worker_start dumping_env 5 (mkSt init []))))
  = Some (last_connection_attempt (self (snd (worker_start dumping_env 5 (mkSt init []))))) /\
  handlers (self (snd (worker_start dumping_env 5 (mkSt init []))))
  = match _api init with Some _ => [] | None => handlers init end /\
  exists pre post : History,
    trace (snd (worker_start dumping_env 5 (mkSt init []))) = [] ++ pre ++ post /\
    forallb teardown_event pre = true /\
    forallb keeps_open post = true.
Proof.
  apply (@failed_attempt_releases_nothing dumping_env 5 init [] OSError).
  vm_compute. reflexivity.
Defined.


(** *** A connection attempt that succeeds *)

Section Adoption.
Variable env : Env.

Lemma await_connection_Return (fuel : nat) (deadline : Q) (s : St PPPPService) u s' :
  await_connection env fuel deadline s = (Return u, s') ->
  self s' = self s /\ is_Connected (api_state env (trace s')) = true.
Proof.
  revert s. induction fuel as [| fuel IH]; intros s; cbn [await_connection];
    unfold bind at 1, read_api_state; cbn [self trace];
    destruct (is_Connected (api_state env (trace s))) eqn:Ec.
  - intro H. inversion H; subst. split; [reflexivity | exact Ec].
  - discriminate.
  - intro H. inversion H; subst. split; [reflexivity | exact Ec].
  - intro H. apply bind_Return in H. destruct H as (u1 & s1 & H1 & H2).
    apply IH in H2. destruct H2 as [Hs Hc]. split; [| exact Hc].
    rewrite Hs. revert H1. clear.
    intro H1.
    assert (K : keeps (fun x : PPPPService => x)
                      (try_except
                         (now <- time_time env ;;
                          let timeout := deadline - now in
                          if Qleb timeout 0 then raise (TimeoutError "Connection timed out")
                          else
                            msg <- recv env (py_min timeout 1) ;;
                            match msg with
                            | Some m => call env (api_process m)
                            | None => ret tt
                            end)
                         (fun e => is_TimeoutError e || is_StopIteration e)
                         (fun e =>
                            if is_TimeoutError e then raise e
                            else raise (ConnectionRefusedError
                                          "Connection rejected by device")))) by frame.
    exact (K _ _ _ H1).
Qed.

(** What the [try] block has done when the session is connected: the
    session object is the one it built, the dumper is the configured
    one, and the session has just been seen [Connected]. *)
Lemma establish_Return (fuel : nat) (deadline : Q) (svc : PPPPService) (h : History)
      api s' :
  establish env fuel deadline (mkSt svc h) = (Return api, s') ->
  (exists h0, api = new_api env h0) /\
  self s' = match pppp_dump env with
            | Some d => set_dumper (Some d) svc
            | None => svc
            end /\
  is_Connected (api_state env (trace s')) = true.
Proof.
  unfold establish. intro H.
  apply bind_Return in H. destruct H as (u1 & s1 & H1 & H).
  apply call_Return in H1. subst s1.
  apply bind_Return in H. destruct H as (u2 & s2 & H2 & H).
  apply call_Return in H2. subst s2.
  apply bind_Return in H. destruct H as (u3 & s3 & H3 & H).
  assert (Hs3 : self s3 = svc).
  { assert (K : keeps (fun x : PPPPService => x)
                      (try_except (call env sock_setsockopt_reuseport) is_AttributeError
                                  (fun _ => ret tt))) by frame.
    exact (K _ _ _ H3). }
  clear H3.
  apply bind_Return in H. destruct H as (u4 & s4 & H4 & H).
  assert (Hs4 : self s4 = svc).
  { rewrite <- Hs3. revert H4. destruct (negb (windows env)).
    - intro H4. apply call_Return in H4. subst s4. reflexivity.
    - intro H4. inversion H4. reflexivity. }
  clear H4 Hs3.
  apply bind_Return in H. destruct H as (u5 & s5 & H5 & H).
  apply (@bind_socket_keeps env _ (fun x : PPPPService => x)) in H5.
  apply bind_Return in H. destruct H as (h0 & s6 & H6 & H).
  unfold history in H6. inversion H6; subst h0 s6. clear H6.
  apply bind_Return in H. destruct H as (u7 & s7 & H7 & H).
  apply call_Return in H7. subst s7. cbv zeta in H.
  apply bind_Return in H. destruct H as (u8 & s8 & H8 & H).
  assert (Hs8 : self s8 = match pppp_dump env with
                          | Some d => set_dumper (Some d) svc
                          | None => svc
                          end).
  { revert H8. destruct (pppp_dump env) as [d |].
    - intro H8. apply bind_Return in H8. destruct H8 as (v1 & t1 & K1 & H8).
      apply call_Return in K1. subst t1.
      apply bind_Return in H8. destruct H8 as (v2 & t2 & K2 & H8).
      unfold modify in K2. inversion K2; subst v2 t2. clear K2.
      apply call_Return in H8. subst s8. cbn [self]. congruence.
    - intro H8. inversion H8. cbn [self]. congruence. }
  clear H8.
  apply bind_Return in H. destruct H as (u9 & s9 & H9 & H).
  apply call_Return in H9. subst s9.
  apply bind_Return in H. destruct H as (u10 & s10 & H10 & H).
  apply call_Return in H10. subst s10.
  apply bind_Return in H. destruct H as (u11 & s11 & H11 & H).
  apply await_connection_Return in H11. destruct H11 as [Hs11 Hc11].
  cbn [self trace] in *. inversion H; subst.
  split; [eexists; reflexivity |]. split; [congruence | exact Hc11].
Qed.

End Adoption.

(** X8.  A connection attempt that succeeds.  Whenever a [worker_start]
    that was not stopping returns holding a session, that session is the
    object this call built, and the call returned right after seeing it
    [Connected]: only the two clock reads of the adoption follow, which
    give [_last_heartbeat] and [last_successful_connection].  The retry
    counter and the heartbeat failures are back at zero, the attempt has
    been counted, the dumper is the configured one (else what the
    teardown left), and [restart_pending] is as it was: [worker_start]
    never clears a pending restart. *)
Theorem worker_start_adopts (env : Env) (fuel : nat) (svc : PPPPService)
        (h : History) (s' : St PPPPService) :
  stopping svc = false ->
  worker_start env fuel (mkSt svc h) = (Return tt, s') ->
  _api (self s') <> None ->
  exists (h0 h1 : History) (t1 t2 : Q),
    trace s' = h1 ++ [Clock t1; Clock t2] /\
    is_Connected (api_state env h1) = true /\
    _api (self s') = Some (new_api env h0) /\
    _last_heartbeat (self s') = t1 /\
    last_successful_connection (self s') = t2 /\
    retry_count (self s') = 0%nat /\
    heartbeat_fail_count (self s') = 0%nat /\
    total_restarts (self s') = S (total_restarts svc) /\
    restart_pending (self s') = restart_pending svc /\
    dumper (self s') = match pppp_dump env with
                       | Some d => Some d
                       | None => match _api svc with
                                 | Some _ => None
                                 | None => dumper svc
                                 end
                       end.
Proof.
  intros Hstop. unfold worker_start, bind at 1, get_self. cbn [self].
  rewrite Hstop. unfold bind at 1.
  pose proof (cleanup_connection_run env svc h) as R.
  assert (Hclean : exists svc1 h1,
             cleanup_connection env (mkSt svc h) = (Return tt, mkSt svc1 h1) /\
             _api svc1 = None /\
             total_restarts svc1 = total_restarts svc /\
             restart_pending svc1 = restart_pending svc /\
             dumper svc1 = match _api svc with Some _ => None | None => dumper svc end).
  { destruct (_api svc) eqn:Eapi.
    - destruct R as (new & t & E & _). exists (cleaned t svc), (h ++ new).
      repeat split; assumption.
    - exists svc, h. repeat split; assumption. }
  destruct Hclean as (svc1 & h1 & Ec & Hapi1 & Htr1 & Hrp1 & Hd1). rewrite Ec. clear R Ec.
  unfold bind at 1, time_sleep, log. cbn [self trace].
  unfold bind at 1, time_time. cbn [self trace].
  unfold bind at 1. rewrite get_retry_interval_eq. cbv zeta.
  unfold bind at 1, get_self. cbn [self trace].
  match goal with
  | |- context [if Qltb ?a ?b then _ else _] => destruct (Qltb a b)
  end.
  { intros H Hapi. inversion H; subst. cbn [self _api set_retry_count] in Hapi.
    contradiction. }
  unfold bind at 1, modify. cbn [self trace].
  unfold connect, bind at 1, time_time. cbn [self trace].
  unfold bind at 1, history. cbn [self trace].
  destruct (printer_config env _) as [printer |]; [| discriminate].
  destruct (ip_addr printer); [| discriminate].
  unfold try_except.
  match goal with |- context [bind ?c ?k ?st] =>
    destruct (bind c k st) as [[u | e1 |] s1] eqn:E
  end.
  2:{ cbn [is_Exception]. unfold bind.
      destruct (cleanup_connection env s1) as [[? | ? |] ?]; discriminate. }
  2:{ discriminate. }
  intros H _. inversion H; subst u s1. clear H.
  apply bind_Return in E. destruct E as (api & [svc2 h2] & E1 & E2).
  apply establish_Return in E1. destruct E1 as ((h0 & ->) & Hs2 & Hc2).
  cbn [self trace] in *.
  unfold adopt, reset_retry_count, bind, modify, time_time, ret in E2.
  cbn [self trace] in E2. inversion E2; subst s'. clear E2.
  exists h0, h2, (clock env h2), (clock env (h2 ++ [Clock (clock env h2)])).
  cbn [self trace]. split; [rewrite <- app_assoc; reflexivity |].
  split; [exact Hc2 |].
  subst svc2.
  destruct (pppp_dump env); cbn; repeat split; congruence.
Qed.

Lemma worker_start_adopts_witness :
  exists (h0 h1 : History) (t1 t2 : Q),
    trace (snd (worker_start VideoSpec.five_seconds 0 (mkSt init [])))
    = h1 ++ [Clock t1; Clock t2] /\
    is_Connected (api_state VideoSpec.five_seconds h1) = true /\
    _api (self (snd (worker_start VideoSpec.five_seconds 0 (mkSt init []))))
    = Some (new_api VideoSpec.five_seconds h0) /\
    _last_heartbeat (self (snd (worker_start VideoSpec.five_seconds 0 (mkSt init [])))) = t1 /\
    last_successful_connection
      (self (snd (worker_start VideoSpec.five_seconds 0 (mkSt init [])))) = t2 /\
    retry_count (self (snd (worker_start VideoSpec.five_seconds 0 (mkSt init [])))) = 0%nat /\
    heartbeat_fail_count
      (self (snd (worker_start VideoSpec.five_seconds 0 (mkSt init [])))) = 0%nat /\
    total_restarts (self (snd (worker_start VideoSpec.five_seconds 0 (mkSt init []))))
    = S (total_restarts init) /\
    restart_pending (self (snd (worker_start VideoSpec.five_seconds 0 (mkSt init []))))
    = restart_pending init /\
    dumper (self (snd (worker_start VideoSpec.five_seconds 0 (mkSt init []))))
    = match pppp_dump VideoSpec.five_seconds with
      | Some d => Some d
      | None => match _api init with
                | Some _ => None
                | None => dumper init
                end
      end.
Proof.
  apply (@worker_start_adopts VideoSpec.five_seconds 0 init []).
  - reflexivity.
  - vm_compute. reflexivity.
  - vm_compute. discriminate.
Defined.


End ConnectSpec.

Module TeardownSpec.
Import PPPP PPPPSpec.

(** *** What a teardown closes when closing fails *)

Definition is_chan_close (ev : Event) : bool :=
  match ev with Called (chan_close _ _) => true | _ => false end.

Definition is_sock_release (ev : Event) : bool :=
  match ev with
  | Called op =>
      match op with
      | sock_setsockopt_linger | sock_shutdown | sock_close => true
      | _ => false
      end
  | _ => false
  end.

(** An event that concerns neither a channel pipe nor the release of the
    socket. *)
Definition elsewhere (ev : Event) : bool :=
  negb (is_chan_close ev) && negb (is_sock_release ev).

(** The pipes closed in a history, in order. *)
Definition chan_closes (h : History) : list (nat * Pipe) :=
  flat_map (fun ev => match ev with Called (chan_close ch p) => [(ch, p)] | _ => [] end) h.

(** The calls that release the socket in a history, in order. *)
Definition sock_releases (h : History) : list Op :=
  flat_map (fun ev => if is_sock_release ev
                      then match ev with Called op => [op] | _ => [] end
                      else []) h.

Lemma chan_closes_app (h1 h2 : History) :
  chan_closes (h1 ++ h2) = chan_closes h1 ++ chan_closes h2.
Proof. apply flat_map_app. Qed.

Lemma sock_releases_app (h1 h2 : History) :
  sock_releases (h1 ++ h2) = sock_releases h1 ++ sock_releases h2.
Proof. apply flat_map_app. Qed.

Lemma elsewhere_none (h : History) :
  forallb elsewhere h = true -> chan_closes h = [] /\ sock_releases h = [].
Proof.
  induction h as [| ev h IH]; cbn [forallb]; intro H; [split; reflexivity |].
  apply andb_true_iff in H. destruct H as [Hev Hh].
  destruct (IH Hh) as [IH1 IH2]. unfold elsewhere in Hev.
  apply andb_true_iff in Hev. destruct Hev as [H1 H2].
  apply negb_true_iff in H1, H2.
  cbn [chan_closes sock_releases flat_map]. rewrite H2.
  fold (chan_closes h). fold (sock_releases h). rewrite IH1, IH2.
  split; [| reflexivity].
  destruct ev as [[] | |]; try reflexivity; discriminate.
Qed.

(** The pipes of a channel, in the order the teardown closes them. *)
Definition pipes : list Pipe := [RxRx; RxTx; TxRx; TxTx].

(** The closes attempted on channel [ch] when the [k]-th is the last. *)
Definition attempted (ch k : nat) : list (nat * Pipe) :=
  map (pair ch) (firstn k pipes).

Section Closing.
Variable env : Env.

(** One step of a computation that cannot fail and leaves the object
    alone. *)
Lemma run_step {A B} (p : Event -> bool) (c : Method A) (k : A -> Method B)
      (svc : PPPPService) (h : History) :
  safe p c ->
  exists a new, forallb p new = true /\ bind c k (mkSt svc h) = k a (mkSt svc (h ++ new)).
Proof.
  intro Hc. destruct (Hc (mkSt svc h)) as (a & new & E & Hp). cbn [self trace] in E.
  exists a, new. split; [exact Hp |]. unfold bind. rewrite E. reflexivity.
Qed.

(** Closing one channel: the pipes are closed in order up to the first
    close that raises; the exception goes no further. *)
Lemma close_channel_run (ch : nat) (svc : PPPPService) (h : History) :
  exists (k : nat) (new : History),
    close_channel env ch (mkSt svc h) = (Return tt, mkSt svc (h ++ new)) /\
    (1 <= k <= 4)%nat /\
    chan_closes new = attempted ch k /\
    sock_releases new = [] /\
    ((forall h' p, raises env h' (chan_close ch p) = None) -> k = 4%nat) /\
    ((k < 4)%nat ->
     exists h' p, raises env h' (chan_close ch p) <> None /\
                  nth_error pipes (k - 1) = Some p).
Proof.
  unfold close_channel, guarded, try_except, bind, call, ret. cbn [self trace].
  destruct (raises env h (chan_close ch RxRx)) eqn:E1.
  { exists 1%nat. eexists. cbn [is_Exception]. split; [reflexivity |].
    split; [lia |]. split; [reflexivity |]. split; [reflexivity |].
    split; [intro Hq; rewrite Hq in E1; discriminate |].
    intros _. exists h, RxRx. split; [congruence | reflexivity]. }
  cbn [self trace].
  destruct (raises env (h ++ [Called (chan_close ch RxRx)]) (chan_close ch RxTx)) eqn:E2.
  { exists 2%nat. eexists. cbn [is_Exception]. split; [rewrite <- !app_assoc; reflexivity |].
    split; [lia |]. split; [reflexivity |]. split; [reflexivity |].
    split; [intro Hq; rewrite Hq in E2; discriminate |].
    intros _. eexists _, RxTx. split; [rewrite E2; discriminate | reflexivity]. }
  cbn [self trace].
  destruct (raises env ((h ++ [Called (chan_close ch RxRx)]) ++ [Called (chan_close ch RxTx)])
                   (chan_close ch TxRx)) eqn:E3.
  { exists 3%nat. eexists. cbn [is_Exception]. split; [rewrite <- !app_assoc; reflexivity |].
    split; [lia |]. split; [reflexivity |]. split; [reflexivity |].
    split; [intro Hq; rewrite Hq in E3; discriminate |].
    intros _. eexists _, TxRx. split; [rewrite E3; discriminate | reflexivity]. }
  cbn [self trace].
  exists 4%nat. eexists.
  destruct (raises env _ (chan_close ch TxTx)); cbn [is_Exception];
    (split; [rewrite <- !app_assoc; reflexivity |]);
    (split; [lia |]); (split; [reflexivity |]); (split; [reflexivity |]);
    (split; [reflexivity | lia]).
Qed.

(** The history the channel loop adds when the last close attempted on
    the [i]-th channel is the [k_i]-th. *)
Definition closes_of (chs ks : list nat) : list (nat * Pipe) :=
  flat_map (fun ck => attempted (fst ck) (snd ck)) (combine chs ks).

(** The loop over the channels: every channel is visited, whatever
    fails. *)
Lemma close_channels_run (chs : list nat) :
  forall (svc : PPPPService) (h : History),
  exists (ks : list nat) (new : History),
    for_each chs (close_channel env) (mkSt svc h) = (Return tt, mkSt svc (h ++ new)) /\
    len ks = len chs /\
    Forall (fun k => (1 <= k <= 4)%nat) ks /\
    chan_closes new = closes_of chs ks /\
    sock_releases new = [] /\
    ((forall h' ch p, raises env h' (chan_close ch p) = None) ->
     ks = repeat 4%nat (len chs)).
Proof.
  induction chs as [| ch rest IH]; intros svc h; cbn [for_each].
  - exists [], []. rewrite app_nil_r. repeat split. constructor.
  - destruct (close_channel_run ch svc h) as (k & new1 & E1 & Hk & Hc1 & Hs1 & Hq1 & _).
    destruct (IH svc (h ++ new1)) as (ks & new2 & E2 & Hlen & Hall & Hc2 & Hs2 & Hq2).
    exists (k :: ks), (new1 ++ new2). unfold bind. rewrite E1, E2.
    split; [rewrite <- app_assoc; reflexivity |].
    split; [cbn; congruence |].
    split; [constructor; assumption |].
    split; [rewrite chan_closes_app, Hc1, Hc2; reflexivity |].
    split; [rewrite sock_releases_app, Hs1, Hs2; reflexivity |].
    intro Hq. cbn [List.length repeat]. rewrite (Hq1 (fun h' p => Hq h' ch p)), (Hq2 Hq).
    reflexivity.
Qed.

(** What releasing the socket should call, given whether the session has
    a socket and what setting [SO_LINGER] raises. *)
Definition socket_release (has_sock : bool) (linger : option Exn) : list Op :=
  if has_sock then
    if windows env then [sock_shutdown; sock_close]
    else match linger with
         | Some _ => [sock_setsockopt_linger]
         | None => [sock_setsockopt_linger; sock_shutdown; sock_close]
         end
  else [].

(** The [try] statement around the socket. *)
Lemma close_socket_run (api : Api) (svc : PPPPService) (h : History) :
  exists new : History,
    guarded
      (if sock api then
         (if negb (windows env) then call env sock_setsockopt_linger else ret tt) ;;
         guarded (call env sock_shutdown) ;;
         guarded (call env sock_close)
       else ret tt) (mkSt svc h) = (Return tt, mkSt svc (h ++ new)) /\
    chan_closes new = [] /\
    sock_releases new
    = socket_release (sock api) (raises env h sock_setsockopt_linger).
Proof.
  unfold socket_release, guarded, try_except, bind, call, ret.
  destruct (sock api); cbn [self trace].
  2:{ exists []. rewrite app_nil_r. repeat split. }
  destruct (windows env); cbn [negb self trace].
  - destruct (raises env h sock_shutdown); cbn [is_Exception self trace];
      destruct (raises env _ sock_close); cbn [is_Exception self trace];
      eexists; (split; [rewrite <- !app_assoc; reflexivity |]); split; reflexivity.
  - destruct (raises env h sock_setsockopt_linger); cbn [is_Exception self trace].
    + eexists. split; [reflexivity |]. split; reflexivity.
    + destruct (raises env _ sock_shutdown); cbn [is_Exception self trace];
        destruct (raises env _ sock_close); cbn [is_Exception self trace];
        eexists; (split; [rewrite <- !app_assoc; reflexivity |]); split; reflexivity.
Qed.

(** The teardown of a session, in four parts: what comes before the
    channels, the channels, the socket, and what comes after. *)
Lemma cleanup_body_parts (api : Api) (svc : PPPPService) (h : History) :
  exists (before loop socket after : History) (ks : list nat),
    trace (snd (cleanup_body env api (mkSt svc h)))
    = h ++ before ++ loop ++ socket ++ after /\
    forallb elsewhere before = true /\
    forallb elsewhere after = true /\
    len ks = match chans api with Some n => n | None => 0%nat end /\
    Forall (fun k => (1 <= k <= 4)%nat) ks /\
    chan_closes loop
    = closes_of (seq 0 (match chans api with Some n => n | None => 0%nat end)) ks /\
    ((forall h' ch p, raises env h' (chan_close ch p) = None) ->
     ks = repeat 4%nat (len ks)) /\
    sock_releases loop = [] /\
    chan_closes socket = [] /\
    sock_releases socket
    = socket_release (sock api) (raises env (h ++ before ++ loop) sock_setsockopt_linger).
Proof.
  unfold cleanup_body.
  (* before the channels *)
  match goal with |- context [bind ?c ?k (mkSt svc h)] =>
    destruct (@run_step _ _ elsewhere c k svc h ltac:(world)) as (a1 & n1 & P1 & ->)
  end.
  match goal with |- context [bind ?c ?k (mkSt svc ?h1)] =>
    destruct (@run_step _ _ elsewhere c k svc h1 ltac:(world)) as (a2 & n2 & P2 & ->)
  end.
  match goal with |- context [bind ?c ?k (mkSt svc ?h1)] =>
    destruct (@run_step _ _ elsewhere c k svc h1 ltac:(world)) as (a3 & n3 & P3 & ->)
  end.
  match goal with |- context [bind ?c ?k (mkSt svc ?h1)] =>
    destruct (@run_step _ _ elsewhere c k svc h1 ltac:(world)) as (a4 & n4 & P4 & ->)
  end.
  match goal with |- context [bind ?c ?k (mkSt svc ?h1)] =>
    destruct (@run_step _ _ elsewhere c k svc h1 ltac:(world)) as (a5 & n5 & P5 & ->)
  end.
  set (h5 := ((((h ++ n1) ++ n2) ++ n3) ++ n4) ++ n5).
  (* the channels *)
  assert (Hloop : exists (ks : list nat) (loop : History),
             (match chans api with
              | Some n => for_each (seq 0 n) (close_channel env)
              | None => ret tt
              end) (mkSt svc h5) = (Return tt, mkSt svc (h5 ++ loop)) /\
             len ks = match chans api with Some n => n | None => 0%nat end /\
             Forall (fun k => (1 <= k <= 4)%nat) ks /\
             chan_closes loop
             = closes_of (seq 0 (match chans api with Some n => n | None => 0%nat end)) ks /\
             sock_releases loop = [] /\
             ((forall h' ch p, raises env h' (chan_close ch p) = None) ->
              ks = repeat 4%nat (len ks))).
  { destruct (chans api) as [n |].
    - destruct (close_channels_run (seq 0 n) svc h5)
        as (ks & loop & E & Hlen & Hall & Hc & Hs & Hq).
      rewrite length_seq in Hlen, Hq.
      exists ks, loop. repeat split; try assumption.
      intro Hquiet. rewrite Hlen. exact (Hq Hquiet).
    - exists [], []. rewrite app_nil_r. repeat split. constructor. }
  destruct Hloop as (ks & loop & El & Hlen & Hall & Hcl & Hsl & Hq).
  unfold bind at 1. rewrite El.
  (* the socket *)
  destruct (close_socket_run api svc (h5 ++ loop)) as (socket & Es & Hcs & Hss).
  unfold bind at 1. rewrite Es.
  (* after the socket *)
  exists (n1 ++ n2 ++ n3 ++ n4 ++ n5), loop, socket.
  assert (Hbefore : forallb elsewhere (n1 ++ n2 ++ n3 ++ n4 ++ n5) = true).
  { rewrite !forallb_app, P1, P2, P3, P4, P5. reflexivity. }
  assert (Eh5 : h5 = h ++ n1 ++ n2 ++ n3 ++ n4 ++ n5).
  { subst h5. rewrite <- !app_assoc. reflexivity. }
  rewrite Eh5, <- app_assoc in Hss.
  unfold bind, modify, get_self, guarded, try_except, call, time_sleep, time_time, log, ret.
  cbn [self trace dumper set_handlers].
  destruct (dumper svc) as [d |]; cbn [self trace].
  - destruct (raises env _ dumper_close); cbn [is_Exception self trace snd];
      eexists _, ks; rewrite Eh5;
      (split; [rewrite <- !app_assoc; reflexivity |]);
      repeat (split; [first [assumption | reflexivity] |]); exact Hss.
  - cbn [snd]. eexists _, ks. rewrite Eh5.
    split; [rewrite <- !app_assoc; reflexivity |].
    repeat (split; [first [assumption | reflexivity] |]); exact Hss.
Qed.

End Closing.

Lemma closes_of_all (chs : list nat) :
  closes_of chs (repeat 4%nat (len chs)) = flat_map (fun ch => map (pair ch) pipes) chs.
Proof.
  unfold closes_of. induction chs as [| ch rest IH]; [reflexivity |].
  cbn [List.length repeat combine flat_map]. rewrite IH. reflexivity.
Qed.

Lemma cleanup_connection_body (env : Env) (api : Api) (svc : PPPPService) (h : History) :
  _api svc = Some api ->
  cleanup_connection env (mkSt svc h) = cleanup_body env api (mkSt svc h).
Proof.
  intro Hapi. unfold cleanup_connection, bind, get_self. cbn [self]. rewrite Hapi.
  unfold try_except.
  destruct (cleanup_body_tears_down env api svc h) as (new & t & E & _).
  rewrite E. reflexivity.
Qed.

(** X9.  The teardown of a session with [n] channels visits every
    channel, whatever fails: the pipes closed are, channel after channel
    in order, an initial part of [rx.rx, rx.tx, tx.rx, tx.tx] of at least
    one pipe.  A close that raises ends the closing of its own channel
    only (the pipes after it stay open) and the loop goes on with the
    next channel.  When no close raises, all [4 * n] pipes are closed,
    each once. *)
Theorem teardown_visits_every_channel (env : Env) (svc : PPPPService) (h : History)
        (api : Api) (n : nat) :
  _api svc = Some api ->
  chans api = Some n ->
  exists (new : History) (ks : list nat),
    trace (snd (cleanup_connection env (mkSt svc h))) = h ++ new /\
    len ks = n /\
    Forall (fun k => (1 <= k <= 4)%nat) ks /\
    chan_closes new = closes_of (seq 0 n) ks /\
    ((forall h' ch p, raises env h' (chan_close ch p) = None) ->
     chan_closes new = flat_map (fun ch => map (pair ch) pipes) (seq 0 n)).
Proof.
  intros Hapi Hn. rewrite (@cleanup_connection_body env api svc h Hapi).
  destruct (@cleanup_body_parts env api svc h)
    as (before & loop & socket & after & ks & Ht & Hb & Ha & Hlen & Hall & Hc & Hq & _ & Hcs & _).
  rewrite Hn in *.
  destruct (elsewhere_none _ Hb) as [Hb1 _]. destruct (elsewhere_none _ Ha) as [Ha1 _].
  assert (Hnew : chan_closes (before ++ loop ++ socket ++ after) = closes_of (seq 0 n) ks).
  { rewrite !chan_closes_app, Hb1, Hc, Hcs, Ha1, app_nil_r. reflexivity. }
  exists (before ++ loop ++ socket ++ after), ks.
  split; [exact Ht |]. split; [exact Hlen |]. split; [exact Hall |].
  split; [exact Hnew |].
  intro Hquiet. rewrite Hnew, (Hq Hquiet), Hlen.
  replace (repeat 4%nat n) with (repeat 4%nat (len (seq 0 n)))
    by (rewrite length_seq; reflexivity).
  apply closes_of_all.
Qed.

Lemma teardown_visits_every_channel_witness :
  exists (new : History) (ks : list nat),
    trace (snd (cleanup_connection quiet_env (mkSt live []))) = [] ++ new /\
    len ks = 8%nat /\
    Forall (fun k => (1 <= k <= 4)%nat) ks /\
    chan_closes new = closes_of (seq 0 8) ks /\
    ((forall h' ch p, raises quiet_env h' (chan_close ch p) = None) ->
     chan_closes new = flat_map (fun ch => map (pair ch) pipes) (seq 0 8)).
Proof.
  apply (@teardown_visits_every_channel quiet_env live []
                                        (mkApi 1 true false (Some 8%nat)) 8).
  - reflexivity.
  - reflexivity.
Defined.

(** X10.  What the teardown of a session does to the socket, whatever
    fails.  Without a socket it releases nothing.  With one it sets
    [SO_LINGER] (except on Windows), then calls [shutdown] and [close],
    once each and in this order; [close] is called even when [shutdown]
    raises.  But when setting [SO_LINGER] raises, neither [shutdown] nor
    [close] is called: the socket is left open.  Nothing else in the
    teardown touches the socket's release. *)
Theorem teardown_releases_socket (env : Env) (svc : PPPPService) (h : History)
        (api : Api) :
  _api svc = Some api ->
  exists (pre post : History),
    trace (snd (cleanup_connection env (mkSt svc h))) = h ++ pre ++ post /\
    sock_releases pre = [] /\
    sock_releases post
    = socket_release env (sock api) (raises env (h ++ pre) sock_setsockopt_linger) /\
    (In sock_close (sock_releases post) <->
     sock api = true /\
     (windows env = true \/ raises env (h ++ pre) sock_setsockopt_linger = None)).
Proof.
  intros Hapi. rewrite (@cleanup_connection_body env api svc h Hapi).
  destruct (@cleanup_body_parts env api svc h)
    as (before & loop & socket & after & ks & Ht & Hb & Ha & _ & _ & _ & _ & Hsl & _ & Hss).
  destruct (elsewhere_none _ Hb) as [_ Hb2]. destruct (elsewhere_none _ Ha) as [_ Ha2].
  exists (before ++ loop), (socket ++ after).
  split; [rewrite Ht, <- !app_assoc; reflexivity |].
  split; [rewrite sock_releases_app, Hb2, Hsl; reflexivity |].
  assert (Hpost : sock_releases (socket ++ after)
                  = socket_release env (sock api)
                                   (raises env (h ++ before ++ loop) sock_setsockopt_linger)).
  { rewrite sock_releases_app, Ha2, app_nil_r. exact Hss. }
  split; [exact Hpost |].
  rewrite Hpost. unfold socket_release.
  destruct (sock api); [| cbn; split; [tauto | intros [Hf _]; discriminate]].
  destruct (windows env).
  - cbn. split; [intros _; split; [reflexivity | left; reflexivity] | tauto].
  - destruct (raises env _ sock_setsockopt_linger); cbn.
    + split; [intros [Hf | []]; discriminate | intros [_ [Hf | Hf]]; discriminate].
    + split; [intros _; split; [reflexivity | right; reflexivity] | tauto].
Qed.

Lemma teardown_releases_socket_witness :
  exists (pre post : History),
    trace (snd (cleanup_connection quiet_env (mkSt live []))) = [] ++ pre ++ post /\
    sock_releases pre = [] /\
    sock_releases post
    = socket_release quiet_env (sock (mkApi 1 true false (Some 8%nat)))
                     (raises quiet_env ([] ++ pre) sock_setsockopt_linger) /\
    (In sock_close (sock_releases post) <->
     sock (mkApi 1 true false (Some 8%nat)) = true /\
     (windows quiet_env = true
      \/ raises quiet_env ([] ++ pre) sock_setsockopt_linger = None)).
Proof.
  apply (@teardown_releases_socket quiet_env live [] (mkApi 1 true false (Some 8%nat))).
  reflexivity.
Defined.


End TeardownSpec.

Module RunLoopSpec.
Import PPPP PPPPSpec.

(** *** The heartbeat *)

(** The service has a session that is not stopped and is [Connected]:
    what the property [connected] answers after the history [h]. *)
Definition session_live (env : Env) (svc : PPPPService) (h : History) : bool :=
  match _api svc with
  | Some _ => negb (api_stopped env h) && is_Connected (api_state env h)
  | None => false
  end.

(** X11.  [send_heartbeat] never raises and touches no attribute but the
    failure count.  With a live session it sends one heartbeat command
    and answers whether the send succeeded: the count is reset to [0] on
    success and incremented on failure.  Without a live session it sends
    nothing and answers [False]; the failure is then counted only when
    the session is there and [Connected] (so: stopped), not when the
    session is missing or in any other state. *)
Theorem send_heartbeat_outcome (env : Env) (svc : PPPPService) (h : History) :
  exists (sent : bool) (count : nat) (new : History),
    send_heartbeat env (mkSt svc h)
    = (Return sent, mkSt (set_heartbeat_fail_count count svc) (h ++ new)) /\
    if session_live env svc h then
      new = [Called (api_json_command Heartbeat)] /\
      sent = match raises env h (api_json_command Heartbeat) with
             | None => true
             | Some _ => false
             end /\
      count = (if sent then 0 else S (heartbeat_fail_count svc))%nat
    else
      new = [] /\ sent = false /\
      count = match _api svc with
              | Some _ => if is_Connected (api_state env h)
                          then S (heartbeat_fail_count svc)
                          else heartbeat_fail_count svc
              | None => heartbeat_fail_count svc
              end.
Proof.
  destruct svc as [rc lca lsc api lh hfc tr lrt hs st du rp lct].
  unfold session_live, send_heartbeat, api_command, connected, bind, get_self,
    read_api_stopped, read_api_state, try_except, call, modify, raise, ret,
    incr_heartbeat_fail_count, set_heartbeat_fail_count.
  destruct api as [a |]; cbn.
  2:{ exists false, hfc, []. rewrite app_nil_r. repeat split. }
  destruct (api_stopped env h) eqn:Es;
    destruct (is_Connected (api_state env h)) eqn:Ec;
    cbn; rewrite ?Es, ?Ec; cbn; rewrite ?Es, ?Ec; cbn;
    try (eexists false, _, []; rewrite app_nil_r; repeat split; reflexivity).
  destruct (raises env h (api_json_command Heartbeat)); cbn;
    eexists _, _, [_]; repeat split.
Qed.

(** *** Running without a session *)

Section NoSession.
Variable env : Env.

(** One call of [worker_run] on a service that has no session. *)
Lemma worker_run_no_session (timeout : Q) (svc : PPPPService) (h : History) :
  _api svc = None ->
  exists (flagged : bool) (new : History),
    worker_run env timeout (mkSt svc h)
    = (Return tt, mkSt (if flagged then set_restart_pending true svc else svc) (h ++ new)) /\
    calls new = [].
Proof.
  intro Hapi. unfold worker_run, bind at 1, get_self. cbn [self].
  destruct (stopping svc).
  { exists false, []. rewrite app_nil_r. split; reflexivity. }
  unfold bind at 1, log_instance_count, bind at 1, time_time, ret at 1. cbn [self trace].
  unfold bind at 1, get_self. cbn [self]. rewrite Hapi.
  unfold bind at 1. cbn [self trace].
  destruct (Qltb _ _).
  - exists false. eexists. unfold bind, time_sleep, log, ret. cbn [self trace].
    split; [rewrite <- !app_assoc; reflexivity | reflexivity].
  - exists true. eexists. unfold bind, modify, ret. cbn [self trace].
    split; [rewrite <- !app_assoc; reflexivity | reflexivity].
Qed.

Lemma worker_runs_no_session (timeout : Q) (rounds : list nat) :
  forall (svc : PPPPService) (h : History),
    _api svc = None ->
    exists (flagged : bool) (new : History),
      for_each rounds (fun _ => worker_run env timeout) (mkSt svc h)
      = (Return tt, mkSt (if flagged then set_restart_pending true svc else svc) (h ++ new)) /\
      calls new = [].
Proof.
  induction rounds as [| i rest IH]; intros svc h Hapi; cbn [for_each].
  - exists false, []. rewrite app_nil_r. split; reflexivity.
  - destruct (worker_run_no_session timeout svc h Hapi) as (f1 & new1 & E1 & Hc1).
    unfold bind. rewrite E1.
    assert (Hapi1 : _api (if f1 then set_restart_pending true svc else svc) = None).
    { destruct f1; exact Hapi. }
    destruct (IH _ (h ++ new1) Hapi1) as (f2 & new2 & E2 & Hc2).
    rewrite E2. exists (f1 || f2)%bool, (new1 ++ new2).
    split.
    + rewrite <- app_assoc. f_equal. f_equal.
      destruct f1, f2; reflexivity.
    + rewrite calls_app, Hc1, Hc2. reflexivity.
Qed.

End NoSession.

(** X12.  A service without a session never signals a restart.  Any
    number of consecutive calls of [worker_run] on a service whose
    [_api] is [None] all return: none raises [ServiceRestartSignal],
    even with a restart pending, and none calls anything.  The session
    stays [None], and no attribute changes except that
    [restart_pending] may have been set.  So once [worker_run] itself
    has torn the session down, it takes a [worker_start] from outside
    to get a session again. *)
Theorem worker_run_without_session (env : Env) (timeout : Q) (n : nat)
        (svc : PPPPService) (h : History) :
  _api svc = None ->
  exists (s' : St PPPPService) (new : History),
    for_each (seq 0 n) (fun _ => worker_run env timeout) (mkSt svc h) = (Return tt, s') /\
    trace s' = h ++ new /\
    calls new = [] /\
    _api (self s') = None /\
    (self s' = svc \/ self s' = set_restart_pending true svc).
Proof.
  intro Hapi.
  destruct (worker_runs_no_session env timeout (seq 0 n) svc h Hapi)
    as (flagged & new & E & Hc).
  eexists _, new. split; [exact E |]. cbn [self trace].
  split; [reflexivity |]. split; [exact Hc |].
  destruct flagged; (split; [exact Hapi |]); [right | left]; reflexivity.
Qed.

Lemma worker_run_without_session_witness :
  exists (s' : St PPPPService) (new : History),
    for_each (seq 0 3) (fun _ => worker_run quiet_env 1)
             (mkSt (set_restart_pending true init) []) = (Return tt, s') /\
    trace s' = [] ++ new /\
    calls new = [] /\
    _api (self s') = None /\
    (self s' = set_restart_pending true init
     \/ self s' = set_restart_pending true (set_restart_pending true init)).
Proof.
  apply (@worker_run_without_session quiet_env 1 3 (set_restart_pending true init) []).
  reflexivity.
Defined.

(** *** A connection that is reset *)

Section Reset.
Variable env : Env.

Lemma receive_reset (timeout : Q) (svc : PPPPService) (h : History) :
  raises env h (api_recv (py_min timeout HEARTBEAT_INTERVAL)) = Some ConnectionResetError ->
  receive env timeout (mkSt svc h)
  = (cleanup_connection env ;; modify (set_restart_pending true) ;; ret true)
      (mkSt svc (h ++ [Called (api_recv (py_min timeout HEARTBEAT_INTERVAL))])).
Proof.
  intro Hr. unfold receive.
  unfold try_except at 1. unfold bind at 1. unfold try_except at 1. unfold bind at 1.
  rewrite recv_eq, Hr. reflexivity.
Qed.

End Reset.

(** X13.  A connection reset.  Whenever the [recv] of a [worker_run]
    raises [ConnectionResetError], the run tears the session down and
    returns normally: the session is [None], the handler list empty, the
    dumper dropped, a restart is pending, and what follows the [recv] in
    the history is a teardown.  The restart is only marked, not
    signalled by this call. *)
Theorem connection_reset_tears_down (env : Env) (timeout : Q) (svc : PPPPService)
        (h : History) (r : outcome unit) (s' : St PPPPService)
        (pre : History) (t : Q) (rest : History) :
  worker_run env timeout (mkSt svc h) = (r, s') ->
  trace s' = h ++ pre ++ Called (api_recv t) :: rest ->
  raises env (h ++ pre) (api_recv t) = Some ConnectionResetError ->
  r = Return tt /\
  _api svc <> None /\
  _api (self s') = None /\
  handlers (self s') = [] /\
  dumper (self s') = None /\
  restart_pending (self s') = true /\
  forallb teardown_event rest = true.
Proof.
  intros Hrun Htrace Hr.
  destruct (worker_run_cases _ _ _ _ Hrun)
    as [[_ (new & Ht & Hnew)]
       | (Hstop & Hapi & pre' & svc1 & returned & s2 & Hpre & Hcore & Erecv & Hfin)].
  - exfalso. rewrite Htrace in Ht. apply app_inv_head in Ht. subst new.
    rewrite forallb_app in Hnew. simpl in Hnew. rewrite andb_false_r in Hnew.
    discriminate.
  - destruct (receive_run env timeout svc1 (h ++ pre'))
      as (returned' & s2' & rest' & E & Ht2 & Hrest & _).
    rewrite Erecv in E. inversion E; subst returned' s2'. clear E.
    assert (Hs' : trace s' = trace s2).
    { rewrite <- (finish_trace returned s2), <- Hfin. reflexivity. }
    rewrite Hs', Ht2, <- app_assoc in Htrace. apply app_inv_head in Htrace.
    destruct (unique_split is_recv pre' _ rest' pre _ rest Htrace eq_refl eq_refl Hpre Hrest)
      as (-> & Ecall & ->).
    inversion Ecall; subst t. clear Ecall.
    rewrite (receive_reset env timeout svc1 (h ++ pre') Hr) in Erecv.
    destruct Hcore as (_ & _ & _ & Hc_api).
    pose proof (cleanup_connection_run env svc1
                  ((h ++ pre') ++ [Called (api_recv (py_min timeout HEARTBEAT_INTERVAL))]))
      as R.
    destruct (_api svc1) as [api1 |] eqn:Eapi1; [| congruence].
    destruct R as (new & t1 & Ec & Hp & _).
    unfold bind at 1 in Erecv. rewrite Ec in Erecv.
    unfold bind, modify, ret in Erecv. cbn [self trace] in Erecv.
    inversion Erecv; subst returned s2. clear Erecv.
    unfold finish in Hfin. inversion Hfin; subst r s'. cbn [self trace] in *.
    rewrite <- app_assoc in Ht2. apply app_inv_head in Ht2.
    cbn [app] in Ht2. inversion Ht2; subst rest'.
    repeat split; try reflexivity; assumption.
Qed.

(** The session is reset on the first [recv]. *)
Definition reset_env : Env :=
  with_raises
    (fun _ op => match op with api_recv _ => Some ConnectionResetError | _ => None end)
    quiet_env.

Lemma connection_reset_tears_down_witness :
  fst (worker_run reset_env 1 (mkSt live [])) = Return tt /\
  _api live <> None /\
  _api (self (snd (worker_run reset_env 1 (mkSt live [])))) = None /\
  handlers (self (snd (worker_run reset_env 1 (mkSt live [])))) = [] /\
  dumper (self (snd (worker_run reset_env 1 (mkSt live [])))) = None /\
  restart_pending (self (snd (worker_run reset_env 1 (mkSt live [])))) = true /\
  forallb teardown_event
          (skipn 3 (trace (snd (worker_run reset_env 1 (mkSt live []))))) = true.
Proof.
  apply (@connection_reset_tears_down reset_env 1 live [] _ _ [Clock 0; Clock 0] 1).
  - apply surjective_pairing.
  - vm_compute. reflexivity.
  - reflexivity.
Defined.

End RunLoopSpec.

(** ** Further properties of [web/service/video.py] *)

Module HandlerSpec.
Import Video VideoSpec.
Import PPPPSpec.

(** What the handler takes for a video frame: an [Xzyh] on channel 1. *)
Definition is_video (data : option nat * Packet) : bool :=
  match fst data with
  | Some 1%nat => is_Xzyh (snd data)
  | _ => false
  end.

(** The window is due at time [now]. *)
Definition due (now : Q) (v : VideoQueue) : bool :=
  Qleb FRAME_RATE_CHECK_INTERVAL (now - last_frame_check v).

Section Handler.
Variable env : Env.

(** The part of the handler that closes a window (lines 155-184). *)
Definition close_window (now : Q) (s : VideoQueue) : Method unit :=
  if Qleb FRAME_RATE_CHECK_INTERVAL (now - last_frame_check s) then
    let elapsed := now - last_frame_check s in
    let frame_rate := Q_of_nat (frame_count s) / elapsed in
    log_stream_stats now ;;
    (if during_quality_change now s then ret tt
     else check_frame_rate frame_rate) ;;
    modify (with_frame_count 0) ;;
    modify (with_last_frame_check now)
  else ret tt.

(** What stays as it is while a window is closed. *)
Definition counted (s : VideoQueue) : nat * bool * bool * Q :=
  (total_frames s, first_frame_received s, video_enabled s, last_frame_time s).

Lemma close_window_keeps (now : Q) (s : VideoQueue) : keeps counted (close_window now s).
Proof.
  unfold close_window, log_stream_stats, check_frame_rate. frame.
Qed.

Lemma close_window_silent (now : Q) (s : VideoQueue) :
  emits (fun _ => false) (close_window now s).
Proof.
  unfold close_window, log_stream_stats, check_frame_rate. emit.
Qed.

(** A window is closed without an exception, or the statistics line
    divides by a zero uptime, or the third low window in a row asks for a
    restart. *)
Lemma close_window_outcome (now : Q) (v : VideoQueue) (h : History) r s' :
  close_window now v (mkSt v h) = (r, s') ->
  match r with
  | Return _ =>
      frame_count (self s') = (if due now v then 0 else frame_count v)%nat
  | Raise e =>
      due now v = true /\
      ((e = ZeroDivisionError /\ zero_uptime now v = true) \/
       (e = ServiceRestartSignal "Persistent low frame rate" /\
        during_quality_change now v = false /\
        Q_of_nat (frame_count v) / (now - last_frame_check v) < MIN_ACCEPTABLE_FPS /\
        (3 <= S (stall_warning_count v))%nat))
  | OutOfFuel => False
  end.
Proof.
  unfold close_window, due.
  destruct (Qleb FRAME_RATE_CHECK_INTERVAL (now - last_frame_check v)) eqn:Edue.
  2:{ intro H. inversion H; subst. reflexivity. }
  cbv zeta. unfold bind at 1, log_stream_stats, bind at 1, get_self. cbn [self trace].
  unfold zero_uptime.
  set (fps := Q_of_nat (frame_count v) / (now - last_frame_check v)).
  assert (Hpolicy : forall (v1 : VideoQueue) r1 s1,
             stall_warning_count v1 = stall_warning_count v ->
             (check_frame_rate fps ;;
              modify (with_frame_count 0) ;;
              modify (with_last_frame_check now)) (mkSt v1 h) = (r1, s1) ->
             match r1 with
             | Return _ => frame_count (self s1) = 0%nat
             | Raise e =>
                 e = ServiceRestartSignal "Persistent low frame rate" /\
                 fps < MIN_ACCEPTABLE_FPS /\ (3 <= S (stall_warning_count v))%nat
             | OutOfFuel => False
             end).
  { intros v1 r1 s1 Hv1. unfold bind at 1, check_frame_rate.
    destruct (Qltb fps WARNING_FPS);
      [destruct (Qltb fps MIN_ACCEPTABLE_FPS) eqn:Emin |].
    - unfold bind at 1, modify at 1. cbn [self trace].
      unfold bind at 1, get_self at 1. cbn [self trace].
      cbn [stall_warning_count with_stall_warning_count]. rewrite Hv1.
      destruct (3 <=? S (stall_warning_count v))%nat eqn:E3.
      + unfold raise. intro H. inversion H; subst.
        split; [reflexivity |]. split; [apply Qltb_lt, Emin | apply Nat.leb_le, E3].
      + unfold bind, ret, modify. cbn [self trace]. intro H. inversion H; subst.
        reflexivity.
    - unfold bind, ret, modify. cbn [self trace]. intro H. inversion H; subst.
      reflexivity.
    - unfold bind, ret, modify. cbn [self trace]. intro H. inversion H; subst.
      reflexivity. }
  assert (Hskip : forall (v1 : VideoQueue) r1 s1,
             (ret tt ;;
              modify (with_frame_count 0) ;;
              modify (with_last_frame_check now)) (mkSt v1 h) = (r1, s1) ->
             match r1 with
             | Return _ => frame_count (self s1) = 0%nat
             | _ => False
             end).
  { intros v1 r1 s1. unfold bind, ret, modify. cbn [self trace].
    intro H. inversion H; subst. reflexivity. }
  destruct (is_set (stream_start_time v)) eqn:Eset; cbn [andb].
  - unfold bind at 1, modify at 1. cbn [self trace].
    destruct (Qeq_bool _ 0) eqn:Ez.
    + unfold raise. intro H. inversion H; subst.
      split; [reflexivity |]. left. split; reflexivity.
    + unfold ret at 1.
      unfold during_quality_change at 1.
      cbn [quality_change_time with_stream_uptime].
      fold (during_quality_change now v).
      destruct (during_quality_change now v) eqn:Eq.
      * intro H. apply Hskip in H. destruct r; [exact H | contradiction ..].
      * intro H. apply Hpolicy in H; [| reflexivity].
        destruct r as [u | e |]; [exact H | | exact H].
        destruct H as (He & Hf & H3). split; [reflexivity |]. right.
        repeat split; assumption.
  - unfold ret at 1.
    destruct (during_quality_change now v) eqn:Eq.
    * intro H. apply Hskip in H. destruct r; [exact H | contradiction ..].
    * intro H. apply Hpolicy in H; [| reflexivity].
      destruct r as [u | e |]; [exact H | | exact H].
      destruct H as (He & Hf & H3). split; [reflexivity |]. right.
      repeat split; assumption.
Qed.

End Handler.

Lemma silent_nil (new : History) : forallb (fun _ : Event => false) new = true -> new = [].
Proof. destruct new; [reflexivity | discriminate]. Qed.

(** The object once the frame at hand has been counted. *)
Definition count_frame (v : VideoQueue) : VideoQueue :=
  let v0 := with_total_frames (S (total_frames v))
              (with_frame_count (S (frame_count v)) v) in
  if negb (first_frame_received v0) then with_first_frame_received true v0 else v0.

Lemma handler_video_eq (env : Env) (v : VideoQueue) (h : History) (msg : Packet) :
  is_Xzyh msg = true ->
  _handler env (Some 1%nat, msg) (mkSt v h)
  = (close_window (clock env h) (count_frame v) ;;
     modify (with_last_frame_time (clock env h)) ;;
     call env (service_notify msg))
      (mkSt (count_frame v) (h ++ [Clock (clock env h)])).
Proof.
  intro Hx. unfold _handler. rewrite Hx. cbn [negb].
  unfold bind at 1, time_time. cbn [self trace].
  unfold bind at 1, modify at 1. cbn [self trace].
  unfold bind at 1, modify at 1. cbn [self trace].
  unfold bind at 1, get_self at 1. cbn [self trace].
  unfold bind at 1.
  assert (Hfirst : forall h1,
             (if negb (first_frame_received
                         (with_total_frames
                            (S (total_frames (with_frame_count (S (frame_count v)) v)))
                            (with_frame_count (S (frame_count v)) v)))
              then modify (with_first_frame_received true) else ret tt)
               (mkSt (with_total_frames
                        (S (total_frames (with_frame_count (S (frame_count v)) v)))
                        (with_frame_count (S (frame_count v)) v)) h1)
             = (Return tt, mkSt (count_frame v) h1)).
  { intro h1. unfold count_frame. destruct v as [sst ffr tf su swc lwt ve cq fc lfc lft qct lsr].
    cbn. destruct ffr; reflexivity. }
  rewrite Hfirst. unfold bind at 1, get_self at 1. cbn [self trace].
  reflexivity.
Qed.

(** X14.  What [_handler] does with a packet, for every packet and
    state.  Anything but an [Xzyh] on channel 1 is ignored: no attribute
    changes and nothing is called, not even the clock.  A video frame is
    always counted in [total_frames], exactly once, and marks the first
    frame as received.  It is forwarded to the consumers ([notify]) and
    stamps [last_frame_time] exactly when the window bookkeeping before
    it does not raise; when that raises (the restart signal of the third
    low window, or the division by a zero uptime in the statistics line)
    the frame is counted but neither forwarded nor stamped. *)
Theorem handler_outcome (env : Env) (v : VideoQueue) (h : History)
        (data : option nat * Packet) :
  exists new : History,
    trace (snd (_handler env data (mkSt v h))) = h ++ new /\
    if is_video data then
      total_frames (self (snd (_handler env data (mkSt v h)))) = S (total_frames v) /\
      first_frame_received (self (snd (_handler env data (mkSt v h)))) = true /\
      video_enabled (self (snd (_handler env data (mkSt v h)))) = video_enabled v /\
      match fst (_handler env data (mkSt v h)) with
      | Return _ =>
          new = [Clock (clock env h); Called (service_notify (snd data))] /\
          last_frame_time (self (snd (_handler env data (mkSt v h)))) = clock env h /\
          frame_count (self (snd (_handler env data (mkSt v h))))
          = (if due (clock env h) v then 0 else S (frame_count v))%nat
      | Raise e =>
          (new = [Clock (clock env h); Called (service_notify (snd data))] /\
           raises env (h ++ [Clock (clock env h)]) (service_notify (snd data)) = Some e /\
           last_frame_time (self (snd (_handler env data (mkSt v h)))) = clock env h) \/
          (new = [Clock (clock env h)] /\
           due (clock env h) v = true /\
           last_frame_time (self (snd (_handler env data (mkSt v h)))) = last_frame_time v /\
           (e = ZeroDivisionError \/
            e = ServiceRestartSignal "Persistent low frame rate"))
      | OutOfFuel => False
      end
    else
      new = [] /\
      _handler env data (mkSt v h) = (Return tt, mkSt v h).
Proof.
  destruct data as [ch msg]. unfold is_video. cbn [fst snd].
  assert (Hignore : forall c, _handler env (c, msg) (mkSt v h) = (Return tt, mkSt v h) ->
                              exists new : History,
                                trace (snd (_handler env (c, msg) (mkSt v h))) = h ++ new /\
                                new = [] /\
                                _handler env (c, msg) (mkSt v h) = (Return tt, mkSt v h)).
  { intros c Hc. exists []. rewrite Hc, app_nil_r. repeat split. }
  destruct ch as [[| [| n]] |]; try (apply Hignore; reflexivity).
  destruct (is_Xzyh msg) eqn:Hx.
  2:{ apply Hignore. unfold _handler. rewrite Hx. reflexivity. }
  clear Hignore.
  destruct (_handler env (Some 1%nat, msg) (mkSt v h)) as [r [v' h']] eqn:E.
  cbn [fst snd self trace]. rewrite (handler_video_eq env v h msg Hx) in E.
  set (now := clock env h) in *. set (v1 := count_frame v) in *.
  assert (Hv1 : counted v1 = (S (total_frames v), true, video_enabled v, last_frame_time v)
                /\ frame_count v1 = S (frame_count v)
                /\ due now v1 = due now v).
  { subst v1. unfold count_frame, counted, due.
    destruct v as [sst ffr tf su swc lwt ve cq fc lfc lft qct lsr].
    cbn. destruct ffr; repeat split. }
  destruct Hv1 as (Hcounted & Hfc & Hdue).
  unfold bind at 1 in E.
  destruct (close_window now v1 (mkSt v1 (h ++ [Clock now]))) as [[u | e |] [v2 h2]] eqn:Ew.
  - pose proof (close_window_keeps now v1 _ Ew) as Hk. cbn [self] in Hk.
    destruct (close_window_silent now v1 _ Ew) as (new0 & Ht0 & Hp0).
    apply silent_nil in Hp0. subst new0. cbn [trace] in Ht0. rewrite app_nil_r in Ht0.
    subst h2.
    apply close_window_outcome in Ew. cbn [self] in Ew. rewrite Hdue, Hfc in Ew.
    rewrite Hcounted in Hk. unfold counted in Hk. injection Hk as Htf Hffr Hve Hlft.
    unfold bind at 1, modify in E. cbn [self trace] in E. unfold call in E.
    cbn [self trace] in E.
    exists [Clock now; Called (service_notify msg)].
    destruct (raises env (h ++ [Clock now]) (service_notify msg)) as [e |] eqn:Er;
      inversion E; subst r v' h';
      cbn [total_frames first_frame_received video_enabled
           last_frame_time frame_count with_last_frame_time];
      (split; [rewrite <- app_assoc; reflexivity |]);
      (split; [exact Htf |]); (split; [exact Hffr |]); (split; [exact Hve |]).
    + left. repeat split.
    + split; [reflexivity |]. split; [reflexivity | exact Ew].
  - pose proof (close_window_keeps now v1 _ Ew) as Hk. cbn [self] in Hk.
    destruct (close_window_silent now v1 _ Ew) as (new0 & Ht0 & Hp0).
    apply silent_nil in Hp0. subst new0. cbn [trace] in Ht0. rewrite app_nil_r in Ht0.
    subst h2.
    apply close_window_outcome in Ew. rewrite Hdue in Ew. destruct Ew as [Hd He].
    rewrite Hcounted in Hk. unfold counted in Hk. injection Hk as Htf Hffr Hve Hlft.
    inversion E; subst r v' h'.
    exists [Clock now].
    split; [reflexivity |].
    split; [exact Htf |]. split; [exact Hffr |]. split; [exact Hve |].
    right. split; [reflexivity |]. split; [exact Hd |]. split; [exact Hlft |].
    destruct He as [[He _] | [He _]]; [left | right]; exact He.
  - apply close_window_outcome in Ew. contradiction.
Qed.


End HandlerSpec.

(** ** Further properties of [web/service/filetransfer.py] *)

Module TransferPathsSpec.
Import FileTransfer FileTransferSpec.

(** An event that neither borrows nor returns the P2P service. *)
Definition plain (ev : Event) : bool := negb (is_get ev) && negb (is_put ev).

Definition is_read (ev : Event) : bool :=
  match ev with Called fd_read => true | _ => false end.

Definition is_sleep (ev : Event) : bool :=
  match ev with Slept _ => true | _ => false end.

Lemma gets_app (h1 h2 : History) : gets (h1 ++ h2) = (gets h1 + gets h2)%nat.
Proof. unfold gets. rewrite filter_app, length_app. reflexivity. Qed.

Lemma puts_app (h1 h2 : History) : puts (h1 ++ h2) = (puts h1 + puts h2)%nat.
Proof. unfold puts. rewrite filter_app, length_app. reflexivity. Qed.

Lemma plain_none (h : History) :
  forallb plain h = true -> gets h = 0%nat /\ puts h = 0%nat.
Proof.
  unfold gets, puts. induction h as [| ev h IH]; cbn [forallb filter]; intro H.
  - split; reflexivity.
  - apply andb_true_iff in H. destruct H as [Hev Hh]. destruct (IH Hh) as [IH1 IH2].
    unfold plain in Hev. apply andb_true_iff in Hev. destruct Hev as [H1 H2].
    apply negb_true_iff in H1, H2. rewrite H1, H2. split; assumption.
Qed.

Lemma gets_none (h : History) :
  forallb (fun ev => negb (is_get ev)) h = true -> gets h = 0%nat.
Proof.
  unfold gets. induction h as [| ev h IH]; cbn [forallb filter]; intro H; [reflexivity |].
  apply andb_true_iff in H. destruct H as [Hev Hh]. apply negb_true_iff in Hev.
  rewrite Hev. exact (IH Hh).
Qed.

Lemma sleeps_plain (h : History) :
  forallb is_sleep h = true ->
  forallb plain h = true /\ forallb (fun ev => negb (is_read ev)) h = true /\
  TransferSpec.bulk_frames h = [].
Proof.
  induction h as [| ev h IH]; cbn [forallb]; intro H.
  - repeat split.
  - apply andb_true_iff in H. destruct H as [Hev Hh]. destruct (IH Hh) as (IH1 & IH2 & IH3).
    destruct ev; try discriminate. cbn. rewrite IH1, IH2. repeat split. exact IH3.
Qed.

Section Paths.
Variable env : Env.
Variable fui_bytes : Transfer.FileUploadInfo -> bytes.
Variable md5_hex : bytes -> string.

Lemma wait_connected_emits {Self : Type} (p : Event -> bool) (fuel : nat) :
  (forall d, p (Slept d) = true) ->
  emits p (@Transfer.wait_connected env Self fuel).
Proof.
  intro Hp. induction fuel as [| fuel IH]; cbn [Transfer.wait_connected].
  - emit.
  - apply emits_bind; [emit | intro st].
    destruct (is_Connected st); [emit |].
    apply emits_bind; [apply emits_log, Hp | intros _].
    apply emits_bind; [emit | intros []; [emit | exact IH]].
Qed.

Lemma upload_emits {Self : Type} (fuel : nat) (fui : Transfer.FileUploadInfo)
      (data : bytes) (rate : Q) :
  emits plain (@Transfer.send_file env fui_bytes Self fuel fui data rate).
Proof.
  unfold Transfer.send_file.
  apply emits_bind; [apply wait_connected_emits; reflexivity | intros _].
  apply emits_bind; [unfold Transfer.RateLimiter_init; emit | intro rl].
  apply emits_bind; [emit | intro h0]. cbv zeta.
  do 2 (apply emits_bind; [emit | intros _]).
  apply emits_bind; [| intros _; emit].
  generalize (Transfer.py_range 0 (len data) Transfer.blocksize) as positions.
  intro positions. revert rl.
  induction positions as [| pos rest IH]; intro rl; cbn [Transfer.send_chunks]; [emit |].
  apply emits_bind; [unfold Transfer.wait; emit | intro rl1].
  apply emits_bind; [emit | intros _; apply IH].
Qed.

(** The first [try] statement: how it ends, and that it touches neither
    the cache nor the upload. *)
Lemma acquire_outcome (fuel : nat) (svc : FileTransferService) (h : History) r s1 :
  acquire env fuel (mkSt svc h) = (r, s1) ->
  exists new1 : History,
    trace s1 = h ++ Called (svc_get "pppp") :: new1 /\
    forallb is_sleep new1 = true /\
    cached_file (self s1) = cached_file svc /\
    cached_filename (self s1) = cached_filename svc /\
    match r with
    | Raise e =>
        e = ConnectionError "No pppp connection to printer" \/
        e = ConnectionError "API thread stopped" \/
        (raises env h (svc_get "pppp") = Some e /\ is_AttributeError e = false)
    | _ => True
    end.
Proof.
  unfold acquire, try_except, bind at 1, svc_get_pppp, bind at 1, history.
  cbn [self trace]. unfold bind at 1, call. cbn [self trace].
  destruct (raises env h (svc_get "pppp")) as [e0 |] eqn:Eg.
  { destruct (is_AttributeError e0) eqn:Ea; unfold raise; intro H; inversion H; subst;
      exists []; repeat split; auto. }
  unfold ret at 1. unfold bind at 1, modify. cbn [self trace].
  destruct (pppp_service env h) as [[api |] |].
  - unfold bind at 1.
    destruct (Transfer.wait_connected env fuel _) as [[u | e |] s0] eqn:Ew;
      apply UploadSpec.wait_connected_quiet in Ew;
      destruct Ew as (new0 & Hs0 & Ht0 & _ & Hp0 & Hr0); cbn [self trace] in *.
    + unfold ret. intro H. inversion H; subst. exists new0.
      rewrite Ht0, Hs0, <- app_assoc. repeat split. exact Hp0.
    + subst e. cbn [is_AttributeError]. intro H. inversion H; subst. exists new0.
      rewrite Ht0, Hs0, <- app_assoc. repeat split; auto.
    + intro H. inversion H; subst. exists new0.
      rewrite Ht0, Hs0, <- app_assoc. repeat split. exact Hp0.
  - unfold raise. cbn [is_AttributeError]. intro H. inversion H; subst.
    exists []. repeat split; auto.
  - unfold raise. cbn [is_AttributeError]. intro H. inversion H; subst.
    exists []. repeat split; auto.
Qed.

(** The second [try] statement: every exit goes through [finally]. *)
Lemma transfer_outcome (fuel : nat) (fd : Upload) (user_name : string) (rate : Q)
      (s1 : St FileTransferService) r s' :
  transfer env fui_bytes md5_hex fuel fd user_name rate s1 = (r, s') ->
  r <> OutOfFuel ->
  exists mid : History,
    trace s' = trace s1 ++ Called fd_read :: mid ++ [Called (svc_put "pppp")] /\
    forallb plain mid = true /\
    cached_file (self s') = None /\
    cached_filename (self s') = None.
Proof.
  unfold transfer, try_finally.
  match goal with |- context [try_except ?c ?p ?k s1] =>
    assert (Hbody : forall r1 s2, try_except c p k s1 = (r1, s2) ->
                                  exists mid, trace s2 = trace s1 ++ Called fd_read :: mid /\
                                              forallb plain mid = true);
      [| destruct (try_except c p k s1) as [[u | e |] s2] eqn:E]
  end.
  { intros r1 s2. unfold try_except, bind at 1, history. cbn [self trace].
    unfold bind at 1, call. cbn [self trace].
    destruct (raises env (trace s1) fd_read).
    { cbn [is_Exception]. unfold raise. intro H. inversion H; subst.
      exists []. split; reflexivity. }
    unfold bind at 1, modify at 1. cbn [self trace].
    unfold bind at 1, modify at 1. cbn [self trace]. cbv zeta.
    match goal with |- context [Transfer.send_file env fui_bytes fuel ?fui ?data rate ?st] =>
      destruct (Transfer.send_file env fui_bytes fuel fui data rate st)
        as [[u | e |] s3] eqn:Eu;
        destruct (@upload_emits _ fuel fui data rate _ _ _ Eu) as (mid & Ht & Hp)
    end; cbn [self trace is_Exception] in *; unfold raise; intro H; inversion H; subst;
      exists mid; (split; [rewrite Ht, <- app_assoc; reflexivity | exact Hp]). }
  - destruct (Hbody _ _ eq_refl) as (mid & Ht & Hp).
    unfold release, bind, modify, call. cbn [self trace].
    destruct (raises env (trace s2) (svc_put "pppp")); intros H _; inversion H; subst;
      exists mid; cbn [self trace cached_file cached_filename with_cached_file
                            with_cached_filename];
      rewrite Ht, <- app_assoc; repeat split; exact Hp.
  - destruct (Hbody _ _ eq_refl) as (mid & Ht & Hp).
    unfold release, bind, modify, call. cbn [self trace].
    destruct (raises env (trace s2) (svc_put "pppp")); intros H _; inversion H; subst;
      exists mid; cbn [self trace cached_file cached_filename with_cached_file
                            with_cached_filename];
      rewrite Ht, <- app_assoc; repeat split; exact Hp.
  - intros H Hfuel. inversion H; subst. contradiction.
Qed.

(** Once the service is borrowed, it is not borrowed again. *)
Lemma transfer_emits (fuel : nat) (fd : Upload) (user_name : string) (rate : Q) :
  emits (fun ev => negb (is_get ev))
        (transfer env fui_bytes md5_hex fuel fd user_name rate).
Proof.
  unfold transfer, release.
  apply emits_try_finally; [| emit].
  apply emits_try_except; [| intro; emit].
  apply emits_bind; [emit | intro h0].
  apply emits_bind; [emit | intros _].
  do 2 (apply emits_bind; [emit | intros _]). cbv zeta.
  eapply emits_weaken; [| apply upload_emits].
  intros ev Hev. unfold plain in Hev. apply andb_true_iff in Hev. apply Hev.
Qed.

End Paths.

(** X15.  The two ways out of [FileTransferService.send_file], for every
    behaviour of the services.  Either it leaves from the first [try]
    statement: then it raises, the cache is as it was, the upload was
    never read, nothing was sent, and the borrowed service is not given
    back (one [get], no [put]); the exception is one of the two
    [ConnectionError]s, or what [get] itself raised.  Or it goes through
    the second [try] statement: then, whether the upload succeeds or
    fails, the upload was read once, the cache is empty again and the
    last thing done is the one [put] that matches the one [get]. *)
Theorem send_file_exit_paths (env : Env) (fui_bytes : Transfer.FileUploadInfo -> bytes)
        (md5_hex : bytes -> string) (fuel : nat) (fd : Upload) (user_name : string)
        (rate_limit_mbps : Q) (svc : FileTransferService) (h : History) :
  exists new : History,
    trace (snd (send_file env fui_bytes md5_hex fuel fd user_name rate_limit_mbps
                          (mkSt svc h)))
    = h ++ Called (svc_get "pppp") :: new /\
    gets new = 0%nat /\
    match fst (send_file env fui_bytes md5_hex fuel fd user_name rate_limit_mbps
                         (mkSt svc h)) with
    | OutOfFuel => True
    | r =>
        (exists e,
            r = Raise e /\
            (e = ConnectionError "No pppp connection to printer" \/
             e = ConnectionError "API thread stopped" \/
             (raises env h (svc_get "pppp") = Some e /\ is_AttributeError e = false)) /\
            puts new = 0%nat /\
            forallb (fun ev => negb (is_read ev)) new = true /\
            TransferSpec.bulk_frames new = [] /\
            cached_file (self (snd (send_file env fui_bytes md5_hex fuel fd user_name
                                              rate_limit_mbps (mkSt svc h))))
            = cached_file svc /\
            cached_filename (self (snd (send_file env fui_bytes md5_hex fuel fd user_name
                                                  rate_limit_mbps (mkSt svc h))))
            = cached_filename svc)
        \/
        (exists polls mid,
            new = polls ++ Called fd_read :: mid ++ [Called (svc_put "pppp")] /\
            forallb is_sleep polls = true /\
            puts new = 1%nat /\
            cached_file (self (snd (send_file env fui_bytes md5_hex fuel fd user_name
                                              rate_limit_mbps (mkSt svc h))))
            = None /\
            cached_filename (self (snd (send_file env fui_bytes md5_hex fuel fd user_name
                                                  rate_limit_mbps (mkSt svc h))))
            = None)
    end.
Proof.
  destruct (send_file env fui_bytes md5_hex fuel fd user_name rate_limit_mbps (mkSt svc h))
    as [r s'] eqn:E.
  cbn [fst snd]. unfold send_file, bind in E.
  destruct (acquire env fuel (mkSt svc h)) as [[api | e |] s1] eqn:Ea;
    apply acquire_outcome in Ea; destruct Ea as (new1 & Ht1 & Hp1 & Hcf & Hcn & He);
    destruct (sleeps_plain _ Hp1) as (Hplain1 & Hread1 & Hbulk1);
    destruct (plain_none _ Hplain1) as [Hg1 Hpu1].
  - destruct r as [u | e |].
    3:{ destruct (@transfer_emits env fui_bytes md5_hex fuel fd user_name rate_limit_mbps
                                  _ _ _ E) as (mid & Ht & Hp).
        exists (new1 ++ mid). split; [rewrite Ht, Ht1, <- app_assoc; reflexivity |].
        split; [rewrite gets_app, Hg1; apply gets_none, Hp | exact I]. }
    all: apply transfer_outcome in E; [| discriminate];
      destruct E as (mid & Ht & Hp & Hc1 & Hc2);
      destruct (plain_none _ Hp) as [Hg2 Hpu2];
      exists (new1 ++ Called fd_read :: mid ++ [Called (svc_put "pppp")]);
      (split; [rewrite Ht, Ht1, <- app_assoc; reflexivity |]);
      (split; [rewrite gets_app, Hg1; cbn [gets filter is_get List.length];
               fold (gets (mid ++ [Called (svc_put "pppp")]));
               rewrite gets_app, Hg2; reflexivity |]);
      right; exists new1, mid; (split; [reflexivity |]); (split; [exact Hp1 |]);
      (split; [rewrite puts_app, Hpu1; cbn [puts filter is_put List.length];
               fold (puts (mid ++ [Called (svc_put "pppp")]));
               rewrite puts_app, Hpu2; reflexivity |]);
      split; assumption.
  - inversion E; subst r s'. exists new1. split; [exact Ht1 |]. split; [exact Hg1 |].
    left. exists e. repeat split; assumption.
  - inversion E; subst r s'. exists new1. split; [exact Ht1 |]. split; [exact Hg1 |].
    exact I.
Qed.

End TransferPathsSpec.

(** ** Properties of [cli/logfmt.py] *)

Module LogfmtSpec.
Import Logfmt.

(** The levels [ColorFormatter] has a mark and a colour for. *)
Definition known_levels : list Z := [CRITICAL; ERROR; WARNING; INFO; DEBUG; VERBOSE].

Lemma lookup_known {A : Type} (k : Z) (d : list (Z * A)) :
  lookup k d <> None <-> In k (map fst d).
Proof.
  induction d as [| [k' v] rest IH]; cbn [lookup map fst In].
  - split; [congruence | tauto].
  - destruct (Z.eqb_spec k' k) as [-> | Hne].
    + split; [intros _; left; reflexivity | discriminate].
    + rewrite IH. split; [intro H; right; exact H | intros [H | H]; [contradiction | exact H]].
Qed.

(** A level with a mark has a colour. *)
Lemma marked_coloured (k : Z) :
  lookup k _marks <> None -> lookup k _colors <> None.
Proof.
  intro H. apply lookup_known. apply lookup_known in H. exact H.
Qed.

(** What [format] makes of the outcome of the base formatter: its line
    behind the styled mark and elapsed time, or its exception. *)
Definition decorate (style : string -> Colour -> option bool -> string)
           (elapsed_str : string) (mark : string) (colour : Colour)
           (r : outcome string) : outcome string :=
  match r with
  | Return line =>
      Return (String.concat ""
                [style "[" blue (Some true);
                 style mark colour (Some true);
                 style "]" blue (Some true);
                 " ";
                 style ("[" ++ elapsed_str ++ "]") cyan None;
                 " ";
                 line])%string
  | Raise e => Raise e
  | OutOfFuel => OutOfFuel
  end.

Section Formatter.
Variable env : Env.
Variable SCRIPT_START_TIME : Q.
Variable packet_re_match : string -> option (string * string * string).
Variable style : string -> Colour -> option bool -> string.
Variable format_1f : Q -> string.
Variable base_format : M LogRecord string.

(** The first statement of [format]: the inner test asks for level 15
    under an outer test that allows at most level 10, so the assignment
    to [rec.msg] is never reached. *)
Lemma simplify_unreachable (rec : LogRecord) (h : History) :
  (if (levelno rec <=? DEBUG)%Z then
     match msg rec with
     | Str text =>
         match packet_re_match text with
         | Some (direction, pkt_type, details) =>
             if (levelno rec =? 15)%Z
             then modify (with_msg (Str (direction ++ " " ++ pkt_type)))
             else ret tt
         | None => ret tt
         end
     | Obj _ => ret tt
     end
   else ret tt) (mkSt rec h) = (Return tt, mkSt rec h).
Proof.
  destruct (Z.leb_spec (levelno rec) DEBUG) as [Hle | Hgt]; [| reflexivity].
  destruct (msg rec) as [text | tag]; [| reflexivity].
  destruct (packet_re_match text) as [[[direction pkt_type] details] |]; [| reflexivity].
  destruct (Z.eqb_spec (levelno rec) 15) as [H15 | Hne]; [| reflexivity].
  exfalso. unfold DEBUG in Hle. lia.
Qed.

(** [format], with the unreachable assignment gone: one clock read,
    the two lookups, and the call of the base formatter on the record
    as it was logged. *)
Lemma format_eq (rec : LogRecord) (h : History) :
  format env SCRIPT_START_TIME packet_re_match style format_1f base_format (mkSt rec h)
  = match lookup (levelno rec) _marks with
    | None => (Raise KeyError, mkSt rec (h ++ [Clock (clock env h)]))
    | Some mark =>
        match lookup (levelno rec) _colors with
        | None => (Raise KeyError, mkSt rec (h ++ [Clock (clock env h)]))
        | Some colour =>
            (decorate style (format_1f (clock env h - SCRIPT_START_TIME) ++ "s")
                      mark colour
                      (fst (base_format (mkSt rec (h ++ [Clock (clock env h)])))),
             snd (base_format (mkSt rec (h ++ [Clock (clock env h)]))))
        end
    end.
Proof.
  unfold format. unfold bind at 1, get_self. cbn [self trace].
  unfold bind at 1. rewrite simplify_unreachable.
  unfold bind at 1, time_time. cbn [self trace]. cbv zeta.
  unfold bind at 1, get_self. cbn [self trace].
  destruct (lookup (levelno rec) _marks); [| reflexivity].
  destruct (lookup (levelno rec) _colors); [| reflexivity].
  unfold bind, ret, decorate.
  destruct (base_format (mkSt rec (h ++ [Clock (clock env h)]))) as [[line | e |] s'];
    reflexivity.
Qed.

End Formatter.

(** X16.  [ColorFormatter.format] itself never assigns to the record,
    whatever the level, the message and the pattern match: the
    shortening of packet lines at the level [VERBOSE] stands under a
    test that admits only levels up to [DEBUG], and 15 is not one of
    them.  So the base formatter is always entered with the record
    exactly as it was logged, after one read of the clock, and the
    record and history [format] leaves are the ones the base formatter
    left.  For a level without a mark the base formatter is not called,
    and the record is unchanged. *)
Theorem format_never_rewrites (env : Env) (SCRIPT_START_TIME : Q)
        (packet_re_match : string -> option (string * string * string))
        (style : string -> Colour -> option bool -> string)
        (format_1f : Q -> string) (base_format : M LogRecord string)
        (rec : LogRecord) (h : History) :
  snd (format env SCRIPT_START_TIME packet_re_match style format_1f base_format
              (mkSt rec h))
  = match lookup (levelno rec) _marks with
    | Some _ => snd (base_format (mkSt rec (h ++ [Clock (clock env h)])))
    | None => mkSt rec (h ++ [Clock (clock env h)])
    end.
Proof.
  rewrite format_eq.
  pose proof (@marked_coloured (levelno rec)) as Hc.
  destruct (lookup (levelno rec) _marks) as [mark |]; [| reflexivity].
  destruct (lookup (levelno rec) _colors) as [colour |]; [reflexivity |].
  exfalso. apply Hc; [discriminate | reflexivity].
Qed.

(** X17.  [ColorFormatter.format] has a mark and a colour for exactly
    six levels: [CRITICAL], [ERROR], [WARNING], [INFO], [DEBUG] and 15.
    For every other level (0, 5, 25, ...) it raises [KeyError] before
    the base formatter is called.  For the six, the outcome is the base
    formatter's: its exception when it raises, and otherwise its line
    behind the mark and the elapsed time, styled. *)
Theorem format_known_levels (env : Env) (SCRIPT_START_TIME : Q)
        (packet_re_match : string -> option (string * string * string))
        (style : string -> Colour -> option bool -> string)
        (format_1f : Q -> string) (base_format : M LogRecord string)
        (rec : LogRecord) (h : History) :
  (In (levelno rec) known_levels ->
   exists (mark : string) (colour : Colour),
     lookup (levelno rec) _marks = Some mark /\
     lookup (levelno rec) _colors = Some colour /\
     fst (format env SCRIPT_START_TIME packet_re_match style format_1f base_format
                 (mkSt rec h))
     = decorate style (format_1f (clock env h - SCRIPT_START_TIME) ++ "s") mark colour
                (fst (base_format (mkSt rec (h ++ [Clock (clock env h)]))))) /\
  (~ In (levelno rec) known_levels ->
   format env SCRIPT_START_TIME packet_re_match style format_1f base_format
          (mkSt rec h)
   = (Raise KeyError, mkSt rec (h ++ [Clock (clock env h)]))).
Proof.
  rewrite format_eq.
  pose proof (lookup_known (levelno rec) _marks) as Hm.
  pose proof (lookup_known (levelno rec) _colors) as Hc.
  change (map fst _marks) with known_levels in Hm.
  change (map fst _colors) with known_levels in Hc.
  split; intro Hin.
  - apply Hm in Hin as Hm1. apply Hc in Hin as Hc1.
    destruct (lookup (levelno rec) _marks) as [mark |]; [| congruence].
    destruct (lookup (levelno rec) _colors) as [colour |]; [| congruence].
    exists mark, colour. repeat split.
  - destruct (lookup (levelno rec) _marks) as [mark |]; [| reflexivity].
    exfalso. apply Hin, Hm. discriminate.
Qed.

End LogfmtSpec.

(** ** Properties of the worker methods of [web/service/video.py] *)

Module VideoWorkerSpec.
Import Video VideoWorker.
Import PPPPSpec.
Import RunLoopSpec (session_live).

(** *** Calls through [self.pppp] *)

Section Through.
Variable env : Env.

Lemma connected_eq (svc : PPPP.PPPPService) (h : History) :
  PPPP.connected env (mkSt svc h) = (Return (session_live env svc h), mkSt svc h).
Proof.
  unfold PPPP.connected, session_live, bind, get_self, read_api_stopped, read_api_state, ret.
  cbn [self trace]. destruct (PPPP._api svc); reflexivity.
Qed.

Lemma api_command_eq (c : Command) (svc : PPPP.PPPPService) (h : History) :
  PPPP.api_command env c (mkSt svc h)
  = if session_live env svc h
    then call env (api_json_command c) (mkSt svc h)
    else (Raise (ConnectionError "No pppp connection"), mkSt svc h).
Proof.
  unfold PPPP.api_command. unfold bind at 1, get_self. cbn [self trace].
  unfold bind at 1. rewrite connected_eq. unfold session_live.
  destruct (PPPP._api svc); [| reflexivity].
  destruct (negb (api_stopped env h) && is_Connected (api_state env h))%bool; reflexivity.
Qed.

Lemma pppp_connected_eq (w : World) (h : History) :
  pppp_connected env (mkSt w h)
  = (Return (pppp (video w) && session_live env (service w) h)%bool, mkSt w h).
Proof.
  unfold pppp_connected, bind, get_self. cbn [self trace].
  destruct (pppp (video w)); [| reflexivity].
  unfold on_service. cbn [self trace]. rewrite connected_eq. cbn [self trace andb].
  destruct w. reflexivity.
Qed.


(** A command sent through [self.pppp]: it goes out when the session is
    live, and raises [ConnectionError] otherwise; the objects are left
    alone. *)
Lemma command_eq (c : Command) (w : World) (h : History) :
  on_service (PPPP.api_command env c) (mkSt w h)
  = if session_live env (service w) h
    then match raises env h (api_json_command c) with
         | Some e => (Raise e, mkSt w (h ++ [Called (api_json_command c)]))
         | None => (Return tt, mkSt w (h ++ [Called (api_json_command c)]))
         end
    else (Raise (ConnectionError "No pppp connection"), mkSt w h).
Proof.
  unfold on_service. cbn [self trace]. rewrite api_command_eq.
  destruct (session_live env (service w) h).
  - unfold call. cbn [self trace].
    destruct (raises env h (api_json_command c)); destruct w; reflexivity.
  - destruct w. reflexivity.
Qed.

End Through.

(** *** Starting the stream *)

(** The video service once a stream has been started: the request at
    [now], the start at [t1] (clock) and [t2] (date), the window reset
    at [t3]. *)
Definition started (now t1 t2 t3 : Q) (v : VideoService) : VideoService :=
  with_queue (with_last_frame_check t3)
    (with_queue (with_frame_count 0)
       (with_queue (with_total_frames 0)
          (with_queue (with_first_frame_received false)
             (with_stream_start_timestamp (Some t2)
                (with_queue (with_stream_start_time (Some t1))
                   (with_queue (with_last_start_request now) v)))))).

Section Start.
Variable env : Env.

(** [api_start_live], case by case. *)
Lemma api_start_live_eq (w : World) (h : History) :
  api_start_live env (mkSt w h) =
  if (pppp (video w) && session_live env (service w) h)%bool then
    let now := clock env h in
    let h1 := h ++ [Clock now] in
    if Qltb (now - last_start_request (queue (video w))) start_request_debounce
    then (Return tt, mkSt w h1)
    else
      let w1 := on_video (with_queue (with_last_start_request now)) w in
      if session_live env (service w) h1 then
        match raises env h1 (api_json_command START_LIVE) with
        | Some _ => (Return tt, mkSt w1 (h1 ++ [Called (api_json_command START_LIVE)]))
        | None =>
            let h2 := h1 ++ [Called (api_json_command START_LIVE)] in
            let t1 := clock env h2 in
            let t2 := clock env (h2 ++ [Clock t1]) in
            let t3 := clock env ((h2 ++ [Clock t1]) ++ [Clock t2]) in
            (Return tt,
             mkSt (on_video (started now t1 t2 t3) w)
                  (((h2 ++ [Clock t1]) ++ [Clock t2]) ++ [Clock t3]))
        end
      else (Return tt, mkSt w1 h1)
  else (Return tt, mkSt w h).
Proof.
  unfold api_start_live. unfold bind at 1. rewrite pppp_connected_eq.
  destruct (pppp (video w) && session_live env (service w) h)%bool; [| reflexivity].
  cbn [negb]. unfold bind at 1, time_time. cbn [self trace].
  unfold bind at 1, get_self. cbn [self trace]. cbv zeta.
  destruct (Qltb _ start_request_debounce); [reflexivity |].
  unfold bind at 1, modify at 1. cbn [self trace].
  unfold try_except. unfold bind at 1. rewrite command_eq.
  cbn [service on_video].
  destruct (session_live env (service w) (h ++ [Clock (clock env h)])); [| reflexivity].
  destruct (raises env _ (api_json_command START_LIVE)); [reflexivity |].
  unfold bind, modify, time_time, ret. cbn [self trace].
  destruct w as [[q ts p sl sm ai] svc]. reflexivity.
Qed.

End Start.

(** X18.  [api_start_live] never raises and leaves the P2P service
    alone.  It sends at most one command, [START_LIVE], and only when
    the session is live and at least [start_request_debounce] (one
    second) has passed since the last request.  The request time is
    recorded as soon as the debounce test is passed, before the send and
    whether or not it succeeds, so a failed request is debounced like a
    sent one.  Short of that test nothing changes.  The stream state
    is reset (start time set, frame counters zeroed, first frame
    awaited) exactly when the command was sent without an exception. *)
Theorem start_requests_are_debounced (env : Env) (w : World) (h : History) :
  exists (w' : World) (new : History),
    api_start_live env (mkSt w h) = (Return tt, mkSt w' (h ++ new)) /\
    service w' = service w /\
    (calls new = [] \/ calls new = [api_json_command START_LIVE]) /\
    (calls new <> [] ->
     pppp (video w) = true /\ session_live env (service w) h = true /\
     start_request_debounce <= clock env h - last_start_request (queue (video w))) /\
    ((pppp (video w) && session_live env (service w) h)%bool = true ->
     start_request_debounce <= clock env h - last_start_request (queue (video w)) ->
     last_start_request (queue (video w')) = clock env h) /\
    (video w' = video w \/ last_start_request (queue (video w')) = clock env h) /\
    (stream_start_time (queue (video w')) <> stream_start_time (queue (video w)) ->
     calls new = [api_json_command START_LIVE] /\
     raises env (h ++ [Clock (clock env h)]) (api_json_command START_LIVE) = None /\
     first_frame_received (queue (video w')) = false /\
     total_frames (queue (video w')) = 0%nat /\
     frame_count (queue (video w')) = 0%nat /\
     stream_start_timestamp (video w') <> None).
Proof.
  rewrite api_start_live_eq.
  destruct (pppp (video w) && session_live env (service w) h)%bool eqn:Elive.
  2:{ exists w, []. rewrite app_nil_r. split; [reflexivity |]. split; [reflexivity |].
      split; [left; reflexivity |]. split; [intro H; contradiction H; reflexivity |].
      split; [discriminate |]. split; [left; reflexivity |].
      intro H. contradiction H. reflexivity. }
  apply andb_true_iff in Elive. destruct Elive as [Hp Hl].
  cbv zeta.
  destruct (Qltb (clock env h - last_start_request (queue (video w)))
                 start_request_debounce) eqn:Edeb.
  { apply Qltb_lt in Edeb.
    exists w, [Clock (clock env h)]. split; [reflexivity |]. split; [reflexivity |].
    split; [left; reflexivity |]. split; [intro H; contradiction H; reflexivity |].
    split; [intros _ Hge; exfalso; apply (Qlt_not_le _ _ Edeb Hge) |].
    split; [left; reflexivity |].
    intro H. contradiction H. reflexivity. }
  apply Qltb_ge in Edeb.
  destruct (session_live env (service w) (h ++ [Clock (clock env h)])).
  2:{ eexists _, [Clock (clock env h)]. split; [reflexivity |].
      split; [reflexivity |]. split; [left; reflexivity |].
      split; [intro H; contradiction H; reflexivity |].
      split; [intros _ _; reflexivity |]. split; [right; reflexivity |].
      intro H. contradiction H. reflexivity. }
  destruct (raises env (h ++ [Clock (clock env h)]) (api_json_command START_LIVE)) eqn:Er.
  - eexists _, [Clock (clock env h); Called (api_json_command START_LIVE)].
    split; [rewrite <- app_assoc; reflexivity |].
    split; [reflexivity |]. split; [right; reflexivity |].
    split; [intros _; repeat split; assumption |].
    split; [intros _ _; reflexivity |]. split; [right; reflexivity |].
    intro H. contradiction H. reflexivity.
  - eexists _, [Clock (clock env h); Called (api_json_command START_LIVE);
                Clock _; Clock _; Clock _].
    split; [rewrite <- !app_assoc; reflexivity |].
    split; [reflexivity |]. split; [right; reflexivity |].
    split; [intros _; repeat split; assumption |].
    split; [intros _ _; reflexivity |]. split; [right; reflexivity |].
    intros _. split; [reflexivity |]. split; [reflexivity |].
    split; [reflexivity |]. split; [reflexivity |]. split; [reflexivity | discriminate].
Qed.


(** *** The other commands *)

Section Commands.
Variable env : Env.

Lemma api_light_state_eq (light : bool) (w : World) (h : History) :
  api_light_state env light (mkSt w h) =
  if (pppp (video w) && session_live env (service w) h)%bool
  then (Return tt,
        mkSt (on_video (with_saved_light_state (Some (Some light))) w)
             (h ++ [Called (api_json_command (LIGHT_STATE_SWITCH light))]))
  else (Return tt, mkSt w h).
Proof.
  unfold api_light_state. unfold bind at 1. rewrite pppp_connected_eq.
  destruct (pppp (video w) && session_live env (service w) h)%bool eqn:Elive;
    [| reflexivity].
  apply andb_true_iff in Elive. destruct Elive as [_ Hl].
  cbn [negb]. unfold try_except, bind, modify. cbn [self trace].
  rewrite command_eq. cbn [service on_video]. rewrite Hl.
  destruct (raises env h _); reflexivity.
Qed.

Lemma api_video_mode_eq (mode : nat) (w : World) (h : History) :
  api_video_mode env mode (mkSt w h) =
  if (pppp (video w) && session_live env (service w) h)%bool
  then (Return tt,
        mkSt (on_video (with_saved_video_mode (Some (Some mode))) w)
             (h ++ [Called (api_json_command (LIVE_MODE_SET mode))]))
  else (Return tt, mkSt w h).
Proof.
  unfold api_video_mode. unfold bind at 1. rewrite pppp_connected_eq.
  destruct (pppp (video w) && session_live env (service w) h)%bool eqn:Elive;
    [| reflexivity].
  apply andb_true_iff in Elive. destruct Elive as [_ Hl].
  cbn [negb]. unfold try_except, bind, modify. cbn [self trace].
  rewrite command_eq. cbn [service on_video]. rewrite Hl.
  destruct (raises env h _); reflexivity.
Qed.

(** The [try] statement of [api_stop_live]. *)
Definition close_live (w : World) (h : History) : outcome unit * St World :=
  if session_live env (service w) h then
    match raises env h (api_json_command CLOSE_LIVE) with
    | Some _ => (Return tt, mkSt w (h ++ [Called (api_json_command CLOSE_LIVE)]))
    | None =>
        (Return tt,
         mkSt (on_video (with_queue (with_first_frame_received false))
                        (on_video (with_stream_start_timestamp None) w))
              (h ++ [Called (api_json_command CLOSE_LIVE)]))
    end
  else (Return tt, mkSt w h).

Lemma api_stop_live_eq (w : World) (h : History) :
  api_stop_live env (mkSt w h) =
  if pppp (video w) then
    match stream_start_timestamp (video w) with
    | Some _ =>
        match stream_start_time (queue (video w)) with
        | Some _ => close_live w (h ++ [Clock (clock env h)])
        | None => (Raise TypeError, mkSt w (h ++ [Clock (clock env h)]))
        end
    | None => close_live w h
    end
  else (Return tt, mkSt w h).
Proof.
  unfold api_stop_live. unfold bind at 1, get_self. cbn [self trace].
  destruct (pppp (video w)); [| reflexivity]. cbn [negb].
  assert (Htail : forall h1,
             try_except
               (on_service (PPPP.api_command env CLOSE_LIVE) ;;
                modify (on_video (with_stream_start_timestamp None)) ;;
                modify (on_video (with_queue (with_first_frame_received false))))
               is_Exception (fun _ => ret tt) (mkSt w h1)
             = close_live w h1).
  { intro h1. unfold close_live, try_except. unfold bind at 1. rewrite command_eq.
    destruct (session_live env (service w) h1); [| reflexivity].
    destruct (raises env h1 _); reflexivity. }
  unfold bind at 1.
  destruct (stream_start_timestamp (video w)).
  - unfold bind at 1, time_time. cbn [self trace].
    destruct (stream_start_time (queue (video w))); [apply Htail | reflexivity].
  - apply Htail.
Qed.

End Commands.

(** *** The stream start is recorded before its date *)

(** Whenever the date of the stream start is recorded, so is its time.
    [api_start_live] is the only place that sets either, and it sets
    both. *)
Definition start_recorded (v : VideoService) : Prop :=
  stream_start_timestamp v <> None -> stream_start_time (queue v) <> None.

(** What the commands leave alone in the video service. *)
Definition shell (v : VideoService)
  : bool * option (option nat) * bool * Q * option Q * Q :=
  (pppp v, api_id v, video_enabled (queue v), last_frame_time (queue v),
   quality_change_time (queue v), last_warning_time (queue v)).

Section Frames.
Variable env : Env.

Lemma api_start_live_frame (w : World) (h : History) :
  exists (w' : World) (new : History),
    api_start_live env (mkSt w h) = (Return tt, mkSt w' (h ++ new)) /\
    service w' = service w /\
    shell (video w') = shell (video w) /\
    saved_light_state (video w') = saved_light_state (video w) /\
    saved_video_mode (video w') = saved_video_mode (video w) /\
    (start_recorded (video w) -> start_recorded (video w')) /\
    prefix (calls new) [api_json_command START_LIVE].
Proof.
  rewrite api_start_live_eq.
  destruct (pppp (video w) && session_live env (service w) h)%bool.
  2:{ exists w, []. rewrite app_nil_r. repeat split; auto. apply prefix_nil. }
  cbv zeta. destruct (Qltb _ start_request_debounce).
  { exists w. eexists. repeat split; auto. apply prefix_nil. }
  destruct (session_live env (service w) _).
  2:{ eexists _, _. repeat split; auto. apply prefix_nil. }
  destruct (raises env _ _).
  - eexists _, _. split; [rewrite <- app_assoc; reflexivity |].
    repeat split; auto. apply prefix_refl.
  - eexists _, _. split; [rewrite <- !app_assoc; reflexivity |].
    repeat split; auto; [intros _ _; discriminate | apply prefix_refl].
Qed.

Lemma api_light_state_frame (light : bool) (w : World) (h : History) :
  exists (w' : World) (new : History),
    api_light_state env light (mkSt w h) = (Return tt, mkSt w' (h ++ new)) /\
    service w' = service w /\
    shell (video w') = shell (video w) /\
    queue (video w') = queue (video w) /\
    stream_start_timestamp (video w') = stream_start_timestamp (video w) /\
    saved_video_mode (video w') = saved_video_mode (video w) /\
    prefix (calls new) [api_json_command (LIGHT_STATE_SWITCH light)].
Proof.
  rewrite api_light_state_eq.
  destruct (pppp (video w) && session_live env (service w) h)%bool.
  - eexists _, _. repeat split; auto. apply prefix_refl.
  - exists w, []. rewrite app_nil_r. repeat split; auto. apply prefix_nil.
Qed.

Lemma api_video_mode_frame (mode : nat) (w : World) (h : History) :
  exists (w' : World) (new : History),
    api_video_mode env mode (mkSt w h) = (Return tt, mkSt w' (h ++ new)) /\
    service w' = service w /\
    shell (video w') = shell (video w) /\
    queue (video w') = queue (video w) /\
    stream_start_timestamp (video w') = stream_start_timestamp (video w) /\
    saved_light_state (video w') = saved_light_state (video w) /\
    prefix (calls new) [api_json_command (LIVE_MODE_SET mode)].
Proof.
  rewrite api_video_mode_eq.
  destruct (pppp (video w) && session_live env (service w) h)%bool.
  - eexists _, _. repeat split; auto. apply prefix_refl.
  - exists w, []. rewrite app_nil_r. repeat split; auto. apply prefix_nil.
Qed.

(** With the start recorded, [api_stop_live] cannot fail. *)
Lemma api_stop_live_frame (w : World) (h : History) :
  start_recorded (video w) ->
  exists (w' : World) (new : History),
    api_stop_live env (mkSt w h) = (Return tt, mkSt w' (h ++ new)) /\
    service w' = service w /\
    shell (video w') = shell (video w) /\
    saved_light_state (video w') = saved_light_state (video w) /\
    saved_video_mode (video w') = saved_video_mode (video w) /\
    start_recorded (video w') /\
    prefix (calls new) [api_json_command CLOSE_LIVE].
Proof.
  intro Hrec. rewrite api_stop_live_eq.
  destruct (pppp (video w)).
  2:{ exists w, []. rewrite app_nil_r. repeat split; auto. apply prefix_nil. }
  assert (Htail : forall h1 pre,
             h1 = h ++ pre -> calls pre = [] ->
             exists (w' : World) (new : History),
               close_live env w h1 = (Return tt, mkSt w' (h ++ new)) /\
               service w' = service w /\
               shell (video w') = shell (video w) /\
               saved_light_state (video w') = saved_light_state (video w) /\
               saved_video_mode (video w') = saved_video_mode (video w) /\
               start_recorded (video w') /\
               prefix (calls new) [api_json_command CLOSE_LIVE]).
  { intros h1 pre -> Hpre. unfold close_live.
    destruct (session_live env (service w) (h ++ pre)).
    2:{ exists w, pre. rewrite Hpre. repeat split; auto. apply prefix_nil. }
    destruct (raises env _ _).
    - exists w. eexists. split; [rewrite <- app_assoc; reflexivity |].
      rewrite calls_app, Hpre. repeat split; auto. apply prefix_refl.
    - eexists _, _. split; [rewrite <- app_assoc; reflexivity |].
      rewrite calls_app, Hpre. repeat split; auto.
      + intro Hc. contradiction Hc. reflexivity.
      + apply prefix_refl. }
  destruct (stream_start_timestamp (video w)) eqn:Ets.
  - destruct (stream_start_time (queue (video w))) eqn:Est.
    + apply (Htail _ [Clock (clock env h)]); reflexivity.
    + exfalso. apply Hrec; [rewrite Ets; discriminate | exact Est].
  - apply (Htail h []); [rewrite app_nil_r |]; reflexivity.
Qed.

End Frames.


(** *** Registering and removing the handler *)

Definition is_command (op : Op) : bool :=
  match op with api_json_command _ => true | _ => false end.

Lemma prefix_command (c : Command) (l : list Op) :
  prefix l [api_json_command c] -> forallb is_command l = true.
Proof.
  intros (rest & E). destruct l as [| x l]; [reflexivity |].
  cbn [app] in E. inversion E as [[Hx Hl]].
  symmetry in Hl. apply app_eq_nil in Hl. destruct Hl as [-> _]. reflexivity.
Qed.

Lemma py_remove_in (x : nat) (l : list nat) :
  py_in x l = true -> py_remove x l <> None.
Proof.
  unfold py_in. induction l as [| y rest IH]; cbn [existsb py_remove]; [discriminate |].
  rewrite (Nat.eqb_sym y x).
  destruct (x =? y)%nat; [discriminate |]. cbn [orb]. intro H. apply IH in H.
  destruct (py_remove x rest); [discriminate | contradiction].
Qed.

Lemma py_in_app (x : nat) (l : list nat) : py_in x (l ++ [x]) = true.
Proof.
  unfold py_in. rewrite existsb_app. cbn [existsb]. rewrite Nat.eqb_refl.
  cbn [orb]. apply orb_true_r.
Qed.

(** An element appended to a list it was not in is the one [remove]
    takes out again. *)
Lemma py_remove_app (x : nat) (l : list nat) :
  py_in x l = false -> py_remove x (l ++ [x]) = Some l.
Proof.
  unfold py_in. induction l as [| y rest IH]; cbn [existsb py_remove app].
  - rewrite Nat.eqb_refl. reflexivity.
  - rewrite (Nat.eqb_sym y x). destruct (x =? y)%nat; [discriminate |].
    cbn [orb]. intro H. rewrite (IH H). reflexivity.
Qed.

(** The handler list without the first occurrence of [x], if any. *)
Definition without (x : nat) (l : list nat) : list nat :=
  match py_remove x l with Some l' => l' | None => l end.

Lemma unregister_eq (me : nat) (w : World) (h : History) :
  unregister me (mkSt w h)
  = (Return tt, mkSt (on_handlers (without me) w) h).
Proof.
  unfold unregister, bind, get_self, modify, ret, without. cbn [self trace].
  destruct (py_in me (PPPP.handlers (service w))) eqn:Ein.
  - apply py_remove_in in Ein. unfold on_handlers.
    destruct (py_remove me (PPPP.handlers (service w))); [reflexivity | contradiction].
  - assert (Hnone : py_remove me (PPPP.handlers (service w)) = None).
    { revert Ein. unfold py_in.
      induction (PPPP.handlers (service w)) as [| y rest IH]; cbn [existsb py_remove];
        [reflexivity |].
      rewrite (Nat.eqb_sym y me). destruct (me =? y)%nat; [discriminate |].
      cbn [orb]. intro H. rewrite (IH H). reflexivity. }
    unfold on_handlers. cbv beta. rewrite Hnone.
    destruct w as [v svc]. destruct svc. reflexivity.
Qed.

Lemma session_live_handlers (env : Env) (l : list nat) (svc : PPPP.PPPPService)
      (h : History) :
  session_live env (PPPP.set_handlers l svc) h = session_live env svc h.
Proof. reflexivity. Qed.

Section StartStop.
Variable env : Env.
Variable me : nat.

(** The world once [worker_start] has borrowed the P2P service and
    registered the handler, before it sends anything. *)
Definition registered (w : World) : World :=
  on_handlers (fun l => l ++ [me])
    (on_video (with_api_id (Some (py_id (PPPP._api (service w)))))
       (on_video (with_pppp true) w)).

(** The [try] block of [worker_start] when the service is there and the
    saved states exist: it cannot fail. *)
Lemma start_body_run (w : World) (h : History) :
  raises env h (svc_get "pppp") = None ->
  pppp_service env h <> None ->
  saved_light_state (video w) <> None ->
  saved_video_mode (video w) <> None ->
  exists (w' : World) (new : History),
    start_body env me (mkSt w h)
    = (Return tt, mkSt w' (h ++ Called (svc_get "pppp") :: new)) /\
    forallb is_command (calls new) = true /\
    service w' = service (registered w) /\
    shell (video w') = shell (video (registered w)) /\
    (start_recorded (video w) -> start_recorded (video w')) /\
    (session_live env (service w) (h ++ [Called (svc_get "pppp")]) = false ->
     w' = registered w /\ new = []).
Proof.
  intros Hget Hfound Hlight Hmode.
  unfold start_body. unfold bind at 1, svc_get_pppp, bind at 1, history.
  cbn [self trace]. unfold bind at 1, call. cbn [self trace]. rewrite Hget.
  unfold ret at 1.
  destruct (pppp_service env h) as [found |]; [| contradiction].
  unfold bind at 1, modify at 1. cbn [self trace negb].
  unfold bind at 1, get_self at 1. cbn [self trace].
  unfold bind at 1, modify at 1. cbn [self trace].
  unfold bind at 1, modify at 1. cbn [self trace].
  cbn [service on_video].
  fold (registered w).
  set (h0 := h ++ [Called (svc_get "pppp")]).
  assert (Hlive : forall h', session_live env (service (registered w)) h'
                             = session_live env (service w) h') by reflexivity.
  (* the stream *)
  unfold bind at 1.
  destruct (api_start_live_frame env (registered w) h0)
    as (w1 & new1 & E1 & Hs1 & Hsh1 & Hl1 & Hm1 & Hr1 & Hc1).
  rewrite E1. apply prefix_command in Hc1.
  assert (Hidle1 : session_live env (service w) h0 = false ->
                   w1 = registered w /\ new1 = []).
  { intro Hdead. rewrite api_start_live_eq in E1. rewrite Hlive, Hdead, andb_false_r in E1.
    inversion E1 as [[Hw Hh]]. split; [reflexivity |].
    rewrite <- (app_nil_r h0) in Hh at 1. apply app_inv_head in Hh. auto. }
  (* the light *)
  unfold bind at 1, get_self at 1. cbn [self trace].
  unfold bind at 1.
  assert (Elight : exists (w2 : World) (new2 : History),
             (match saved_light_state (video w1) with
              | None => raise AttributeError
              | Some None => ret tt
              | Some (Some light) => api_light_state env light
              end) (mkSt w1 (h0 ++ new1)) = (Return tt, mkSt w2 ((h0 ++ new1) ++ new2)) /\
             service w2 = service w1 /\
             shell (video w2) = shell (video w1) /\
             queue (video w2) = queue (video w1) /\
             stream_start_timestamp (video w2) = stream_start_timestamp (video w1) /\
             saved_video_mode (video w2) = saved_video_mode (video w1) /\
             forallb is_command (calls new2) = true /\
             (session_live env (service w) (h0 ++ new1) = false ->
              w2 = w1 /\ new2 = [])).
  { rewrite Hl1. change (saved_light_state (video (registered w)))
      with (saved_light_state (video w)).
    destruct (saved_light_state (video w)) as [[light |] |]; [| | contradiction].
    - destruct (api_light_state_frame env light w1 (h0 ++ new1))
        as (w2 & new2 & E2 & Hs2 & Hsh2 & Hq2 & Ht2 & Hm2 & Hc2).
      exists w2, new2. apply prefix_command in Hc2.
      assert (Hid : session_live env (service w) (h0 ++ new1) = false ->
                    w2 = w1 /\ new2 = []).
      { intro Hdead. pose proof E2 as E2'. rewrite api_light_state_eq in E2'.
        rewrite Hs1, Hlive, Hdead, andb_false_r in E2'. inversion E2' as [[Hw Hh]].
        rewrite <- (app_nil_r (h0 ++ new1)) in Hh at 1. apply app_inv_head in Hh.
        auto. }
      exact (conj E2 (conj Hs2 (conj Hsh2 (conj Hq2 (conj Ht2 (conj Hm2 (conj Hc2 Hid))))))).
    - exists w1, []. rewrite app_nil_r. repeat split. }
  destruct Elight as (w2 & new2 & E2 & Hs2 & Hsh2 & Hq2 & Ht2 & Hm2 & Hc2 & Hidle2).
  rewrite E2.
  (* the mode *)
  unfold bind at 1, get_self at 1. cbn [self trace].
  assert (Emode : exists (w3 : World) (new3 : History),
             (match saved_video_mode (video w2) with
              | None => raise AttributeError
              | Some None => ret tt
              | Some (Some mode) => api_video_mode env mode
              end) (mkSt w2 ((h0 ++ new1) ++ new2))
             = (Return tt, mkSt w3 (((h0 ++ new1) ++ new2) ++ new3)) /\
             service w3 = service w2 /\
             shell (video w3) = shell (video w2) /\
             queue (video w3) = queue (video w2) /\
             stream_start_timestamp (video w3) = stream_start_timestamp (video w2) /\
             forallb is_command (calls new3) = true /\
             (session_live env (service w) ((h0 ++ new1) ++ new2) = false ->
              w3 = w2 /\ new3 = [])).
  { rewrite Hm2, Hm1. change (saved_video_mode (video (registered w)))
      with (saved_video_mode (video w)).
    destruct (saved_video_mode (video w)) as [[mode |] |]; [| | contradiction].
    - destruct (api_video_mode_frame env mode w2 ((h0 ++ new1) ++ new2))
        as (w3 & new3 & E3 & Hs3 & Hsh3 & Hq3 & Ht3 & _ & Hc3).
      exists w3, new3. apply prefix_command in Hc3.
      assert (Hid : session_live env (service w) ((h0 ++ new1) ++ new2) = false ->
                    w3 = w2 /\ new3 = []).
      { intro Hdead. pose proof E3 as E3'. rewrite api_video_mode_eq in E3'.
        rewrite Hs2, Hs1, Hlive, Hdead, andb_false_r in E3'. inversion E3' as [[Hw Hh]].
        rewrite <- (app_nil_r ((h0 ++ new1) ++ new2)) in Hh at 1.
        apply app_inv_head in Hh. auto. }
      exact (conj E3 (conj Hs3 (conj Hsh3 (conj Hq3 (conj Ht3 (conj Hc3 Hid)))))).
    - exists w2, []. rewrite app_nil_r. repeat split. }
  destruct Emode as (w3 & new3 & E3 & Hs3 & Hsh3 & Hq3 & Ht3 & Hc3 & Hidle3).
  rewrite E3.
  exists w3, (new1 ++ new2 ++ new3).
  split; [subst h0; rewrite <- !app_assoc; reflexivity |].
  split; [rewrite !calls_app, !forallb_app, Hc1, Hc2, Hc3; reflexivity |].
  split; [congruence |]. split; [congruence |].
  split.
  { intros Hrec Hts. unfold start_recorded in Hr1.
    rewrite Hq3, Hq2. rewrite Ht3, Ht2 in Hts. apply (Hr1 Hrec Hts). }
  intro Hdead. destruct (Hidle1 Hdead) as [-> ->]. rewrite app_nil_r in Hidle2.
  destruct (Hidle2 Hdead) as [-> ->]. rewrite !app_nil_r in Hidle3.
  destruct (Hidle3 Hdead) as [-> ->]. split; reflexivity.
Qed.

End StartStop.


Section StartStopRuns.
Variable env : Env.
Variable me : nat.

Lemma worker_start_run (w : World) (h : History) :
  video_enabled (queue (video w)) = true ->
  raises env h (svc_get "pppp") = None ->
  pppp_service env h <> None ->
  saved_light_state (video w) <> None ->
  saved_video_mode (video w) <> None ->
  exists (w' : World) (new : History),
    worker_start env me (mkSt w h)
    = (Return tt, mkSt w' (h ++ Called (svc_get "pppp") :: new)) /\
    forallb is_command (calls new) = true /\
    service w' = service (registered me w) /\
    shell (video w') = shell (video (registered me w)) /\
    (start_recorded (video w) -> start_recorded (video w')) /\
    (session_live env (service w) (h ++ [Called (svc_get "pppp")]) = false ->
     w' = registered me w /\ new = []).
Proof.
  intros Hen Hget Hfound Hlight Hmode.
  destruct (start_body_run env me w h Hget Hfound Hlight Hmode)
    as (w' & new & E & Hrest).
  exists w', new. split; [| exact Hrest].
  unfold worker_start, bind, get_self. cbn [self trace]. rewrite Hen. cbn [negb].
  unfold try_except. rewrite E. reflexivity.
Qed.

(** [worker_stop] on a service that holds the P2P service, when giving
    it back does not fail. *)
Lemma worker_stop_run (w : World) (h : History) :
  pppp (video w) = true ->
  start_recorded (video w) ->
  (forall h', raises env h' (svc_put "pppp") = None) ->
  exists (w' : World) (new : History),
    worker_stop env me (mkSt w h)
    = (Return tt, mkSt w' (h ++ new ++ [Called (svc_put "pppp")])) /\
    forallb is_command (calls new) = true /\
    service w' = service (on_handlers (without me) w) /\
    pppp (video w') = false.
Proof.
  intros Hp Hrec Hput.
  destruct (api_stop_live_frame env w h Hrec)
    as (w1 & new & E1 & Hs1 & Hsh1 & _ & _ & _ & Hc1).
  apply prefix_command in Hc1.
  exists (on_video (with_pppp false) (on_handlers (without me) w1)), new.
  split.
  - unfold worker_stop, try_except. unfold bind at 1, get_self at 1. cbn [self trace].
    rewrite Hp. unfold bind at 1. rewrite E1.
    unfold bind at 1. rewrite unregister_eq.
    unfold bind, call, modify. cbn [self trace]. rewrite Hput.
    rewrite <- app_assoc. reflexivity.
  - split; [exact Hc1 |]. split; [| reflexivity].
    cbn [service on_video on_handlers]. rewrite Hs1. reflexivity.
Qed.

End StartStopRuns.

Lemma set_handlers_same (svc : PPPP.PPPPService) :
  PPPP.set_handlers (PPPP.handlers svc) svc = svc.
Proof. destruct svc. reflexivity. Qed.

(** The session is connected from the second event on. *)
Definition connects_late : Env :=
  {| clock := clock quiet_env;
     raises := raises quiet_env;
     api_state := fun h => match h with [] | [_] => Idle | _ => Connected end;
     api_stopped := api_stopped quiet_env;
     recv_result := recv_result quiet_env;
     uuid4 := uuid4 quiet_env;
     file_bytes := file_bytes quiet_env;
     windows := windows quiet_env;
     printer_config := printer_config quiet_env;
     pppp_dump := pppp_dump quiet_env;
     new_api := new_api quiet_env;
     pppp_service := pppp_service quiet_env;
     run_state := run_state quiet_env |}.

(** A video service just initialised by [worker_init] at time 0, with
    video enabled, next to a P2P service that has a session. *)
Definition fresh_world : World :=
  mkWorld
    (with_saved_video_mode (Some None)
       (with_saved_light_state (Some None)
          (with_queue (with_video_enabled true) (init 0))))
    PPPPSpec.live.

(** X19.  A [worker_start] made while the P2P session is not connected
    still succeeds: it keeps the P2P service and registers the handler,
    but sends nothing and records no stream start.  If no frame has been
    received and no stream was ever started, every later [worker_run]
    that finds the session connected raises [TypeError] (at
    [now - self.stream_start_time], with [stream_start_time] still
    [None]), provided no frame is handled during its idle wait. *)
Theorem start_without_session_breaks_run
        (env : Env) (me : nat) (idle meanwhile : Q -> Method unit)
        (w : World) (h : History) :
  (forall t s, exists s',
      idle t s = (Return tt, s') /\ queue (video (self s')) = queue (video (self s))) ->
  video_enabled (queue (video w)) = true ->
  first_frame_received (queue (video w)) = false ->
  stream_start_time (queue (video w)) = None ->
  saved_light_state (video w) <> None ->
  saved_video_mode (video w) <> None ->
  raises env h (svc_get "pppp") = None ->
  pppp_service env h <> None ->
  session_live env (service w) (h ++ [Called (svc_get "pppp")]) = false ->
  worker_start env me (mkSt w h)
  = (Return tt, mkSt (registered me w) (h ++ [Called (svc_get "pppp")])) /\
  forall (timeout : Q) (later : History),
    session_live env (service w) (h ++ [Called (svc_get "pppp")] ++ later) = true ->
    fst (worker_run env idle meanwhile timeout
           (mkSt (registered me w) (h ++ [Called (svc_get "pppp")] ++ later)))
    = Raise TypeError.
Proof.
  intros Hidle Hen Hfirst Hstart Hlight Hmode Hget Hfound Hdead.
  split.
  - destruct (worker_start_run env me w h Hen Hget Hfound Hlight Hmode)
      as (w' & new & E & _ & _ & _ & _ & Hquiet).
    destruct (Hquiet Hdead) as [-> ->]. exact E.
  - intros timeout later Hlive.
    unfold worker_run. unfold bind at 1, get_self at 1. cbn [self trace].
    change (video_enabled (queue (video (registered me w))))
      with (video_enabled (queue (video w))).
    rewrite Hen. cbn [negb].
    unfold bind at 1. rewrite pppp_connected_eq.
    change (pppp (video (registered me w))) with true.
    change (session_live env (service (registered me w)))
      with (session_live env (service w)).
    rewrite Hlive. cbn [andb negb].
    unfold bind at 1.
    destruct (Hidle timeout
                (mkSt (registered me w) (h ++ [Called (svc_get "pppp")] ++ later)))
      as (s' & Ei & Hq).
    rewrite Ei. cbn [self] in Hq.
    change (queue (video (registered me w))) with (queue (video w)) in Hq.
    unfold bind at 1, time_time at 1.
    unfold bind at 1, get_self at 1. cbn [self trace].
    rewrite Hq, Hfirst, Hstart. reflexivity.
Qed.

Lemma start_without_session_breaks_run_witness :
  worker_start connects_late 7 (mkSt fresh_world [])
  = (Return tt, mkSt (registered 7 fresh_world) [Called (svc_get "pppp")]) /\
  fst (worker_run connects_late (fun _ => ret tt) (fun _ => ret tt) 1
         (mkSt (registered 7 fresh_world) [Called (svc_get "pppp"); Slept 1]))
  = Raise TypeError.
Proof.
  assert (H := @start_without_session_breaks_run connects_late 7 (fun _ => ret tt)
                 (fun _ => ret tt)
                 fresh_world []).
  destruct H as [Hs Hr].
  - intros t s. exists s. split; reflexivity.
  - reflexivity.
  - reflexivity.
  - reflexivity.
  - discriminate.
  - discriminate.
  - reflexivity.
  - discriminate.
  - reflexivity.
  - split; [exact Hs |]. apply (Hr 1 [Slept 1]). reflexivity.
Defined.

(** X20.  Starting and then stopping the video service gives the P2P
    service back as it was: the handler appended by [worker_start] is
    the one [worker_stop] removes, so the handler list (and every other
    attribute of the P2P service) is restored; [app.svc.get] is answered
    by exactly one [app.svc.put], with only JSON commands sent between
    them; and the video service no longer refers to the P2P service. *)
Theorem start_stop_round_trip (env : Env) (me : nat) (w : World) (h : History) :
  video_enabled (queue (video w)) = true ->
  py_in me (PPPP.handlers (service w)) = false ->
  saved_light_state (video w) <> None ->
  saved_video_mode (video w) <> None ->
  start_recorded (video w) ->
  raises env h (svc_get "pppp") = None ->
  pppp_service env h <> None ->
  (forall h', raises env h' (svc_put "pppp") = None) ->
  exists (w' : World) (commands : History),
    (worker_start env me ;; worker_stop env me) (mkSt w h)
    = (Return tt,
       mkSt w' (h ++ [Called (svc_get "pppp")] ++ commands ++ [Called (svc_put "pppp")])) /\
    forallb is_command (calls commands) = true /\
    service w' = service w /\
    pppp (video w') = false.
Proof.
  intros Hen Hout Hlight Hmode Hrec Hget Hfound Hput.
  destruct (worker_start_run env me w h Hen Hget Hfound Hlight Hmode)
    as (w1 & new1 & E1 & Hc1 & Hs1 & Hsh1 & Hr1 & _).
  assert (Hp1 : pppp (video w1) = true).
  { unfold shell in Hsh1. injection Hsh1 as Hp _. exact Hp. }
  destruct (worker_stop_run env me w1 (h ++ Called (svc_get "pppp") :: new1)
              Hp1 (Hr1 Hrec) Hput)
    as (w2 & new2 & E2 & Hc2 & Hs2 & Hp2).
  exists w2, (new1 ++ new2).
  split.
  - unfold bind. rewrite E1, E2. cbn [app]. rewrite <- !app_assoc. reflexivity.
  - split; [rewrite calls_app, forallb_app, Hc1, Hc2; reflexivity |].
    split; [| exact Hp2].
    rewrite Hs2. cbn [service on_handlers]. rewrite Hs1.
    cbn [service registered on_handlers on_video PPPP.handlers PPPP.set_handlers].
    unfold without.
    rewrite (py_remove_app _ _ Hout).
    destruct (service w). reflexivity.
Qed.

Lemma start_stop_round_trip_witness :
  exists (w' : World) (commands : History),
    (worker_start quiet_env 7 ;; worker_stop quiet_env 7) (mkSt fresh_world [])
    = (Return tt,
       mkSt w' ([] ++ [Called (svc_get "pppp")] ++ commands ++ [Called (svc_put "pppp")])) /\
    forallb is_command (calls commands) = true /\
    service w' = service fresh_world /\
    pppp (video w') = false.
Proof.
  apply (@start_stop_round_trip quiet_env 7 fresh_world []).
  - reflexivity.
  - reflexivity.
  - discriminate.
  - discriminate.
  - intro Hc. exfalso. apply Hc. reflexivity.
  - reflexivity.
  - discriminate.
  - reflexivity.
Defined.


(** *** The stall check of [worker_run] *)

(** The stall check logs its warning: a frame was received once, none
    for more than [STALL_THRESHOLD] seconds, and the last warning is at
    least five seconds old. *)
Definition warns (now : Q) (q : VideoQueue) : bool :=
  first_frame_received q && Qltb STALL_THRESHOLD (now - last_frame_time q)
  && Qleb 5 (now - last_warning_time q).

(** It goes on to restart the stream in place. *)
Definition retries (now : Q) (q : VideoQueue) : bool :=
  warns now q && Qltb (STALL_THRESHOLD * 2) (now - last_frame_time q)
  && video_enabled q.

(** Lines 304-308: stop the stream, sleep, start it, sleep; the other
    threads run during the two sleeps. *)
Definition restart_in_place (env : Env) (meanwhile : Q -> Method unit) : Method unit :=
  api_stop_live env ;;
  time_sleep (1 # 2) ;;
  meanwhile (1 # 2) ;;
  api_start_live env ;;
  time_sleep 2 ;;
  meanwhile 2.

(** The world once the warning time is recorded. *)
Definition warned (now : Q) (w : World) : World :=
  on_video (with_queue (with_last_warning_time now)) w.

(** A stream whose only frame came at time 0, at a time when the clock
    reads 100. *)
Definition stalled_world : World :=
  mkWorld
    (with_pppp true
       (with_queue (with_first_frame_received true)
          (with_queue (with_video_enabled true) (init 0))))
    PPPPSpec.live.

Section Stall.
Variable env : Env.
Variable meanwhile : Q -> Method unit.

(** The stall check, case by case. *)
Lemma check_stall_eq (now : Q) (w : World) (h : History) :
  check_stall env meanwhile now (mkSt w h)
  = if (first_frame_received (queue (video w))
        && Qltb STALL_THRESHOLD (now - last_frame_time (queue (video w))))%bool then
      if Qleb 5 (now - last_warning_time (queue (video w))) then
        match PPPP._api (service w) with
        | None => (Raise AttributeError, mkSt w h)
        | Some _ =>
            if Qltb (STALL_THRESHOLD * 2) (now - last_frame_time (queue (video w))) then
              if video_enabled (queue (video w)) then
                match fst (restart_in_place env meanwhile (mkSt (warned now w) h)) with
                | OutOfFuel =>
                    (OutOfFuel, snd (restart_in_place env meanwhile (mkSt (warned now w) h)))
                | _ =>
                    ((if Qltb (STALL_THRESHOLD * 3)
                              (now - last_frame_time
                                       (queue (video (self (snd (restart_in_place
                                                                   env meanwhile
                                                                   (mkSt (warned now w) h)))))))
                      then Raise (ServiceRestartSignal "Stream stall detected")
                      else Return tt),
                     snd (restart_in_place env meanwhile (mkSt (warned now w) h)))
                end
              else (Return tt, mkSt (warned now w) h)
            else (Return tt, mkSt (warned now w) h)
        end
      else (Return tt, mkSt w h)
    else (Return tt, mkSt w h).
Proof.
  unfold check_stall. unfold bind at 1, get_self at 1. cbn [self trace]. cbv zeta.
  destruct (first_frame_received (queue (video w))
            && Qltb STALL_THRESHOLD (now - last_frame_time (queue (video w))))%bool;
    [| reflexivity].
  destruct (Qleb 5 (now - last_warning_time (queue (video w)))); [| reflexivity].
  unfold bind at 1, read_session_state at 1, bind at 1, get_self at 1.
  cbn [self trace].
  destruct (PPPP._api (service w)) as [api |]; [| reflexivity].
  unfold ret at 1. unfold bind at 1, modify at 1. cbn [self trace].
  unfold bind at 1, get_self at 1. cbn [self trace].
  fold (warned now w).
  change (last_frame_time (queue (video (warned now w))))
    with (last_frame_time (queue (video w))).
  destruct (Qltb (STALL_THRESHOLD * 2) (now - last_frame_time (queue (video w))));
    [| reflexivity].
  unfold bind at 1, get_self at 1. cbn [self trace].
  change (video_enabled (queue (video (warned now w))))
    with (video_enabled (queue (video w))).
  destruct (video_enabled (queue (video w))); [| reflexivity].
  unfold bind at 1, try_except.
  fold (restart_in_place env meanwhile).
  destruct (restart_in_place env meanwhile (mkSt (warned now w) h)) as [[u | e |] s0];
    cbn [fst snd is_Exception]; unfold bind, get_self, ret; cbn [self trace];
    try reflexivity;
    destruct (Qltb (STALL_THRESHOLD * 3) (now - last_frame_time (queue (video (self s0)))));
    reflexivity.
Qed.

End Stall.

(** X21.  The stall check of [worker_run] (lines 289-314), for the time
    [now] read after the idle wait, whatever the other threads do while
    it sleeps.  It does nothing unless a frame was received once, none
    for more than 10 s, and the last warning is at least 5 s old; then
    it records the warning time, or fails with [AttributeError] at its
    log line when the P2P service has no session.  Past 20 s, with video
    enabled, it stops and starts the stream in place, sleeping twice;
    what that raises is swallowed, and the check changes nothing after
    it.  It then raises the restart signal exactly when the [now] it
    was given, read before the in-place restart, is more than 30 s past
    [last_frame_time] as it is after the in-place restart: so a frame
    that the P2P worker handles during the two sleeps counts, and can
    call the restart off. *)
Theorem stall_check_outcome (env : Env) (meanwhile : Q -> Method unit) (now : Q)
        (w : World) (h : History) :
  (warns now (queue (video w)) = false ->
   check_stall env meanwhile now (mkSt w h) = (Return tt, mkSt w h)) /\
  (warns now (queue (video w)) = true ->
   PPPP._api (service w) = None ->
   check_stall env meanwhile now (mkSt w h) = (Raise AttributeError, mkSt w h)) /\
  (warns now (queue (video w)) = true ->
   retries now (queue (video w)) = false ->
   PPPP._api (service w) <> None ->
   check_stall env meanwhile now (mkSt w h) = (Return tt, mkSt (warned now w) h)) /\
  (retries now (queue (video w)) = true ->
   PPPP._api (service w) <> None ->
   snd (check_stall env meanwhile now (mkSt w h))
   = snd (restart_in_place env meanwhile (mkSt (warned now w) h)) /\
   fst (check_stall env meanwhile now (mkSt w h))
   = match fst (restart_in_place env meanwhile (mkSt (warned now w) h)) with
     | OutOfFuel => OutOfFuel
     | _ =>
         if Qltb (STALL_THRESHOLD * 3)
                 (now - last_frame_time
                          (queue (video (self (snd (check_stall env meanwhile now
                                                                (mkSt w h)))))))
         then Raise (ServiceRestartSignal "Stream stall detected")
         else Return tt
     end).
Proof.
  rewrite check_stall_eq. unfold retries, warns.
  destruct (first_frame_received (queue (video w))
            && Qltb STALL_THRESHOLD (now - last_frame_time (queue (video w))))%bool;
    cbn [andb].
  2:{ split; [reflexivity |]. split; [discriminate |]. split; discriminate. }
  destruct (Qleb 5 (now - last_warning_time (queue (video w)))); cbn [andb].
  2:{ split; [reflexivity |]. split; [discriminate |]. split; discriminate. }
  split; [discriminate |].
  destruct (PPPP._api (service w)) as [api |].
  2:{ split; [reflexivity |].
      split; [intros _ _ Hc | intros _ Hc]; contradiction Hc; reflexivity. }
  split; [discriminate |].
  destruct (Qltb (STALL_THRESHOLD * 2) (now - last_frame_time (queue (video w))));
    cbn [andb].
  2:{ split; [reflexivity | discriminate]. }
  destruct (video_enabled (queue (video w))).
  2:{ split; [reflexivity | discriminate]. }
  split; [discriminate |]. intros _ _.
  destruct (restart_in_place env meanwhile (mkSt (warned now w) h)) as [[u | e |] s0];
    cbn [fst snd]; split; reflexivity.
Qed.

(** A frame stamped at 99 s while the stall check sleeps calls the
    restart off; without it the same check raises. *)
Lemma frame_during_restart_example :
  fst (check_stall quiet_env
                   (fun _ => modify (on_video (with_queue (with_last_frame_time 99))))
                   100 (mkSt stalled_world []))
  = Return tt /\
  fst (check_stall quiet_env (fun _ => ret tt) 100 (mkSt stalled_world []))
  = Raise (ServiceRestartSignal "Stream stall detected").
Proof. split; vm_compute; reflexivity. Qed.

(** *** Restarts and the enabled flag *)

Section Disabled.
Variable env : Env.
Variable meanwhile : Q -> Method unit.




End Disabled.




(** *** How [worker_start] can fail *)

Section StartFails.
Variable env : Env.
Variable me : nat.

Lemma start_body_not_found (w : World) (h : History) :
  raises env h (svc_get "pppp") = None ->
  pppp_service env h = None ->
  start_body env me (mkSt w h)
  = (Return tt, mkSt (on_video (with_pppp false) w) (h ++ [Called (svc_get "pppp")])).
Proof.
  intros Hget Hnone.
  unfold start_body. unfold bind at 1, svc_get_pppp, bind at 1, history.
  cbn [self trace]. unfold bind at 1, call. cbn [self trace]. rewrite Hget.
  unfold ret at 1. rewrite Hnone. reflexivity.
Qed.

Lemma start_body_get_raises (w : World) (h : History) (e : Exn) :
  raises env h (svc_get "pppp") = Some e ->
  start_body env me (mkSt w h) = (Raise e, mkSt w (h ++ [Called (svc_get "pppp")])).
Proof.
  intro Hget.
  unfold start_body. unfold bind at 1, svc_get_pppp, bind at 1, history.
  cbn [self trace]. unfold bind at 1, call. cbn [self trace]. rewrite Hget.
  reflexivity.
Qed.

End StartFails.

(** X23.  Once [worker_init] has created the saved states, an enabled
    [worker_start] fails exactly when [app.svc.get("pppp")] does, and
    with that exception: no command error, missing service or dead
    session makes it fail.  When it fails, the video service ends up
    without a reference to the P2P service, and [_handler] is removed
    from the handler list if an earlier reference was still held. *)
Theorem worker_start_fails_only_on_get
        (env : Env) (me : nat) (w : World) (h : History) :
  video_enabled (queue (video w)) = true ->
  saved_light_state (video w) <> None ->
  saved_video_mode (video w) <> None ->
  fst (worker_start env me (mkSt w h))
  = match raises env h (svc_get "pppp") with
    | Some e => Raise e
    | None => Return tt
    end /\
  (raises env h (svc_get "pppp") <> None ->
   snd (worker_start env me (mkSt w h))
   = mkSt (on_video (with_pppp false)
             (if pppp (video w) then on_handlers (without me) w else w))
          (h ++ [Called (svc_get "pppp")])).
Proof.
  intros Hen Hlight Hmode.
  destruct (raises env h (svc_get "pppp")) as [e |] eqn:Hget.
  - assert (E : worker_start env me (mkSt w h)
                = (Raise e,
                   mkSt (on_video (with_pppp false)
                           (if pppp (video w) then on_handlers (without me) w else w))
                        (h ++ [Called (svc_get "pppp")]))).
    { unfold worker_start. unfold bind at 1, get_self at 1. cbn [self trace].
      rewrite Hen. cbn [negb]. unfold try_except.
      rewrite (start_body_get_raises env me w h Hget). cbn [is_Exception].
      unfold bind at 1, get_self at 1. cbn [self trace].
      unfold bind at 1.
      destruct (pppp (video w)).
      - rewrite unregister_eq. reflexivity.
      - reflexivity. }
    rewrite E. split; [reflexivity | intros _; reflexivity].
  - split; [| intro Hc; contradiction Hc; reflexivity].
    destruct (pppp_service env h) as [found |] eqn:Hfound.
    + assert (Hf : pppp_service env h <> None) by (rewrite Hfound; discriminate).
      destruct (worker_start_run env me w h Hen Hget Hf Hlight Hmode)
        as (w' & new & E & _).
      rewrite E. reflexivity.
    + unfold worker_start. unfold bind at 1, get_self at 1. cbn [self trace].
      rewrite Hen. cbn [negb]. unfold try_except.
      rewrite (start_body_not_found env me w h Hget Hfound). reflexivity.
Qed.

(** The service registry fails. *)
Definition registry_down : Env :=
  with_raises
    (fun _ op => match op with svc_get _ => Some (ServiceStoppedError "pppp") | _ => None end)
    quiet_env.

Lemma worker_start_fails_only_on_get_witness :
  fst (worker_start registry_down 7 (mkSt fresh_world []))
  = Raise (ServiceStoppedError "pppp") /\
  snd (worker_start registry_down 7 (mkSt fresh_world []))
  = mkSt (on_video (with_pppp false) fresh_world) [Called (svc_get "pppp")].
Proof.
  destruct (@worker_start_fails_only_on_get registry_down 7 fresh_world [])
    as [Hr Hs].
  - reflexivity.
  - discriminate.
  - discriminate.
  - split; [exact Hr |]. apply Hs. discriminate.
Defined.


End VideoWorkerSpec.
